(** * Order lifecycle of the takeout backend

    A shallow embedding of [models.py], [routers/dependencies.py],
    [routers/orders.py] and of the handlers of [routers/merchants.py] that
    list and open merchants and list, add, reprice and delete items: the
    status transition table, the role-scoped read handlers, order creation
    and the status update handler, with the database session as explicit
    state.

    Conventions.
    - A table is the list of its rows, in storage order.  Primary keys are
      SQL autoincrement integers, modelled as [Z]; the schema's key and
      foreign-key constraints are the boolean predicates of section
      "Schema constraints" and appear as hypotheses where a proof needs them.
    - [datetime.now(timezone.utc)] is the handler argument [now], a UTC
      timestamp as an integer.
    - [Item.price] is a binary64 float, as the [FLOAT] column is.
    - The database is the SQLite file [db.py] opens by default.  What its
      columns refuse at [session.commit()] is part of the handlers that
      store a value of the request: see "What the columns hold". *)

From Stdlib Require Import ZArith List String Bool Lia Floats.
Import ListNotations.
Open Scope Z_scope.

(** ** Enumerations ([models.py]) *)

Inductive UserRole : Set := CONSUMER | PARTNER | COURIER.

Inductive OrderStatus : Set :=
  PENDING | ACCEPTED | READY_FOR_PICKUP | IN_TRANSIT | DELIVERED | CANCELLED.

Definition UserRole_eqb (a b : UserRole) : bool :=
  match a, b with
  | CONSUMER, CONSUMER | PARTNER, PARTNER | COURIER, COURIER => true
  | _, _ => false
  end.

Definition OrderStatus_eqb (a b : OrderStatus) : bool :=
  match a, b with
  | PENDING, PENDING | ACCEPTED, ACCEPTED
  | READY_FOR_PICKUP, READY_FOR_PICKUP | IN_TRANSIT, IN_TRANSIT
  | DELIVERED, DELIVERED | CANCELLED, CANCELLED => true
  | _, _ => false
  end.

(** Python's [x in xs] on a list of enum members. *)
Definition status_in (x : OrderStatus) (xs : list OrderStatus) : bool :=
  existsb (OrderStatus_eqb x) xs.

Definition role_in (x : UserRole) (xs : list UserRole) : bool :=
  existsb (UserRole_eqb x) xs.

(** ** [OrderStatus.can_transition_to] *)

(** The per-role dictionary [valid_transitions], as the association list of
    its literal.  The source's final [else: return False] covers a role
    outside the enumeration, which [UserRole] has no value for. *)
Definition valid_transitions (role : UserRole)
  : list (OrderStatus * list OrderStatus) :=
  match role with
  | CONSUMER => [(PENDING, [CANCELLED])]
  | PARTNER =>
      [(PENDING, [ACCEPTED; CANCELLED]);
       (ACCEPTED, [READY_FOR_PICKUP; CANCELLED]);
       (READY_FOR_PICKUP, [CANCELLED])]
  | COURIER =>
      [(READY_FOR_PICKUP, [IN_TRANSIT]);
       (IN_TRANSIT, [DELIVERED])]
  end.

(** [d.get(key, default)] *)
Fixpoint dict_get {V : Type} (d : list (OrderStatus * V)) (key : OrderStatus)
  (default : V) : V :=
  match d with
  | [] => default
  | (k, v) :: d' => if OrderStatus_eqb k key then v else dict_get d' key default
  end.

Definition can_transition_to (self new_status : OrderStatus) (role : UserRole)
  : bool :=
  status_in new_status (dict_get (valid_transitions role) self []).

(** The transition table of the specification (section 4.2), one entry per
    permitted (role, current, target) triple. *)
Definition transition_table : list (UserRole * OrderStatus * OrderStatus) :=
  [ (CONSUMER, PENDING, CANCELLED);
    (PARTNER, PENDING, ACCEPTED);
    (PARTNER, PENDING, CANCELLED);
    (PARTNER, ACCEPTED, READY_FOR_PICKUP);
    (PARTNER, ACCEPTED, CANCELLED);
    (PARTNER, READY_FOR_PICKUP, CANCELLED);
    (COURIER, READY_FOR_PICKUP, IN_TRANSIT);
    (COURIER, IN_TRANSIT, DELIVERED) ].

(** ** Tables ([models.py]) *)

Module User.
Record t : Set := mk {
    id : Z;
    name : string;
    email : string;
    phone_number : string;
    role : UserRole;
    password : string }.
End User.

Module Merchant.
Record t : Set := mk {
    id : Z;
    name : string;
    description : option string;
    location : string;
    partner_id : Z }.
End Merchant.

Module Item.
Record t : Set := mk {
    id : Z;
    name : string;
    description : option string;
    price : float;
    merchant_id : Z }.
End Item.

Module OrderItem.
Record t : Set := mk {
    id : Z;
    item_id : Z;
    quantity : Z;
    order_id : Z }.
End OrderItem.

Module Order.
Record t : Set := mk {
    id : Z;
    delivery_address : string;
    order_instructions : option string;
    merchant_id : Z;
    consumer_id : Z;
    courier_id : option Z;
    status : OrderStatus;
    created_at : Z;
    delivered_at : option Z }.

Definition set_status (s : OrderStatus) (o : t) : t :=
    mk (id o) (delivery_address o) (order_instructions o) (merchant_id o)
       (consumer_id o) (courier_id o) s (created_at o) (delivered_at o).

Definition set_courier_id (c : option Z) (o : t) : t :=
    mk (id o) (delivery_address o) (order_instructions o) (merchant_id o)
       (consumer_id o) c (status o) (created_at o) (delivered_at o).

Definition set_delivered_at (d : option Z) (o : t) : t :=
    mk (id o) (delivery_address o) (order_instructions o) (merchant_id o)
       (consumer_id o) (courier_id o) (status o) (created_at o) d.
End Order.

(** The request bodies. *)
Module OrderItemCreateSchema.
Record t : Set := mk { item_id : Z; quantity : Z }.
End OrderItemCreateSchema.

Module OrderCreateSchema.
Record t : Set := mk {
    delivery_address : string;
    order_instructions : option string;
    items : list OrderItemCreateSchema.t }.
End OrderCreateSchema.

(** The database: one list of rows per table. *)
Record DB : Set := mkDB {
  users : list User.t;
  merchants : list Merchant.t;
  items : list Item.t;
  orders : list Order.t;
  order_items : list OrderItem.t }.

Definition empty_db : DB := mkDB [] [] [] [] [].

(** ** Exceptions and the session monad *)

(** The [detail] of every [HTTPException] the modelled handlers raise, one
    constructor per message.  [Cannot_transition] stands for the formatted
    message "Cannot transition from {order.status} to {status_update.status}
    as {current_user.role}" and keeps the three values it names. *)
Inductive Detail : Set :=
| Operation_not_permitted_for_this_role
| Only_partners_can_access_merchant_management
| Merchant_not_found
| No_permission_to_manage_this_merchant
| Item_not_found
| Order_not_found
| Not_your_order
| Order_not_available_for_viewing
| Order_must_contain_at_least_one_item
| Item_quantities_must_be_positive
| Items_not_found_or_belong_to_different_merchant
| Order_already_assigned_to_another_courier
| Already_have_an_active_order_in_transit
| Cannot_transition (current target : OrderStatus) (role : UserRole).

(** [AttributeError] is Python's answer to [None.name];
    [MultipleResultsFound] and [NoResultFound] are SQLAlchemy's, from
    [scalar_one] and [scalar_one_or_none]; [OverflowError] and
    [IntegrityError] are what [session.commit()] raises for a value a
    column cannot hold. *)
Inductive Exception : Set :=
| HTTPException (status_code : Z) (detail : Detail)
| AttributeError
| MultipleResultsFound
| NoResultFound
| OverflowError
| IntegrityError.

Inductive Result (A : Type) : Type :=
| Ok (a : A)
| Raise (e : Exception).
Arguments Ok {A} a.
Arguments Raise {A} e.

(** A handler runs against the session's database and leaves a database
    behind, together with its return value or the exception it raised. *)
Definition M (A : Type) : Type := DB -> DB * Result A.

Definition ret {A : Type} (a : A) : M A := fun db => (db, Ok a).

Definition raise {A : Type} (e : Exception) : M A := fun db => (db, Raise e).

Definition bind {A B : Type} (c : M A) (k : A -> M B) : M B :=
  fun db =>
    match c db with
    | (db', Ok a) => k a db'
    | (db', Raise e) => (db', Raise e)
    end.

Notation "x <- c ;; k" := (bind c (fun x => k))
  (at level 61, c at next level, right associativity).
Notation "c ;;; k" := (bind c (fun _ => k))
  (at level 61, right associativity).

Definition lift {A : Type} (r : Result A) : M A := fun db => (db, r).

(** [session.execute(select(...))]: a read of the current database. *)
Definition execute {A : Type} (q : DB -> A) : M A := fun db => (db, Ok (q db)).

(** [session.commit()] of the pending changes [f]. *)
Definition commit (f : DB -> DB) : M unit := fun db => (f db, Ok tt).

(** [if cond: raise e] *)
Definition raise_if (cond : bool) (e : Exception) : M unit :=
  if cond then raise e else ret tt.

(** ** What the columns hold ([db.py], [models.py])

    The handlers that store a number of the request ([create_order] a
    quantity, [create_merchant_item] and [update_merchant_item] a price)
    fail at [session.commit()] when the column cannot hold it; the session
    is then closed without a commit and the database is left as it was.

    An [Integer] column of the SQLite database holds a 64-bit signed
    integer; the driver refuses to bind any other Python int and raises
    [OverflowError]. *)
Definition sqlite_integer (z : Z) : bool :=
  (- 2 ^ 63 <=? z) && (z <? 2 ^ 63).

(** A [FLOAT] column holds a binary64 number that is not NaN: SQLite turns
    NaN into NULL, which a [nullable=False] column refuses with
    [IntegrityError]. *)
Definition sqlite_real (x : float) : bool := negb (PrimFloat.is_nan x).

(** What a [FLOAT] column gives back for a number it holds: the number,
    a zero without its sign. *)
Definition stored_real (x : float) : float :=
  if (x =? 0)%float then 0%float else x.

Definition scalar_one_or_none {A : Type} (rows : list A) : Result (option A) :=
  match rows with
  | [] => Ok None
  | [x] => Ok (Some x)
  | _ => Raise MultipleResultsFound
  end.

Definition scalar_one {A : Type} (rows : list A) : Result A :=
  match rows with
  | [] => Raise NoResultFound
  | [x] => Ok x
  | _ => Raise MultipleResultsFound
  end.

(** [x.attr] where [x] may be [None]. *)
Definition getattr {A B : Type} (x : option A) (attr : A -> B) : Result B :=
  match x with
  | Some a => Ok (attr a)
  | None => Raise AttributeError
  end.

(** ** Relationships ([models.py]) *)

Definition Order_items (db : DB) (o : Order.t) : list OrderItem.t :=
  filter (fun oi => OrderItem.order_id oi =? Order.id o) (order_items db).

Definition OrderItem_item (db : DB) (oi : OrderItem.t) : option Item.t :=
  find (fun it => Item.id it =? OrderItem.item_id oi) (items db).

Definition Order_merchant (db : DB) (o : Order.t) : option Merchant.t :=
  find (fun m => Merchant.id m =? Order.merchant_id o) (merchants db).

Definition Order_consumer (db : DB) (o : Order.t) : option User.t :=
  find (fun u => User.id u =? Order.consumer_id o) (users db).

Definition Order_courier (db : DB) (o : Order.t) : option User.t :=
  match Order.courier_id o with
  | None => None
  | Some c => find (fun u => User.id u =? c) (users db)
  end.

(** ** Column comparisons *)

(** Truth value of an optional integer: [None] and [0] are false. *)
Definition truthy (x : option Z) : bool :=
  match x with
  | Some v => negb (v =? 0)
  | None => false
  end.

(** Python's [x != y] between an optional integer and an integer. *)
Definition py_ne (x : option Z) (y : Z) : bool :=
  match x with
  | Some v => negb (v =? y)
  | None => true
  end.

(** SQL's [column == value] in a WHERE clause: NULL never matches. *)
Definition sql_eq (x : option Z) (y : Z) : bool :=
  match x with
  | Some v => v =? y
  | None => false
  end.

(** ** The total of an order *)

(** Python's conversion of an [int] operand to [float]: the nearest
    binary64 value, ties to even. *)
Definition float_of_int (z : Z) : float :=
  SF2Prim (binary_normalize prec emax z 0 false).

(** [sum(item.quantity * item.item.price for item in order.items)]: the
    accumulator starts at 0 and takes the line items from left to right. *)
Fixpoint sum_line_items (db : DB) (acc : float) (l : list OrderItem.t)
  : Result float :=
  match l with
  | [] => Ok acc
  | oi :: l' =>
      match getattr (OrderItem_item db oi) Item.price with
      | Raise e => Raise e
      | Ok p =>
          sum_line_items db
            (acc + float_of_int (OrderItem.quantity oi) * p)%float l'
      end
  end.

Definition order_total (db : DB) (o : Order.t) : Result float :=
  sum_line_items db 0%float (Order_items db o).

(** The order object a handler returns: the mapped row, its line items, and
    the attributes the handler set on it ([None] where it set none). *)
Module OrderRead.
Record t : Set := mk {
    order : Order.t;
    items : list OrderItem.t;
    merchant_name : string;
    merchant_location : string;
    consumer_name : option string;
    courier_name : option string;
    total : float }.
End OrderRead.

(** ** [routers/dependencies.py] *)

Definition check_role (allowed_roles : list UserRole) (user : User.t)
  : M User.t :=
  raise_if (negb (role_in (User.role user) allowed_roles))
    (HTTPException 403 Operation_not_permitted_for_this_role) ;;;
  ret user.

Definition check_merchant_owner (merchant_id : Z) (user : User.t)
  : M Merchant.t :=
  raise_if (negb (UserRole_eqb (User.role user) PARTNER))
    (HTTPException 403 Only_partners_can_access_merchant_management) ;;;
  rows <- execute (fun db =>
    filter (fun m => Merchant.id m =? merchant_id) (merchants db)) ;;
  merchant <- lift (scalar_one_or_none rows) ;;
  match merchant with
  | None => raise (HTTPException 404 Merchant_not_found)
  | Some merchant =>
      raise_if (negb (Merchant.partner_id merchant =? User.id user))
        (HTTPException 403 No_permission_to_manage_this_merchant) ;;;
      ret merchant
  end.

(** ** [routers/orders.py] *)

(** [for x in xs: ...], collecting what each round produces. *)
Fixpoint for_each {A B : Type} (f : A -> M B) (xs : list A) : M (list B) :=
  match xs with
  | [] => ret []
  | x :: xs' =>
      y <- f x ;;
      ys <- for_each f xs' ;;
      ret (y :: ys)
  end.

(** [order.courier.name if order.courier else unset] *)
Definition courier_name_of (db : DB) (o : Order.t) : option string :=
  match Order_courier db o with
  | Some u => Some (User.name u)
  | None => None
  end.

(** The WHERE clause [list_orders] adds for the caller's role. *)
Definition list_orders_where (current_user : User.t) (o : Order.t) : bool :=
  match User.role current_user with
  | CONSUMER => Order.consumer_id o =? User.id current_user
  | COURIER =>
      OrderStatus_eqb (Order.status o) READY_FOR_PICKUP
      || (status_in (Order.status o) [IN_TRANSIT; DELIVERED]
          && sql_eq (Order.courier_id o) (User.id current_user))
  | PARTNER => true
  end.

(** The body of the loop of [list_orders]. *)
Definition list_orders_row (order : Order.t) : M OrderRead.t :=
  merchant_name <- (fun db =>
    lift (getattr (Order_merchant db order) Merchant.name) db) ;;
  merchant_location <- (fun db =>
    lift (getattr (Order_merchant db order) Merchant.location) db) ;;
  courier_name <- execute (fun db => courier_name_of db order) ;;
  items <- execute (fun db => Order_items db order) ;;
  total <- (fun db => lift (order_total db order) db) ;;
  ret (OrderRead.mk order items merchant_name merchant_location
         None courier_name total).

Definition list_orders (current_user : User.t) : M (list OrderRead.t) :=
  current_user <- check_role [CONSUMER; COURIER] current_user ;;
  orders <- execute (fun db =>
    filter (list_orders_where current_user) (orders db)) ;;
  for_each list_orders_row orders.

(** The role branch of [get_order] (its checks between the order lookup and
    the response). *)
Definition get_order_guard (current_user : User.t) (order : Order.t) : M unit :=
  match User.role current_user with
  | CONSUMER =>
      raise_if (negb (Order.consumer_id order =? User.id current_user))
        (HTTPException 403 Not_your_order)
  | COURIER =>
      if OrderStatus_eqb (Order.status order) READY_FOR_PICKUP then ret tt
      else if status_in (Order.status order) [IN_TRANSIT; DELIVERED] then
        raise_if (py_ne (Order.courier_id order) (User.id current_user))
          (HTTPException 403 Order_not_available_for_viewing)
      else raise (HTTPException 403 Order_not_available_for_viewing)
  | PARTNER => ret tt
  end.

Definition get_order (order_id : Z) (current_user : User.t) : M OrderRead.t :=
  current_user <- check_role [CONSUMER; COURIER] current_user ;;
  rows <- execute (fun db =>
    filter (fun o => Order.id o =? order_id) (orders db)) ;;
  order <- lift (scalar_one_or_none rows) ;;
  match order with
  | None => raise (HTTPException 404 Order_not_found)
  | Some order =>
      get_order_guard current_user order ;;;
      merchant_name <- (fun db =>
        lift (getattr (Order_merchant db order) Merchant.name) db) ;;
      merchant_location <- (fun db =>
        lift (getattr (Order_merchant db order) Merchant.location) db) ;;
      consumer_name <- (fun db =>
        lift (getattr (Order_consumer db order) User.name) db) ;;
      courier_name <- execute (fun db => courier_name_of db order) ;;
      items <- execute (fun db => Order_items db order) ;;
      total <- (fun db => lift (order_total db order) db) ;;
      ret (OrderRead.mk order items merchant_name merchant_location
             (Some consumer_name) courier_name total)
  end.

(** The next value of an autoincrement key: one more than the largest key
    in the table, 1 for an empty table. *)
Definition next_id (ids : list Z) : Z := 1 + fold_right Z.max 0 ids.

(** The [OrderItem] rows of a new order, keyed from [next] on, in request
    order. *)
Fixpoint new_order_items (order_id next : Z)
  (l : list OrderItemCreateSchema.t) : list OrderItem.t :=
  match l with
  | [] => []
  | item_data :: l' =>
      OrderItem.mk next (OrderItemCreateSchema.item_id item_data)
        (OrderItemCreateSchema.quantity item_data) order_id
      :: new_order_items order_id (next + 1) l'
  end.

Definition insert_order (o : Order.t) (ois : list OrderItem.t) (db : DB) : DB :=
  mkDB (users db) (merchants db) (items db) (orders db ++ [o])
       (order_items db ++ ois).

Definition create_order (merchant_id : Z) (order : OrderCreateSchema.t)
  (now : Z) (current_user : User.t) : M OrderRead.t :=
  current_user <- check_role [CONSUMER] current_user ;;
  raise_if (match OrderCreateSchema.items order with [] => true | _ => false end)
    (HTTPException 400 Order_must_contain_at_least_one_item) ;;;
  raise_if (existsb (fun item => OrderItemCreateSchema.quantity item <=? 0)
              (OrderCreateSchema.items order))
    (HTTPException 400 Item_quantities_must_be_positive) ;;;
  let item_ids :=
    map OrderItemCreateSchema.item_id (OrderCreateSchema.items order) in
  items <- execute (fun db =>
    filter (fun it => existsb (Z.eqb (Item.id it)) item_ids
                      && (Item.merchant_id it =? merchant_id)) (items db)) ;;
  raise_if (negb (Nat.eqb (List.length items) (List.length item_ids)))
    (HTTPException 400 Items_not_found_or_belong_to_different_merchant) ;;;
  new_id <- execute (fun db => next_id (map Order.id (orders db))) ;;
  let db_order :=
    Order.mk new_id (OrderCreateSchema.delivery_address order)
      (OrderCreateSchema.order_instructions order) merchant_id
      (User.id current_user) None PENDING now None in
  next_item <- execute (fun db => next_id (map OrderItem.id (order_items db))) ;;
  (* session.commit() binds each quantity to the INTEGER column *)
  raise_if (negb (forallb
                    (fun item =>
                       sqlite_integer (OrderItemCreateSchema.quantity item))
                    (OrderCreateSchema.items order)))
    OverflowError ;;;
  commit (insert_order db_order
            (new_order_items new_id next_item (OrderCreateSchema.items order))) ;;;
  rows <- execute (fun db =>
    filter (fun o => Order.id o =? Order.id db_order) (orders db)) ;;
  db_order <- lift (scalar_one rows) ;;
  merchant_name <- (fun db =>
    lift (getattr (Order_merchant db db_order) Merchant.name) db) ;;
  merchant_location <- (fun db =>
    lift (getattr (Order_merchant db db_order) Merchant.location) db) ;;
  items <- execute (fun db => Order_items db db_order) ;;
  total <- (fun db => lift (order_total db db_order) db) ;;
  ret (OrderRead.mk db_order items merchant_name merchant_location
         None None total).

Definition get_merchant_order (merchant_id order_id : Z) (current_user : User.t)
  : M OrderRead.t :=
  current_user <- check_role [PARTNER] current_user ;;
  check_merchant_owner merchant_id current_user ;;;
  rows <- execute (fun db =>
    filter (fun o => (Order.id o =? order_id)
                     && (Order.merchant_id o =? merchant_id)) (orders db)) ;;
  order <- lift (scalar_one_or_none rows) ;;
  match order with
  | None => raise (HTTPException 404 Order_not_found)
  | Some order =>
      merchant_name <- (fun db =>
        lift (getattr (Order_merchant db order) Merchant.name) db) ;;
      merchant_location <- (fun db =>
        lift (getattr (Order_merchant db order) Merchant.location) db) ;;
      courier_name <- execute (fun db => courier_name_of db order) ;;
      items <- execute (fun db => Order_items db order) ;;
      total <- (fun db => lift (order_total db order) db) ;;
      ret (OrderRead.mk order items merchant_name merchant_location
             None courier_name total)
  end.

(** The body of the loop of [list_merchant_orders]. *)
Definition list_merchant_orders_row (order : Order.t) : M OrderRead.t :=
  merchant_name <- (fun db =>
    lift (getattr (Order_merchant db order) Merchant.name) db) ;;
  merchant_location <- (fun db =>
    lift (getattr (Order_merchant db order) Merchant.location) db) ;;
  consumer_name <- (fun db =>
    lift (getattr (Order_consumer db order) User.name) db) ;;
  courier_name <- execute (fun db => courier_name_of db order) ;;
  items <- execute (fun db => Order_items db order) ;;
  total <- (fun db => lift (order_total db order) db) ;;
  ret (OrderRead.mk order items merchant_name merchant_location
         (Some consumer_name) courier_name total).

Definition list_merchant_orders (merchant_id : Z) (status : option OrderStatus)
  (current_user : User.t) : M (list OrderRead.t) :=
  current_user <- check_role [PARTNER] current_user ;;
  check_merchant_owner merchant_id current_user ;;;
  orders <- execute (fun db =>
    filter (fun o => (Order.merchant_id o =? merchant_id)
                     && match status with
                        | Some s => OrderStatus_eqb (Order.status o) s
                        | None => true
                        end) (orders db)) ;;
  for_each list_merchant_orders_row orders.

(** The UPDATE a commit issues for a changed order object: the row with its
    primary key takes the object's columns. *)
Definition update_order (o' : Order.t) (db : DB) : DB :=
  mkDB (users db) (merchants db) (items db)
       (map (fun o => if Order.id o =? Order.id o' then o' else o) (orders db))
       (order_items db).

(** The role branch of [update_order_status] (its checks between the order
    lookup and the transition check). *)
Definition role_guard (merchant_id : Z) (order : Order.t)
  (status_update : OrderStatus) (current_user : User.t) : M unit :=
  match User.role current_user with
  | CONSUMER =>
      raise_if (negb (Order.consumer_id order =? User.id current_user))
        (HTTPException 403 Not_your_order)
  | PARTNER =>
      check_merchant_owner merchant_id current_user ;;; ret tt
  | COURIER =>
      raise_if (truthy (Order.courier_id order)
                && py_ne (Order.courier_id order) (User.id current_user))
        (HTTPException 403 Order_already_assigned_to_another_courier) ;;;
      if OrderStatus_eqb status_update IN_TRANSIT then
        active_orders <- execute (fun db =>
          filter (fun o => sql_eq (Order.courier_id o) (User.id current_user)
                           && OrderStatus_eqb (Order.status o) IN_TRANSIT)
                 (orders db)) ;;
        raise_if (match active_orders with [] => false | _ => true end)
          (HTTPException 400 Already_have_an_active_order_in_transit)
      else ret tt
  end.

(** The order object after the assignments of [update_order_status]:
    the new status, then the courier's own two fields. *)
Definition apply_status (status_update : OrderStatus) (now : Z)
  (current_user : User.t) (order : Order.t) : Order.t :=
  let order := Order.set_status status_update order in
  match User.role current_user with
  | COURIER =>
      if OrderStatus_eqb status_update IN_TRANSIT
         && negb (truthy (Order.courier_id order))
      then Order.set_courier_id (Some (User.id current_user)) order
      else if OrderStatus_eqb status_update DELIVERED
      then Order.set_delivered_at (Some now) order
      else order
  | _ => order
  end.

Definition update_order_status (merchant_id order_id : Z)
  (status_update : OrderStatus) (now : Z) (current_user : User.t)
  : M OrderRead.t :=
  current_user <- check_role [CONSUMER; PARTNER; COURIER] current_user ;;
  rows <- execute (fun db =>
    filter (fun o => (Order.id o =? order_id)
                     && (Order.merchant_id o =? merchant_id)) (orders db)) ;;
  order <- lift (scalar_one_or_none rows) ;;
  match order with
  | None => raise (HTTPException 404 Order_not_found)
  | Some order =>
      role_guard merchant_id order status_update current_user ;;;
      raise_if (negb (can_transition_to (Order.status order) status_update
                        (User.role current_user)))
        (HTTPException 400
           (Cannot_transition (Order.status order) status_update
              (User.role current_user))) ;;;
      let order := apply_status status_update now current_user order in
      commit (update_order order) ;;;
      order <- (if UserRole_eqb (User.role current_user) COURIER
                   && OrderStatus_eqb status_update IN_TRANSIT
                then
                  rows <- execute (fun db =>
                    filter (fun o => Order.id o =? order_id) (orders db)) ;;
                  lift (scalar_one rows)
                else ret order) ;;
      merchant_name <- (fun db =>
        lift (getattr (Order_merchant db order) Merchant.name) db) ;;
      merchant_location <- (fun db =>
        lift (getattr (Order_merchant db order) Merchant.location) db) ;;
      courier_name <- execute (fun db => courier_name_of db order) ;;
      items <- execute (fun db => Order_items db order) ;;
      total <- (fun db => lift (order_total db order) db) ;;
      ret (OrderRead.mk order items merchant_name merchant_location
             None courier_name total)
  end.

(** [update_merchant_item] of [routers/merchants.py], the handler that
    changes a catalog price. *)
Module ItemCreateSchema.
Record t : Set := mk {
    name : string;
    description : option string;
    price : float }.
End ItemCreateSchema.

Definition update_item (it' : Item.t) (db : DB) : DB :=
  mkDB (users db) (merchants db)
       (map (fun it => if Item.id it =? Item.id it' then it' else it) (items db))
       (orders db) (order_items db).

(** The row the [item] table keeps for a pending item. *)
Definition stored_item (it : Item.t) : Item.t :=
  Item.mk (Item.id it) (Item.name it) (Item.description it)
    (stored_real (Item.price it)) (Item.merchant_id it).

(** [session.refresh(item)]: the row is read back by its key. *)
Definition refresh_item (it : Item.t) : M Item.t :=
  rows <- execute (fun db =>
    filter (fun x => Item.id x =? Item.id it) (items db)) ;;
  lift (scalar_one rows).

Definition update_merchant_item (merchant_id item_id : Z)
  (item_update : ItemCreateSchema.t) (current_user : User.t) : M Item.t :=
  current_user <- check_role [PARTNER] current_user ;;
  check_merchant_owner merchant_id current_user ;;;
  rows <- execute (fun db =>
    filter (fun it => (Item.id it =? item_id)
                      && (Item.merchant_id it =? merchant_id)) (items db)) ;;
  item <- lift (scalar_one_or_none rows) ;;
  match item with
  | None => raise (HTTPException 404 Item_not_found)
  | Some item =>
      let item :=
        Item.mk (Item.id item) (ItemCreateSchema.name item_update)
          (ItemCreateSchema.description item_update)
          (ItemCreateSchema.price item_update) (Item.merchant_id item) in
      (* session.commit() writes the price to the FLOAT NOT NULL column *)
      raise_if (negb (sqlite_real (Item.price item))) IntegrityError ;;;
      commit (update_item (stored_item item)) ;;;
      refresh_item item
  end.

(** ** Schema constraints

    The primary-key and foreign-key constraints of [models.py], as
    decidable predicates on a database. *)

Fixpoint nodupb (l : list Z) : bool :=
  match l with
  | [] => true
  | x :: l' => negb (existsb (Z.eqb x) l') && nodupb l'
  end.

(** [order.id] is a primary key. *)
Definition orders_pk (db : DB) : bool := nodupb (map Order.id (orders db)).

(** [item.id] is a primary key. *)
Definition items_pk (db : DB) : bool := nodupb (map Item.id (items db)).

(** [order.merchant_id] and [order.consumer_id] reference existing rows. *)
Definition orders_fk (db : DB) : bool :=
  forallb (fun o =>
    existsb (fun m => Merchant.id m =? Order.merchant_id o) (merchants db)
    && existsb (fun u => User.id u =? Order.consumer_id o) (users db))
    (orders db).

(** [order_item.item_id] and [order_item.order_id] reference existing rows. *)
Definition order_items_fk (db : DB) : bool :=
  forallb (fun oi =>
    existsb (fun it => Item.id it =? OrderItem.item_id oi) (items db)
    && existsb (fun o => Order.id o =? OrderItem.order_id oi) (orders db))
    (order_items db).

(** [item.merchant_id] references an existing row. *)
Definition items_fk (db : DB) : bool :=
  forallb (fun it =>
    existsb (fun m => Merchant.id m =? Item.merchant_id it) (merchants db))
    (items db).

(** ** A sample database *)

Module Sample.
Open Scope string_scope.

Definition ann : User.t := User.mk 1 "Ann" "ann@example.org" "555-0101" CONSUMER "x".
Definition bob : User.t := User.mk 2 "Bob" "bob@example.org" "555-0102" CONSUMER "x".
Definition pat : User.t := User.mk 3 "Pat" "pat@example.org" "555-0103" PARTNER "x".
Definition kim : User.t := User.mk 4 "Kim" "kim@example.org" "555-0104" COURIER "x".
Definition lee : User.t := User.mk 5 "Lee" "lee@example.org" "555-0105" COURIER "x".

Definition soup : Item.t := Item.mk 1 "Soup" None 2.5%float 1.
Definition roll : Item.t := Item.mk 2 "Roll" None 1%float 1.
Definition tea : Item.t := Item.mk 3 "Tea" None 4%float 2.

(** Two merchants of partner Pat, three catalog items, no order yet. *)
Definition db0 : DB :=
  mkDB [ann; bob; pat; kim; lee]
       [Merchant.mk 1 "Deli" None "Main St" 3;
        Merchant.mk 2 "Cafe" None "Oak St" 3]
       [soup; roll; tea] [] [].

(** Two soups and three rolls from the Deli. *)
Definition body : OrderCreateSchema.t :=
  OrderCreateSchema.mk "1 Elm St" None
    [OrderItemCreateSchema.mk 1 2; OrderItemCreateSchema.mk 2 3].


(** The database a handler leaves behind. *)
Definition after {A : Type} (c : M A) (db : DB) : DB := fst (c db).

(** Ann's order 1, then Bob's order 2, both at the Deli. *)
Definition db_pending : DB :=
  after (create_order 1 body 101 bob)
    (after (create_order 1 body 100 ann) db0).

(** Both orders accepted and ready for pickup. *)
Definition db_ready : DB :=
  after (update_order_status 1 2 READY_FOR_PICKUP 113 pat)
    (after (update_order_status 1 2 ACCEPTED 112 pat)
      (after (update_order_status 1 1 READY_FOR_PICKUP 111 pat)
        (after (update_order_status 1 1 ACCEPTED 110 pat) db_pending))).

(** Kim has picked up order 1. *)
Definition db_kim : DB :=
  after (update_order_status 1 1 IN_TRANSIT 120 kim) db_ready.

(** Lee has picked up order 2. *)
Definition db_kim_lee : DB :=
  after (update_order_status 1 2 IN_TRANSIT 121 lee) db_kim.

(** Kim has delivered order 1. *)
Definition db_delivered : DB :=
  after (update_order_status 1 1 DELIVERED 130 kim) db_kim_lee.

(** Pat has raised the price of the soup from 2.50 to 3.00 after the two
    orders were placed. *)
Definition db_repriced : DB :=
  after (update_merchant_item 1 1 (ItemCreateSchema.mk "Soup" None 3%float) pat)
    db_pending.

End Sample.

(** The rows the catalog query of [create_order] selects. *)
Definition resolved_items (db : DB) (merchant_id : Z) (item_ids : list Z)
  : list Item.t :=
  filter (fun it => existsb (Z.eqb (Item.id it)) item_ids
                    && (Item.merchant_id it =? merchant_id)) (items db).

(** The order row [create_order] inserts. *)
Definition created_order (db : DB) (merchant_id : Z)
  (order : OrderCreateSchema.t) (now : Z) (current_user : User.t) : Order.t :=
  Order.mk (next_id (map Order.id (orders db)))
    (OrderCreateSchema.delivery_address order)
    (OrderCreateSchema.order_instructions order) merchant_id
    (User.id current_user) None PENDING now None.

(** An item id resolves against a merchant when the catalog has an item with
    that id that belongs to the merchant. *)
Definition belongs_to (db : DB) (merchant_id item_id : Z) : bool :=
  existsb (fun it => (Item.id it =? item_id)
                     && (Item.merchant_id it =? merchant_id)) (items db).

(** ** The total, in the words of the specification (section 4.5) *)

(** The catalog's current unit price of an item. *)
Definition unit_price (db : DB) (item_id : Z) : option float :=
  option_map Item.price (find (fun it => Item.id it =? item_id) (items db)).

(** The line items of an order. *)
Definition line_items (db : DB) (o : Order.t) : list OrderItem.t :=
  filter (fun oi => OrderItem.order_id oi =? Order.id o) (order_items db).

(** Quantity times current unit price, for one line item. *)
Definition line_amount (db : DB) (oi : OrderItem.t) : option float :=
  option_map (fun p => (float_of_int (OrderItem.quantity oi) * p)%float)
    (unit_price db (OrderItem.item_id oi)).

Fixpoint all_some {A : Type} (l : list (option A)) : option (list A) :=
  match l with
  | [] => Some []
  | None :: _ => None
  | Some a :: l' => option_map (cons a) (all_some l')
  end.

(** total(order): the sum, in line order, of the amounts of its line items;
    undefined when a line item references no catalog item. *)
Definition total_spec (db : DB) (o : Order.t) : option float :=
  option_map (fun amounts => fold_left PrimFloat.add amounts 0%float)
    (all_some (map (line_amount db) (line_items db o))).

(** ** Histories of the orders table *)

(** What one request, served at time [now], does to the database: an order
    creation, a status update (served or refused), or a request of another
    router, which leaves the orders table as it is. *)
Inductive step (now : Z) (db : DB) : DB -> Prop :=
| step_create_order (merchant_id : Z) (order : OrderCreateSchema.t)
    (current_user : User.t) :
    step now db (fst (create_order merchant_id order now current_user db))
| step_update_order_status (merchant_id order_id : Z)
    (status_update : OrderStatus) (current_user : User.t) :
    step now db
      (fst (update_order_status merchant_id order_id status_update now
              current_user db))
| step_other (db' : DB) :
    orders db' = orders db -> step now db db'.

(** [run clk db clk' db']: from [db], last written at time [clk], a sequence
    of requests served at non-decreasing times leads to [db'], last written
    at [clk']. *)
Inductive run (clk : Z) (db : DB) : Z -> DB -> Prop :=
| run_refl : run clk db clk db
| run_step (clk1 : Z) (db1 : DB) (now : Z) (db2 : DB) :
    run clk db clk1 db1 -> clk1 <= now -> step now db1 db2 ->
    run clk db now db2.

(** The delivery stamp of one order row. *)
Definition delivery_stamp_ok (o : Order.t) : Prop :=
  (Order.status o <> DELIVERED -> Order.delivered_at o = None)
  /\ (Order.status o = DELIVERED ->
      exists d, Order.delivered_at o = Some d /\ Order.created_at o <= d).

(** A consistent orders table at time [clk]: keys are unique, no order was
    created later than [clk], every delivery stamp is in order. *)
Definition orders_ok (clk : Z) (db : DB) : Prop :=
  orders_pk db = true
  /\ Forall (fun o => Order.created_at o <= clk /\ delivery_stamp_ok o)
       (orders db).

(** ** [routers/merchants.py]: the catalog handlers *)

Definition list_merchant_items (merchant_id : Z) (current_user : User.t)
  : M (list Item.t) :=
  check_role [PARTNER; CONSUMER] current_user ;;;
  execute (fun db =>
    filter (fun it => Item.merchant_id it =? merchant_id) (items db)).

Definition get_merchant_item (merchant_id item_id : Z) (current_user : User.t)
  : M Item.t :=
  check_role [PARTNER; CONSUMER] current_user ;;;
  rows <- execute (fun db =>
    filter (fun it => (Item.id it =? item_id)
                      && (Item.merchant_id it =? merchant_id)) (items db)) ;;
  item <- lift (scalar_one_or_none rows) ;;
  match item with
  | None => raise (HTTPException 404 Item_not_found)
  | Some item => ret item
  end.

Definition insert_item (it : Item.t) (db : DB) : DB :=
  mkDB (users db) (merchants db) (items db ++ [it]) (orders db)
       (order_items db).

Definition create_merchant_item (merchant_id : Z) (item : ItemCreateSchema.t)
  (current_user : User.t) : M Item.t :=
  current_user <- check_role [PARTNER] current_user ;;
  check_merchant_owner merchant_id current_user ;;;
  new_id <- execute (fun db => next_id (map Item.id (items db))) ;;
  let db_item :=
    Item.mk new_id (ItemCreateSchema.name item)
      (ItemCreateSchema.description item) (ItemCreateSchema.price item)
      merchant_id in
  (* session.commit() writes the price to the FLOAT NOT NULL column *)
  raise_if (negb (sqlite_real (Item.price db_item))) IntegrityError ;;;
  commit (insert_item (stored_item db_item)) ;;;
  refresh_item db_item.



(** ** More schema constraints and invariants of the orders table *)

(** [merchant.id] is a primary key. *)
Definition merchants_pk (db : DB) : bool :=
  nodupb (map Merchant.id (merchants db)).

(** The caller is a row of the user table. *)
Definition registered (db : DB) (u : User.t) : bool :=
  existsb (fun x => User.id x =? User.id u) (users db).

(** The orders a courier is carrying. *)
Definition in_transit_of (courier : Z) (db : DB) : list Order.t :=
  filter (fun o => sql_eq (Order.courier_id o) courier
                   && OrderStatus_eqb (Order.status o) IN_TRANSIT) (orders db).

(** No courier carries two orders at once. *)
Definition courier_exclusive (db : DB) : Prop :=
  forall courier, (List.length (in_transit_of courier db) <= 1)%nat.

(** An order has a courier exactly from its pickup on. *)
Definition courier_assigned_ok (o : Order.t) : Prop :=
  match Order.status o with
  | IN_TRANSIT | DELIVERED => exists c, Order.courier_id o = Some c
  | _ => Order.courier_id o = None
  end.

(** The sum, in request order, of quantity times current unit price over the
    pairs of a creation request. *)
Definition request_total (db : DB) (order : OrderCreateSchema.t)
  : option float :=
  option_map (fun amounts => fold_left PrimFloat.add amounts 0%float)
    (all_some
       (map (fun x =>
               option_map
                 (fun p =>
                    (float_of_int (OrderItemCreateSchema.quantity x) * p)%float)
                 (unit_price db (OrderItemCreateSchema.item_id x)))
            (OrderCreateSchema.items order))).

(** The key and foreign-key constraints the order handlers rely on. *)
Definition schema_ok (db : DB) : bool :=
  orders_pk db && items_pk db && orders_fk db && order_items_fk db
  && items_fk db.


(** The item row [update_merchant_item] and [create_merchant_item] write. *)
Definition item_of (id : Z) (item : ItemCreateSchema.t) (merchant_id : Z)
  : Item.t :=
  Item.mk id (ItemCreateSchema.name item) (ItemCreateSchema.description item)
    (ItemCreateSchema.price item) merchant_id.

(** ** The merchant handlers of [routers/merchants.py] *)

Module MerchantCreateSchema.
Record t : Set := mk {
    name : string;
    description : option string;
    location : string }.
End MerchantCreateSchema.

Definition list_merchants (current_user : User.t) : M (list Merchant.t) :=
  current_user <- check_role [PARTNER; CONSUMER] current_user ;;
  let query := fun db => merchants db in
  let query :=
    if UserRole_eqb (User.role current_user) PARTNER
    then fun db =>
           filter (fun m => Merchant.partner_id m =? User.id current_user)
             (query db)
    else query in
  execute query.

Definition insert_merchant (mch : Merchant.t) (db : DB) : DB :=
  mkDB (users db) (merchants db ++ [mch]) (items db) (orders db)
       (order_items db).

(** [session.refresh(db_merchant)]: the row is read back by its key. *)
Definition refresh_merchant (mch : Merchant.t) : M Merchant.t :=
  rows <- execute (fun db =>
    filter (fun x => Merchant.id x =? Merchant.id mch) (merchants db)) ;;
  lift (scalar_one rows).

Definition create_merchant (merchant : MerchantCreateSchema.t)
  (current_user : User.t) : M Merchant.t :=
  current_user <- check_role [PARTNER] current_user ;;
  new_id <- execute (fun db => next_id (map Merchant.id (merchants db))) ;;
  let db_merchant :=
    Merchant.mk new_id (MerchantCreateSchema.name merchant)
      (MerchantCreateSchema.description merchant)
      (MerchantCreateSchema.location merchant) (User.id current_user) in
  commit (insert_merchant db_merchant) ;;;
  refresh_merchant db_merchant.

(** * Properties *)

(** ** Enumerations *)

Lemma UserRole_eqb_spec (a b : UserRole) : reflect (a = b) (UserRole_eqb a b).
Proof. destruct a, b; simpl; constructor; congruence. Qed.

Lemma OrderStatus_eqb_spec (a b : OrderStatus) :
  reflect (a = b) (OrderStatus_eqb a b).
Proof. destruct a, b; simpl; constructor; congruence. Qed.

Lemma OrderStatus_eqb_refl (a : OrderStatus) : OrderStatus_eqb a a = true.
Proof. now destruct a. Qed.

Lemma OrderStatus_eqb_eq (a b : OrderStatus) :
  OrderStatus_eqb a b = true <-> a = b.
Proof. destruct (OrderStatus_eqb_spec a b); split; congruence. Qed.

Lemma UserRole_eqb_eq (a b : UserRole) : UserRole_eqb a b = true <-> a = b.
Proof. destruct (UserRole_eqb_spec a b); split; congruence. Qed.

(** ** Lists of rows *)

Lemma nodupb_NoDup (l : list Z) : nodupb l = true <-> NoDup l.
Proof.
  induction l as [|x l IH]; simpl.
  - split; [constructor | reflexivity].
  - rewrite andb_true_iff, negb_true_iff, IH. split.
    + intros [Hx Hl]. constructor; [|exact Hl].
      intro Hin. assert (existsb (Z.eqb x) l = true) as E.
      { apply existsb_exists. exists x. split; [exact Hin | apply Z.eqb_refl]. }
      congruence.
    + intros Hnd. inversion Hnd as [|? ? Hx Hl]; subst. split; [|exact Hl].
      destruct (existsb (Z.eqb x) l) eqn:E; [|reflexivity].
      apply existsb_exists in E. destruct E as [y [Hy Hxy]].
      apply Z.eqb_eq in Hxy. subst y. contradiction.
Qed.

Section Keyed.
Context {A : Type} (key : A -> Z).

(** Selecting by a key that no two rows share finds the row itself. *)
Lemma filter_key_unique (l : list A) (x : A) :
  NoDup (map key l) -> In x l ->
  filter (fun y => key y =? key x) l = [x].
Proof.
  induction l as [|y l IH]; simpl; [contradiction|].
  intros Hnd Hin. inversion Hnd as [|? ? Hy Hl]; subst.
  destruct Hin as [-> | Hin].
  - rewrite Z.eqb_refl. f_equal.
    clear IH Hnd Hl. induction l as [|z l IH]; simpl; [reflexivity|].
    destruct (key z =? key x) eqn:E.
    + apply Z.eqb_eq in E. exfalso. apply Hy. simpl. left. exact E.
    + apply IH. intro H. apply Hy. simpl. right. exact H.
  - destruct (key y =? key x) eqn:E.
    + apply Z.eqb_eq in E. exfalso. apply Hy. rewrite E.
      apply in_map. exact Hin.
    + apply IH; assumption.
Qed.

Lemma filter_key_absent (l : list A) (k : Z) :
  ~ In k (map key l) -> filter (fun y => key y =? k) l = [].
Proof.
  induction l as [|y l IH]; simpl; [reflexivity|].
  intros Hn. destruct (key y =? k) eqn:E.
  - apply Z.eqb_eq in E. exfalso. apply Hn. left. exact E.
  - apply IH. intro H. apply Hn. right. exact H.
Qed.

Lemma find_key_exists (l : list A) (k : Z) :
  existsb (fun y => key y =? k) l = true ->
  exists x, find (fun y => key y =? k) l = Some x /\ In x l /\ key x = k.
Proof.
  induction l as [|y l IH]; simpl; [discriminate|].
  destruct (key y =? k) eqn:E.
  - intros _. exists y. apply Z.eqb_eq in E. auto.
  - simpl. intros H. destruct (IH H) as [x [Hf [Hin Hk]]].
    exists x. auto.
Qed.

Lemma find_key_some (l : list A) (k : Z) (x : A) :
  find (fun y => key y =? k) l = Some x -> In x l /\ key x = k.
Proof.
  intros H. apply find_some in H. destruct H as [Hin Hk].
  apply Z.eqb_eq in Hk. auto.
Qed.

End Keyed.

Lemma filter_and {A : Type} (p q : A -> bool) (l : list A) :
  filter (fun x => p x && q x) l = filter q (filter p l).
Proof.
  induction l as [|x l IH]; simpl; [reflexivity|].
  destruct (p x); simpl; [destruct (q x)|]; rewrite IH; reflexivity.
Qed.

Lemma filter_replaced_absent {A : Type} (key : A -> Z) (x' : A)
  (l : list A) :
  ~ In (key x') (map key l) ->
  filter (fun y => key y =? key x')
    (map (fun y => if key y =? key x' then x' else y) l) = [].
Proof.
  induction l as [|a l IH]; intros H; cbn [map filter]; [reflexivity|].
  destruct (Z.eqb_spec (key a) (key x')) as [E|E];
    [exfalso; apply H; left; exact E|].
  apply Z.eqb_neq in E. rewrite E. apply IH. intro Hin. apply H. right.
  exact Hin.
Qed.

(** A row replaced under a unique key is the one row a query by that key
    finds. *)
Lemma filter_replaced {A : Type} (key : A -> Z) (x' : A) (l : list A) :
  NoDup (map key l) -> In (key x') (map key l) ->
  filter (fun y => key y =? key x')
    (map (fun y => if key y =? key x' then x' else y) l) = [x'].
Proof.
  induction l as [|a l IH]; intros Hnd Hin; [destruct Hin|].
  cbn [map] in Hnd. inversion Hnd as [|k ks Hna Hnd']; subst.
  cbn [map filter].
  destruct (Z.eqb_spec (key a) (key x')) as [E|E].
  - rewrite Z.eqb_refl. rewrite filter_replaced_absent; [reflexivity|].
    rewrite <- E. exact Hna.
  - apply Z.eqb_neq in E. rewrite E. apply IH; [exact Hnd'|].
    destruct Hin as [Hin|Hin]; [|exact Hin].
    apply Z.eqb_neq in E. contradiction.
Qed.

Lemma requery_replaced {A : Type} (key : A -> Z) (x' : A) (l : list A)
  (x : A) :
  scalar_one
    (filter (fun y => key y =? key x')
       (map (fun y => if key y =? key x' then x' else y) l)) = Ok x ->
  x = x'.
Proof.
  intros H.
  assert (forall y,
             In y (filter (fun y => key y =? key x')
                     (map (fun y => if key y =? key x' then x' else y) l)) ->
             y = x') as Hall.
  { intros y Hy. apply filter_In in Hy. destruct Hy as [Hy Hk].
    apply in_map_iff in Hy. destruct Hy as [a [Ha _]].
    destruct (key a =? key x') eqn:E; [symmetry; exact Ha|].
    subst y. congruence. }
  destruct (filter _ _) as [|y [|z r]]; simpl in H; try discriminate.
  injection H as <-. apply Hall. left. reflexivity.
Qed.

(** ** The session monad *)

Ltac run :=
  unfold bind, ret, raise, lift, execute, commit, raise_if in *; simpl in *.

Lemma bind_ok {A B : Type} (c : M A) (k : A -> M B) (db db1 : DB) (a : A) :
  c db = (db1, Ok a) -> bind c k db = k a db1.
Proof. intros H. unfold bind. rewrite H. reflexivity. Qed.

Lemma bind_raise {A B : Type} (c : M A) (k : A -> M B) (db db1 : DB)
  (e : Exception) :
  c db = (db1, Raise e) -> bind c k db = (db1, Raise e).
Proof. intros H. unfold bind. rewrite H. reflexivity. Qed.

Lemma check_role_passes (allowed_roles : list UserRole) (u : User.t) (db : DB) :
  role_in (User.role u) allowed_roles = true ->
  check_role allowed_roles u db = (db, Ok u).
Proof. intros H. unfold check_role. run. rewrite H. reflexivity. Qed.

Lemma check_role_fails (allowed_roles : list UserRole) (u : User.t) (db : DB) :
  role_in (User.role u) allowed_roles = false ->
  check_role allowed_roles u db =
  (db, Raise (HTTPException 403 Operation_not_permitted_for_this_role)).
Proof. intros H. unfold check_role. run. rewrite H. reflexivity. Qed.

Lemma check_role_any (u : User.t) (db : DB) :
  check_role [CONSUMER; PARTNER; COURIER] u db = (db, Ok u).
Proof. apply check_role_passes. destruct (User.role u); reflexivity. Qed.

(** [check_merchant_owner] only reads. *)
Lemma check_merchant_owner_fst (merchant_id : Z) (u : User.t) (db : DB) :
  fst (check_merchant_owner merchant_id u db) = db.
Proof.
  unfold check_merchant_owner. run.
  destruct (UserRole_eqb (User.role u) PARTNER); simpl; [|reflexivity].
  destruct (filter _ (merchants db)) as [|m [|m' l]]; simpl; try reflexivity.
  destruct (Merchant.partner_id m =? User.id u); reflexivity.
Qed.

(** The role branch of [update_order_status] only reads. *)
Lemma role_guard_fst (merchant_id : Z) (o : Order.t) (t : OrderStatus)
  (u : User.t) (db : DB) :
  fst (role_guard merchant_id o t u db) = db.
Proof.
  unfold role_guard. destruct (User.role u).
  - run. destruct (Order.consumer_id o =? User.id u); reflexivity.
  - unfold bind. pose proof (check_merchant_owner_fst merchant_id u db) as H.
    destruct (check_merchant_owner merchant_id u db) as [db' [m|e]];
      simpl in *; subst; reflexivity.
  - run.
    destruct (truthy (Order.courier_id o) && py_ne (Order.courier_id o) (User.id u));
      simpl; [reflexivity|].
    destruct (OrderStatus_eqb t IN_TRANSIT); simpl; [|reflexivity].
    destruct (filter _ (orders db)); reflexivity.
Qed.

(** ** [update_order_status], case by case *)

Lemma apply_status_id t now u o : Order.id (apply_status t now u o) = Order.id o.
Proof.
  unfold apply_status. destruct (User.role u); simpl; try reflexivity.
  destruct (OrderStatus_eqb t IN_TRANSIT && _); simpl; [reflexivity|].
  destruct (OrderStatus_eqb t DELIVERED); reflexivity.
Qed.

Lemma apply_status_status t now u o : Order.status (apply_status t now u o) = t.
Proof.
  unfold apply_status. destruct (User.role u); simpl; try reflexivity.
  destruct (OrderStatus_eqb t IN_TRANSIT && _); simpl; [reflexivity|].
  destruct (OrderStatus_eqb t DELIVERED); reflexivity.
Qed.

Lemma apply_status_created_at t now u o :
  Order.created_at (apply_status t now u o) = Order.created_at o.
Proof.
  unfold apply_status. destruct (User.role u); simpl; try reflexivity.
  destruct (OrderStatus_eqb t IN_TRANSIT && _); simpl; [reflexivity|].
  destruct (OrderStatus_eqb t DELIVERED); reflexivity.
Qed.

Lemma filter_found_id (db : DB) (m oid : Z) (o : Order.t) :
  filter (fun x => (Order.id x =? oid) && (Order.merchant_id x =? m)) (orders db)
  = [o] ->
  In o (orders db) /\ Order.id o = oid /\ Order.merchant_id o = m.
Proof.
  intros H. assert (In o [o]) as Hin by (left; reflexivity).
  rewrite <- H in Hin. apply filter_In in Hin. destruct Hin as [Hin Hc].
  apply andb_true_iff in Hc. destruct Hc as [H1 H2].
  apply Z.eqb_eq in H1, H2. auto.
Qed.

(** After the UPDATE, a query by the order's key returns the new object
    only. *)
Lemma requery_after_update (o' : Order.t) (l : list Order.t) (x : Order.t) :
  scalar_one
    (filter (fun y => Order.id y =? Order.id o')
       (map (fun y => if Order.id y =? Order.id o' then o' else y) l)) = Ok x ->
  x = o'.
Proof.
  assert (Forall (eq o')
    (filter (fun y => Order.id y =? Order.id o')
       (map (fun y => if Order.id y =? Order.id o' then o' else y) l))) as HF.
  { induction l as [|y l IH]; simpl; [constructor|].
    destruct (Order.id y =? Order.id o') eqn:E.
    - rewrite Z.eqb_refl. constructor; [reflexivity | exact IH].
    - rewrite E. exact IH. }
  destruct (filter _ _) as [|a [|b r]]; simpl; try discriminate.
  inversion HF; subst. congruence.
Qed.

Lemma sum_line_items_raises (db : DB) (l : list OrderItem.t) (acc : float)
  (e : Exception) :
  sum_line_items db acc l = Raise e -> e = AttributeError.
Proof.
  revert acc. induction l as [|oi l IH]; simpl; intros acc H; [discriminate|].
  destruct (OrderItem_item db oi); simpl in H.
  - exact (IH _ H).
  - inversion H. reflexivity.
Qed.

Lemma scalar_one_raises {A : Type} (l : list A) (e : Exception) :
  scalar_one l = Raise e -> e = NoResultFound \/ e = MultipleResultsFound.
Proof.
  destruct l as [|a [|b r]]; simpl; intros H; inversion H; auto.
Qed.

Lemma getattr_raises {A B : Type} (x : option A) (f : A -> B) (e : Exception) :
  getattr x f = Raise e -> e = AttributeError.
Proof. destruct x; simpl; intros H; inversion H; reflexivity. Qed.

(** What happens for the one order the lookup finds: the role branch's
    error, or the invalid-transition error, or the UPDATE of that order;
    after the commit the handler only reads, and raises no HTTP error. *)

Lemma update_order_status_found (m oid : Z) (t : OrderStatus) (now : Z)
  (u : User.t) (db : DB) (o : Order.t) :
  filter (fun x => (Order.id x =? oid) && (Order.merchant_id x =? m)) (orders db)
  = [o] ->
  match snd (role_guard m o t u db) with
  | Raise e => update_order_status m oid t now u db = (db, Raise e)
  | Ok _ =>
      if can_transition_to (Order.status o) t (User.role u)
      then fst (update_order_status m oid t now u db)
           = update_order (apply_status t now u o) db
           /\ (forall v, snd (update_order_status m oid t now u db) = Ok v ->
                OrderRead.order v = apply_status t now u o)
           /\ (forall c d, snd (update_order_status m oid t now u db)
                           <> Raise (HTTPException c d))
           /\ (forall v, snd (update_order_status m oid t now u db) = Ok v ->
                order_total (update_order (apply_status t now u o) db)
                  (apply_status t now u o) = Ok (OrderRead.total v))
      else update_order_status m oid t now u db
           = (db, Raise (HTTPException 400
                (Cannot_transition (Order.status o) t (User.role u))))
  end.
Proof.
  intros Hf. pose proof (filter_found_id _ _ _ _ Hf) as [_ [Hid _]].
  destruct (update_order_status m oid t now u db) as [dbr r] eqn:Eu.
  unfold update_order_status in Eu. unfold bind at 1 in Eu.
  rewrite check_role_any in Eu.
  unfold bind at 1 in Eu. unfold execute at 1 in Eu.
  unfold bind at 1 in Eu. unfold lift at 1 in Eu.
  rewrite Hf in Eu. simpl in Eu. unfold bind at 1 in Eu.
  pose proof (role_guard_fst m o t u db) as Hg.
  destruct (role_guard m o t u db) as [db1 [[]|e]]; simpl in Hg; subst db1;
    simpl; [|symmetry; exact Eu].
  unfold bind at 1 in Eu. unfold raise_if at 1 in Eu.
  destruct (can_transition_to (Order.status o) t (User.role u)); simpl in Eu;
    [|symmetry; exact Eu].
  set (o' := apply_status t now u o) in *.
  assert (Order.id o' = oid) as Hid'
    by (unfold o'; rewrite apply_status_id; exact Hid).
  unfold ret at 1 in Eu. unfold bind at 1 in Eu. unfold commit at 1 in Eu.
  set (db' := update_order o' db) in *.
  unfold bind at 1 in Eu.
  match type of Eu with
  | (let (_, _) := ?c db' in _) = _ =>
      assert (forall dbx x, c db' = (dbx, Ok x) -> dbx = db' /\ x = o') as Hq;
      [| assert (forall dbx e, c db' = (dbx, Raise e) ->
                   dbx = db' /\ forall sc d, e <> HTTPException sc d) as Hq';
         [| remember (c db') as cr eqn:Eq in Eu;
            destruct cr as [dbx [x|e]]; symmetry in Eq ] ]
  end.
  - intros dbx x. destruct (_ && _); run.
    + intros H. inversion H; subst. split; [reflexivity|].
      unfold db', update_order in H2. simpl in H2.
      rewrite <- Hid' in H2. apply requery_after_update in H2. exact H2.
    + intros H. inversion H. auto.
  - intros dbx e. destruct (_ && _); run; intros H; inversion H; subst.
    split; [reflexivity|]. intros sc d.
    apply scalar_one_raises in H2. destruct H2; subst; discriminate.
  - apply Hq in Eq. destruct Eq as [-> ->]. run.
    destruct (getattr (Order_merchant db' o') Merchant.name) eqn:E1;
      simpl in Eu;
      [|inversion Eu; apply getattr_raises in E1; subst;
        repeat split; discriminate].
    destruct (getattr (Order_merchant db' o') Merchant.location) eqn:E2;
      simpl in Eu;
      [|inversion Eu; apply getattr_raises in E2; subst;
        repeat split; discriminate].
    destruct (order_total db' o') eqn:E3; simpl in Eu;
      [|inversion Eu; apply sum_line_items_raises in E3; subst;
        repeat split; discriminate].
    inversion Eu. split; [reflexivity|].
    split; [intros v Hv; inversion Hv; reflexivity|].
    split; [discriminate|].
    intros v Hv. inversion Hv. reflexivity.
  - apply Hq' in Eq. destruct Eq as [-> He]. inversion Eu.
    split; [reflexivity|]. split; [discriminate|]. split; [|discriminate].
    intros c d Hcd. inversion Hcd as [Hcd']. exact (He c d Hcd').
Qed.

Lemma update_order_status_not_found (m oid : Z) (t : OrderStatus) (now : Z)
  (u : User.t) (db : DB) :
  filter (fun x => (Order.id x =? oid) && (Order.merchant_id x =? m)) (orders db)
  = [] ->
  update_order_status m oid t now u db
  = (db, Raise (HTTPException 404 Order_not_found)).
Proof.
  intros Hf. unfold update_order_status. unfold bind at 1.
  rewrite check_role_any. run. rewrite Hf. reflexivity.
Qed.

Lemma update_order_status_ambiguous (m oid : Z) (t : OrderStatus) (now : Z)
  (u : User.t) (db : DB) (a b : Order.t) (l : list Order.t) :
  filter (fun x => (Order.id x =? oid) && (Order.merchant_id x =? m)) (orders db)
  = a :: b :: l ->
  update_order_status m oid t now u db = (db, Raise MultipleResultsFound).
Proof.
  intros Hf. unfold update_order_status. unfold bind at 1.
  rewrite check_role_any. run. rewrite Hf. reflexivity.
Qed.

(** An order of the database is what the lookup by its own key and
    merchant returns, when [order.id] is a primary key. *)
Lemma lookup_found (db : DB) (o : Order.t) :
  orders_pk db = true -> In o (orders db) ->
  filter (fun x => (Order.id x =? Order.id o)
                   && (Order.merchant_id x =? Order.merchant_id o)) (orders db)
  = [o].
Proof.
  intros Hpk Hin. apply nodupb_NoDup in Hpk.
  rewrite (filter_and (fun x => Order.id x =? Order.id o)
             (fun x => Order.merchant_id x =? Order.merchant_id o)).
  rewrite (filter_key_unique Order.id _ _ Hpk Hin). simpl.
  rewrite Z.eqb_refl. reflexivity.
Qed.

Lemma lookup_by_id_found (db : DB) (o : Order.t) :
  orders_pk db = true -> In o (orders db) ->
  filter (fun x => Order.id x =? Order.id o) (orders db) = [o].
Proof.
  intros Hpk Hin. apply nodupb_NoDup in Hpk.
  exact (filter_key_unique Order.id _ _ Hpk Hin).
Qed.

(** ** The transition table (C1) *)

Lemma can_transition_to_table (s t : OrderStatus) (r : UserRole) :
  can_transition_to s t r = true <-> In (r, s, t) transition_table.
Proof.
  split.
  - destruct r, s, t; simpl; intros H; try discriminate H;
      repeat (first [left; reflexivity | right]).
  - unfold transition_table. simpl.
    intros H. repeat (destruct H as [H | H]; [inversion H; reflexivity|]).
    contradiction.
Qed.

(** C1, as the code has it.  [can_transition_to s t r] is true exactly for
    the triples of the table of section 4.2, so it is false for every
    same-state transition and for every pair a role is not listed for.  The
    status update never applies a transition the table does not list: the
    request fails and the database is left as it was.  The failure is the
    invalid-transition error (HTTP 400, naming current status, target status
    and role) whenever the request passes the role branch, which runs first;
    a request that the role branch refuses fails with that branch's error. *)
Theorem C1_transition_table_enforced :
  (forall s t r,
      can_transition_to s t r = true <-> In (r, s, t) transition_table)
  /\ (forall s r, can_transition_to s s r = false)
  /\ (forall db o t now u,
        orders_pk db = true -> In o (orders db) ->
        can_transition_to (Order.status o) t (User.role u) = false ->
        (exists e,
            update_order_status (Order.merchant_id o) (Order.id o) t now u db
            = (db, Raise e))
        /\ (snd (role_guard (Order.merchant_id o) o t u db) = Ok tt ->
            update_order_status (Order.merchant_id o) (Order.id o) t now u db
            = (db, Raise (HTTPException 400
                 (Cannot_transition (Order.status o) t (User.role u)))))
        /\ (forall e,
              snd (role_guard (Order.merchant_id o) o t u db) = Raise e ->
              update_order_status (Order.merchant_id o) (Order.id o) t now u db
              = (db, Raise e))).
Proof.
  split; [exact can_transition_to_table|].
  split; [intros s r; destruct s, r; reflexivity|].
  intros db o t now u Hpk Hin Hc.
  pose proof (update_order_status_found (Order.merchant_id o) (Order.id o)
                t now u db o (lookup_found db o Hpk Hin)) as H.
  rewrite Hc in H.
  destruct (snd (role_guard (Order.merchant_id o) o t u db)) as [[]|e].
  - split; [eexists; exact H|].
    split; [intros _; exact H | intros e He; discriminate He].
  - split; [eexists; exact H|].
    split; [discriminate | intros e' He; injection He as <-; exact H].
Qed.

(** Partner Pat, who owns the Deli, asks to move the pending order 1
    straight to DELIVERED. *)
Lemma C1_witness :
  update_order_status 1 1 DELIVERED 105 Sample.pat Sample.db_pending
  = (Sample.db_pending,
     Raise (HTTPException 400 (Cannot_transition PENDING DELIVERED PARTNER))).
Proof.
  destruct C1_transition_table_enforced as [_ [_ H]].
  refine (proj1 (proj2 (H Sample.db_pending
            (Order.mk 1 "1 Elm St" None 1 1 None PENDING 100 None)
            DELIVERED 105 Sample.pat _ _ _)) _).
  - vm_compute. reflexivity.
  - vm_compute. left. reflexivity.
  - vm_compute. reflexivity.
  - vm_compute. reflexivity.
Defined.

(** C1 as stated fails where the role branch answers first.  Courier Kim,
    already carrying order 1, asks for the same-state transition
    IN_TRANSIT -> IN_TRANSIT of that order and gets the active-delivery
    error; consumer Bob asks to deliver Ann's pending order 1 and gets 403. *)
Lemma C1_counterexample :
  can_transition_to IN_TRANSIT IN_TRANSIT COURIER = false
  /\ update_order_status 1 1 IN_TRANSIT 125 Sample.kim Sample.db_kim
     = (Sample.db_kim,
        Raise (HTTPException 400 Already_have_an_active_order_in_transit))
  /\ can_transition_to PENDING DELIVERED CONSUMER = false
  /\ update_order_status 1 1 DELIVERED 105 Sample.bob Sample.db_pending
     = (Sample.db_pending, Raise (HTTPException 403 Not_your_order)).
Proof. vm_compute. repeat split. Qed.

(** ** Courier assignment (C2, C3, C10) *)

Lemma filter_nonempty {A : Type} (p : A -> bool) (l : list A) :
  match filter p l with [] => false | _ => true end = existsb p l.
Proof.
  induction l as [|x l IH]; simpl; [reflexivity|].
  destruct (p x); simpl; [reflexivity | exact IH].
Qed.

(** The courier's branch of the role guard, as a value. *)
Lemma role_guard_courier (m : Z) (o : Order.t) (t : OrderStatus) (u : User.t)
  (db : DB) :
  User.role u = COURIER ->
  snd (role_guard m o t u db) =
  if truthy (Order.courier_id o) && py_ne (Order.courier_id o) (User.id u)
  then Raise (HTTPException 403 Order_already_assigned_to_another_courier)
  else if OrderStatus_eqb t IN_TRANSIT
          && existsb (fun a => sql_eq (Order.courier_id a) (User.id u)
                               && OrderStatus_eqb (Order.status a) IN_TRANSIT)
               (orders db)
  then Raise (HTTPException 400 Already_have_an_active_order_in_transit)
  else Ok tt.
Proof.
  intros Hr. unfold role_guard. rewrite Hr. run.
  destruct (truthy (Order.courier_id o) && py_ne (Order.courier_id o) (User.id u));
    simpl; [reflexivity|].
  destruct (OrderStatus_eqb t IN_TRANSIT); simpl; [|reflexivity].
  rewrite <- filter_nonempty.
  destruct (filter _ (orders db)); reflexivity.
Qed.

(** No branch of the role guard raises the active-delivery error for a
    target other than IN_TRANSIT. *)
Lemma role_guard_conflict_only_in_transit (m : Z) (o : Order.t)
  (t : OrderStatus) (u : User.t) (db : DB) :
  t <> IN_TRANSIT ->
  snd (role_guard m o t u db)
  <> Raise (HTTPException 400 Already_have_an_active_order_in_transit).
Proof.
  intros Ht. destruct (User.role u) eqn:Hr.
  - unfold role_guard. rewrite Hr. run.
    destruct (Order.consumer_id o =? User.id u); simpl; discriminate.
  - unfold role_guard. rewrite Hr. unfold check_merchant_owner. run.
    rewrite Hr. simpl.
    destruct (filter _ (merchants db)) as [|x [|y l]]; simpl; try discriminate.
    destruct (Merchant.partner_id x =? User.id u); simpl; discriminate.
  - rewrite (role_guard_courier m o t u db Hr).
    destruct (truthy _ && _); [discriminate|].
    destruct (OrderStatus_eqb_spec t IN_TRANSIT) as [E|E]; [contradiction|].
    simpl. discriminate.
Qed.

Lemma key_unique {A : Type} (key : A -> Z) (l : list A) (a b : A) :
  NoDup (map key l) -> In a l -> In b l -> key a = key b -> a = b.
Proof.
  intros Hnd Ha Hb Hk.
  pose proof (filter_key_unique key l a Hnd Ha) as Fa.
  pose proof (filter_key_unique key l b Hnd Hb) as Fb.
  rewrite Hk in Fa. rewrite Fa in Fb. congruence.
Qed.

(** The other rows survive the UPDATE of one order. *)
Lemma update_order_keeps (o' x : Order.t) (db : DB) :
  In x (orders db) -> Order.id x <> Order.id o' ->
  In x (orders (update_order o' db)).
Proof.
  intros Hin Hne. unfold update_order. simpl. apply in_map_iff.
  exists x. split; [|exact Hin].
  destruct (Order.id x =? Order.id o') eqn:E; [|reflexivity].
  apply Z.eqb_eq in E. contradiction.
Qed.

(** The guard of an order that another courier holds. *)
Lemma role_guard_other_courier (m : Z) (o : Order.t) (t : OrderStatus)
  (u : User.t) (db : DB) (c : Z) :
  User.role u = COURIER ->
  Order.courier_id o = Some c -> c <> 0 -> c <> User.id u ->
  snd (role_guard m o t u db)
  = Raise (HTTPException 403 Order_already_assigned_to_another_courier).
Proof.
  intros Hr Hc Hc0 Hcu.
  rewrite (role_guard_courier m o t u db Hr). rewrite Hc. simpl.
  apply Z.eqb_neq in Hc0, Hcu. rewrite Hc0, Hcu. reflexivity.
Qed.

Lemma other_courier_forbidden (db : DB) (o : Order.t) (u : User.t) (c : Z)
  (t : OrderStatus) (now : Z) :
  orders_pk db = true -> In o (orders db) ->
  User.role u = COURIER ->
  Order.courier_id o = Some c -> c <> 0 -> c <> User.id u ->
  update_order_status (Order.merchant_id o) (Order.id o) t now u db
  = (db, Raise (HTTPException 403 Order_already_assigned_to_another_courier)).
Proof.
  intros Hpk Hin Hr Hc Hc0 Hcu.
  pose proof (update_order_status_found (Order.merchant_id o) (Order.id o)
                t now u db o (lookup_found db o Hpk Hin)) as H.
  rewrite (role_guard_other_courier _ o t u db c Hr Hc Hc0 Hcu) in H. exact H.
Qed.

(** C10.  A courier's status update on an order whose [courier_id] is set
    to another user fails with 403 "Order already assigned to another
    courier", whatever the target status, and leaves the database as it
    was ([c <> 0]: a user id is an autoincrement key, never 0, the one
    integer Python's [if order.courier_id] reads as unset).  Hence no
    request of that courier, to any path and for any target, changes the
    order's row; and no served update, of any caller, changes the order's
    [courier_id], so the order stays closed to that courier. *)
Theorem C10_assigned_to_another_courier :
  forall db o u c,
    orders_pk db = true -> In o (orders db) ->
    User.role u = COURIER ->
    Order.courier_id o = Some c -> c <> 0 -> c <> User.id u ->
    (forall t now,
        update_order_status (Order.merchant_id o) (Order.id o) t now u db
        = (db, Raise (HTTPException 403
                        Order_already_assigned_to_another_courier)))
    /\ (forall m oid t now,
          In o (orders (fst (update_order_status m oid t now u db))))
    /\ (forall t now u',
          Order.courier_id (apply_status t now u' o) = Some c).
Proof.
  intros db o u c Hpk Hin Hr Hc Hc0 Hcu.
  split; [|split].
  3:{ intros t now u'. unfold apply_status.
      destruct (User.role u'); simpl; try exact Hc.
      rewrite Hc. simpl. apply Z.eqb_neq in Hc0. rewrite Hc0. simpl.
      rewrite andb_false_r.
      destruct (OrderStatus_eqb t DELIVERED); simpl; exact Hc. }
  - intros t now.
    exact (other_courier_forbidden db o u c t now Hpk Hin Hr Hc Hc0 Hcu).
  - intros m oid t now.
    destruct (filter (fun x => (Order.id x =? oid) && (Order.merchant_id x =? m))
                (orders db)) as [|x [|y l]] eqn:Ef.
    + rewrite (update_order_status_not_found _ _ _ _ _ _ Ef). exact Hin.
    + pose proof (update_order_status_found m oid t now u db x Ef) as H.
      pose proof (filter_found_id _ _ _ _ Ef) as [Hx [Hxid Hxm]].
      destruct (snd (role_guard m x t u db)) as [[]|e] eqn:Eg.
      * destruct (can_transition_to (Order.status x) t (User.role u)).
        -- destruct H as [H _]. rewrite H.
           apply update_order_keeps; [exact Hin|].
           rewrite apply_status_id. intro Heq.
           apply nodupb_NoDup in Hpk.
           assert (o = x) by (exact (key_unique Order.id _ o x Hpk Hin Hx Heq)).
           subst x.
           rewrite (role_guard_other_courier _ o t u db c Hr Hc Hc0 Hcu) in Eg.
           discriminate.
        -- rewrite H. exact Hin.
      * rewrite H. exact Hin.
    + rewrite (update_order_status_ambiguous _ _ _ _ _ _ _ _ _ Ef). exact Hin.
Qed.

(** Order 1 is Kim's; Lee asks to deliver it. *)
Lemma C10_witness :
  update_order_status 1 1 DELIVERED 125 Sample.lee Sample.db_kim
  = (Sample.db_kim,
     Raise (HTTPException 403 Order_already_assigned_to_another_courier)).
Proof.
  refine (proj1 (C10_assigned_to_another_courier Sample.db_kim
            (Order.mk 1 "1 Elm St" None 1 1 (Some 4) IN_TRANSIT 100 None)
            Sample.lee 4 _ _ _ _ _ _) DELIVERED 125).
  - vm_compute. reflexivity.
  - vm_compute. left. reflexivity.
  - reflexivity.
  - reflexivity.
  - lia.
  - vm_compute. discriminate.
Defined.

(** The active-delivery error is raised for the target IN_TRANSIT only. *)
Lemma conflict_only_in_transit (m oid : Z) (t : OrderStatus) (now : Z)
  (u : User.t) (db : DB) :
  t <> IN_TRANSIT ->
  snd (update_order_status m oid t now u db)
  <> Raise (HTTPException 400 Already_have_an_active_order_in_transit).
Proof.
  intros Ht.
  destruct (filter (fun x => (Order.id x =? oid) && (Order.merchant_id x =? m))
              (orders db)) as [|x [|y l]] eqn:Ef.
  - rewrite (update_order_status_not_found _ _ _ _ _ _ Ef). discriminate.
  - pose proof (update_order_status_found m oid t now u db x Ef) as H.
    pose proof (role_guard_conflict_only_in_transit m x t u db Ht) as Hg.
    destruct (snd (role_guard m x t u db)) as [[]|e].
    + destruct (can_transition_to (Order.status x) t (User.role u)).
      * destruct H as [_ [_ [H _]]]. apply H.
      * rewrite H. simpl. discriminate.
    + rewrite H. simpl. intro Hc. apply Hg. inversion Hc. reflexivity.
  - rewrite (update_order_status_ambiguous _ _ _ _ _ _ _ _ _ Ef). discriminate.
Qed.

(** C2, as the code has it.  A courier who holds an order in IN_TRANSIT and
    asks to move an order to IN_TRANSIT gets the active-delivery error
    (HTTP 400) and the database is left as it was, provided the target
    order is not assigned to a different courier (that check runs first and
    answers 403, see C10).  For any other target status no request gets the
    active-delivery error. *)
Theorem C2_active_delivery_conflict :
  forall db a o u now,
    orders_pk db = true ->
    User.role u = COURIER ->
    In a (orders db) ->
    Order.courier_id a = Some (User.id u) -> Order.status a = IN_TRANSIT ->
    In o (orders db) ->
    (Order.courier_id o = None \/ Order.courier_id o = Some (User.id u)) ->
    update_order_status (Order.merchant_id o) (Order.id o) IN_TRANSIT now u db
    = (db, Raise (HTTPException 400 Already_have_an_active_order_in_transit))
    /\ (forall m oid t,
          t <> IN_TRANSIT ->
          snd (update_order_status m oid t now u db)
          <> Raise (HTTPException 400 Already_have_an_active_order_in_transit)).
Proof.
  intros db a o u now Hpk Hr Ha Hac Has Hin Hoc.
  split; [|intros m oid t Ht; apply conflict_only_in_transit; exact Ht].
  pose proof (update_order_status_found (Order.merchant_id o) (Order.id o)
                IN_TRANSIT now u db o (lookup_found db o Hpk Hin)) as H.
  rewrite (role_guard_courier _ o IN_TRANSIT u db Hr) in H.
  assert (truthy (Order.courier_id o)
          && py_ne (Order.courier_id o) (User.id u) = false) as E1.
  { destruct Hoc as [-> | ->]; simpl; [reflexivity|].
    rewrite Z.eqb_refl. simpl. apply andb_false_r. }
  assert (existsb (fun x => sql_eq (Order.courier_id x) (User.id u)
                            && OrderStatus_eqb (Order.status x) IN_TRANSIT)
            (orders db) = true) as E2.
  { apply existsb_exists. exists a. split; [exact Ha|].
    rewrite Hac, Has. simpl. rewrite Z.eqb_refl. reflexivity. }
  rewrite E1, E2 in H. exact H.
Qed.

(** Kim carries order 1 and asks for order 2, which nobody has taken. *)
Lemma C2_witness :
  update_order_status 1 2 IN_TRANSIT 125 Sample.kim Sample.db_kim
  = (Sample.db_kim,
     Raise (HTTPException 400 Already_have_an_active_order_in_transit)).
Proof.
  refine (proj1 (C2_active_delivery_conflict Sample.db_kim
            (Order.mk 1 "1 Elm St" None 1 1 (Some 4) IN_TRANSIT 100 None)
            (Order.mk 2 "1 Elm St" None 1 2 None READY_FOR_PICKUP 101 None)
            Sample.kim 125 _ _ _ _ _ _ _)).
  - vm_compute. reflexivity.
  - reflexivity.
  - vm_compute. left. reflexivity.
  - reflexivity.
  - reflexivity.
  - vm_compute. right. left. reflexivity.
  - left. reflexivity.
Defined.

(** C2 as stated fails when the other order belongs to another courier:
    Kim carries order 1, Lee carries order 2; Kim's request to move order 2
    to IN_TRANSIT is answered 403, not with the active-delivery error. *)
Lemma C2_counterexample :
  existsb (fun a => sql_eq (Order.courier_id a) (User.id Sample.kim)
                    && OrderStatus_eqb (Order.status a) IN_TRANSIT)
    (orders Sample.db_kim_lee) = true
  /\ update_order_status 1 2 IN_TRANSIT 125 Sample.kim Sample.db_kim_lee
     = (Sample.db_kim_lee,
        Raise (HTTPException 403 Order_already_assigned_to_another_courier)).
Proof. vm_compute. split; reflexivity. Qed.

(** C3.  A courier asks to move an order to IN_TRANSIT.  If the order's
    [courier_id] is set to another user ([c <> 0], see C10) the request
    fails with 403 and the database is left as it was.  If the request
    succeeds, the one UPDATE it commits sets the status and, where
    [courier_id] was unset, sets [courier_id] to the caller; where
    [courier_id] was the caller already, it keeps it.  The returned order is
    the updated row. *)
Theorem C3_first_courier_wins :
  forall db o u now,
    orders_pk db = true -> In o (orders db) ->
    User.role u = COURIER ->
    (forall c,
        Order.courier_id o = Some c -> c <> 0 -> c <> User.id u ->
        update_order_status (Order.merchant_id o) (Order.id o) IN_TRANSIT now u db
        = (db, Raise (HTTPException 403
                        Order_already_assigned_to_another_courier)))
    /\ (forall db' v,
          update_order_status (Order.merchant_id o) (Order.id o) IN_TRANSIT now u db
          = (db', Ok v) ->
          (Order.courier_id o = None ->
           let o' := Order.set_courier_id (Some (User.id u))
                       (Order.set_status IN_TRANSIT o) in
           db' = update_order o' db /\ OrderRead.order v = o')
          /\ (Order.courier_id o = Some (User.id u) ->
              let o' := Order.set_status IN_TRANSIT o in
              db' = update_order o' db /\ OrderRead.order v = o'
              /\ Order.courier_id o' = Order.courier_id o)).
Proof.
  intros db o u now Hpk Hin Hr. split.
  - intros c Hc Hc0 Hcu.
    exact (other_courier_forbidden db o u c IN_TRANSIT now Hpk Hin Hr Hc Hc0 Hcu).
  - intros db' v Hu.
    pose proof (update_order_status_found (Order.merchant_id o) (Order.id o)
                  IN_TRANSIT now u db o (lookup_found db o Hpk Hin)) as H.
    rewrite Hu in H. simpl in H.
    destruct (snd (role_guard (Order.merchant_id o) o IN_TRANSIT u db))
      as [[]|e]; [|discriminate H].
    destruct (can_transition_to (Order.status o) IN_TRANSIT (User.role u));
      [|discriminate H].
    destruct H as [Hdb [Hv _]]. specialize (Hv v eq_refl).
    assert (forall x, Order.courier_id o = x ->
              apply_status IN_TRANSIT now u o
              = if negb (truthy x)
                then Order.set_courier_id (Some (User.id u))
                       (Order.set_status IN_TRANSIT o)
                else Order.set_status IN_TRANSIT o) as Ha.
    { intros x Hx. unfold apply_status. rewrite Hr. simpl. rewrite Hx.
      destruct (truthy x); reflexivity. }
    split.
    + intros Hn. simpl. rewrite (Ha None Hn) in Hdb, Hv. simpl in Hdb, Hv. auto.
    + intros Hs. simpl. rewrite (Ha _ Hs) in Hdb, Hv.
      assert (Order.set_courier_id (Some (User.id u))
                (Order.set_status IN_TRANSIT o)
              = Order.set_status IN_TRANSIT o) as Heq.
      { unfold Order.set_courier_id, Order.set_status. simpl. rewrite Hs.
        reflexivity. }
      rewrite Heq in Hdb, Hv.
      destruct (negb (truthy (Some (User.id u)))); auto.
Qed.

(** Kim takes order 1, which nobody has taken yet: the one UPDATE writes
    the new status and Kim as the courier. *)
Lemma C3_witness :
  Sample.db_kim
  = update_order (Order.mk 1 "1 Elm St" None 1 1 (Some 4) IN_TRANSIT 100 None)
      Sample.db_ready.
Proof.
  refine (proj1 (proj1 (proj2 (C3_first_courier_wins Sample.db_ready
            (Order.mk 1 "1 Elm St" None 1 1 None READY_FOR_PICKUP 100 None)
            Sample.kim 120 _ _ _) Sample.db_kim
            (OrderRead.mk
               (Order.mk 1 "1 Elm St" None 1 1 (Some 4) IN_TRANSIT 100 None)
               [OrderItem.mk 1 1 2 1; OrderItem.mk 2 2 3 1]
               "Deli" "Main St" None (Some "Kim"%string) 8%float) _) _)).
  - vm_compute. reflexivity.
  - vm_compute. left. reflexivity.
  - reflexivity.
  - vm_compute. reflexivity.
  - reflexivity.
Defined.

(** ** Order creation (C4, C8) *)

Lemma next_id_fresh (ids : list Z) (x : Z) : In x ids -> x < next_id ids.
Proof.
  unfold next_id. induction ids as [|y ids IH]; cbn [fold_right In];
    [contradiction|].
  intros [-> | H]; [lia|]. specialize (IH H). lia.
Qed.

Lemma next_id_not_in (ids : list Z) : ~ In (next_id ids) ids.
Proof. intro H. apply next_id_fresh in H. lia. Qed.

(** The new order is the only row with its key. *)
Lemma requery_after_insert (o : Order.t) (l : list Order.t) :
  Order.id o = next_id (map Order.id l) ->
  filter (fun y => Order.id y =? Order.id o) (l ++ [o]) = [o].
Proof.
  intros Hid. rewrite filter_app. simpl. rewrite Z.eqb_refl.
  rewrite (filter_key_absent Order.id l (Order.id o)); [reflexivity|].
  rewrite Hid. apply next_id_not_in.
Qed.

Lemma new_order_items_spec (order_id next : Z)
  (l : list OrderItemCreateSchema.t) :
  map (fun r => (OrderItem.item_id r, OrderItem.quantity r))
    (new_order_items order_id next l)
  = map (fun x => (OrderItemCreateSchema.item_id x,
                   OrderItemCreateSchema.quantity x)) l
  /\ Forall (fun r => OrderItem.order_id r = order_id)
       (new_order_items order_id next l)
  /\ List.length (new_order_items order_id next l) = List.length l.
Proof.
  revert next. induction l as [|x l IH]; intros next; simpl.
  - repeat split. constructor.
  - destruct (IH (next + 1)) as [H1 [H2 H3]]. repeat split.
    + rewrite H1. reflexivity.
    + constructor; [reflexivity | exact H2].
    + rewrite H3. reflexivity.
Qed.

(** [create_order], case by case: the three refusals, which leave the
    database as it was, or the insertion; after the commit the handler only
    reads, returns the inserted order, and raises no HTTP error. *)
Lemma create_order_cases (m : Z) (body : OrderCreateSchema.t) (now : Z)
  (u : User.t) (db : DB) :
  User.role u = CONSUMER ->
  let item_ids :=
    map OrderItemCreateSchema.item_id (OrderCreateSchema.items body) in
  match OrderCreateSchema.items body with
  | [] =>
      create_order m body now u db
      = (db, Raise (HTTPException 400 Order_must_contain_at_least_one_item))
  | _ =>
      if existsb (fun item => OrderItemCreateSchema.quantity item <=? 0)
           (OrderCreateSchema.items body)
      then create_order m body now u db
           = (db, Raise (HTTPException 400 Item_quantities_must_be_positive))
      else if Nat.eqb (List.length (resolved_items db m item_ids))
                (List.length item_ids)
      then
        if negb (forallb
                   (fun item =>
                      sqlite_integer (OrderItemCreateSchema.quantity item))
                   (OrderCreateSchema.items body))
        then create_order m body now u db = (db, Raise OverflowError)
        else
        let o := created_order db m body now u in
        let db' :=
          insert_order o
            (new_order_items (Order.id o)
               (next_id (map OrderItem.id (order_items db)))
               (OrderCreateSchema.items body)) db in
        fst (create_order m body now u db) = db'
        /\ (forall v, snd (create_order m body now u db) = Ok v ->
              v = OrderRead.mk o (Order_items db' o)
                    (OrderRead.merchant_name v) (OrderRead.merchant_location v)
                    None None (OrderRead.total v)
              /\ getattr (Order_merchant db' o) Merchant.name
                 = Ok (OrderRead.merchant_name v)
              /\ getattr (Order_merchant db' o) Merchant.location
                 = Ok (OrderRead.merchant_location v)
              /\ order_total db' o = Ok (OrderRead.total v))
        /\ (forall c d, snd (create_order m body now u db)
                        <> Raise (HTTPException c d))
        /\ (getattr (Order_merchant db' o) Merchant.name <> Raise AttributeError ->
            order_total db' o <> Raise AttributeError ->
            exists v, snd (create_order m body now u db) = Ok v)
      else create_order m body now u db
           = (db, Raise (HTTPException 400
                Items_not_found_or_belong_to_different_merchant))
  end.
Proof.
  intros Hr item_ids. subst item_ids.
  pose proof (check_role_passes [CONSUMER] u db) as Hrole.
  rewrite Hr in Hrole. specialize (Hrole eq_refl).
  unfold create_order. rewrite (bind_ok _ _ _ _ _ Hrole).
  destruct (OrderCreateSchema.items body) as [|x0 l0] eqn:Eitems;
    [reflexivity|].
  rewrite <- Eitems in *. clear Eitems x0 l0.
  set (item_ids :=
         map OrderItemCreateSchema.item_id (OrderCreateSchema.items body)).
  rewrite (bind_ok _ _ db db tt) by reflexivity.
  destruct (existsb _ (OrderCreateSchema.items body)); [reflexivity|].
  rewrite (bind_ok _ _ db db tt) by reflexivity.
  rewrite (bind_ok _ _ db db (resolved_items db m item_ids)) by reflexivity.
  destruct (Nat.eqb (List.length (resolved_items db m item_ids))
              (List.length item_ids)); [|reflexivity].
  rewrite (bind_ok _ _ db db tt) by reflexivity.
  rewrite (bind_ok _ _ db db (next_id (map Order.id (orders db))))
    by reflexivity.
  rewrite (bind_ok _ _ db db (next_id (map OrderItem.id (order_items db))))
    by reflexivity.
  destruct (negb (forallb _ (OrderCreateSchema.items body))); [reflexivity|].
  rewrite (bind_ok _ _ db db tt) by reflexivity.
  fold (created_order db m body now u).
  set (o := created_order db m body now u).
  change (next_id (map Order.id (orders db))) with (Order.id o).
  set (db' := insert_order o _ db).
  rewrite (bind_ok _ _ db db' tt) by reflexivity.
  assert (filter (fun y => Order.id y =? Order.id o) (orders db') = [o]) as Hq.
  { unfold db', insert_order. cbn [orders].
    apply requery_after_insert. reflexivity. }
  rewrite (bind_ok _ _ db' db' [o]) by (unfold execute; rewrite Hq; reflexivity).
  rewrite (bind_ok _ _ db' db' o) by reflexivity.
  destruct (getattr (Order_merchant db' o) Merchant.name) as [n|e1] eqn:E1.
  2:{ rewrite (bind_raise _ _ db' db' e1) by (unfold lift; rewrite E1; reflexivity).
      apply getattr_raises in E1. subst. simpl.
      repeat split; try discriminate. intros H; contradiction. }
  rewrite (bind_ok _ _ db' db' n) by (unfold lift; rewrite E1; reflexivity).
  destruct (getattr (Order_merchant db' o) Merchant.location) as [loc|e2] eqn:E2.
  2:{ exfalso. destruct (Order_merchant db' o); simpl in *; discriminate. }
  rewrite (bind_ok _ _ db' db' loc) by (unfold lift; rewrite E2; reflexivity).
  rewrite (bind_ok _ _ db' db' (Order_items db' o)) by reflexivity.
  destruct (order_total db' o) as [tot|e3] eqn:E3.
  2:{ rewrite (bind_raise _ _ db' db' e3) by (unfold lift; rewrite E3; reflexivity).
      apply sum_line_items_raises in E3. subst. simpl.
      repeat split; try discriminate. intros _ H; contradiction. }
  rewrite (bind_ok _ _ db' db' tot) by (unfold lift; rewrite E3; reflexivity).
  unfold ret. simpl. repeat split; try discriminate.
  - inversion H; subst. reflexivity.
  - inversion H; subst. reflexivity.
  - inversion H; subst. reflexivity.
  - inversion H; subst. reflexivity.
  - intros _ _. eexists. reflexivity.
Qed.

Lemma NoDup_map_filter {A : Type} (f : A -> Z) (p : A -> bool) (l : list A) :
  NoDup (map f l) -> NoDup (map f (filter p l)).
Proof.
  induction l as [|x l IH]; simpl; intros Hnd; [constructor|].
  inversion Hnd as [|? ? Hx Hl]; subst.
  destruct (p x); simpl; [|exact (IH Hl)].
  constructor; [|exact (IH Hl)].
  intro Hin. apply Hx. apply in_map_iff in Hin.
  destruct Hin as [y [Hy Hin]]. apply filter_In in Hin.
  rewrite <- Hy. apply in_map. exact (proj1 Hin).
Qed.

Lemma resolved_items_in (db : DB) (m : Z) (ids : list Z) (i : Z) :
  In i (map Item.id (resolved_items db m ids)) <->
  In i ids /\ belongs_to db m i = true.
Proof.
  unfold resolved_items, belongs_to. rewrite in_map_iff. split.
  - intros [it [Hid Hin]]. apply filter_In in Hin. destruct Hin as [Hin Hc].
    apply andb_true_iff in Hc. destruct Hc as [Hc1 Hc2].
    apply existsb_exists in Hc1. destruct Hc1 as [j [Hj Hij]].
    apply Z.eqb_eq in Hij. split; [rewrite <- Hid, Hij; exact Hj|].
    apply existsb_exists. exists it. split; [exact Hin|].
    rewrite Hid, Z.eqb_refl. exact Hc2.
  - intros [Hi Hb]. apply existsb_exists in Hb. destruct Hb as [it [Hin Hc]].
    apply andb_true_iff in Hc. destruct Hc as [Hc1 Hc2].
    apply Z.eqb_eq in Hc1. exists it. split; [exact Hc1|].
    apply filter_In. split; [exact Hin|]. rewrite Hc2, andb_true_r.
    apply existsb_exists. exists i. split; [exact Hi|].
    rewrite Hc1. apply Z.eqb_refl.
Qed.

Lemma resolved_items_NoDup (db : DB) (m : Z) (ids : list Z) :
  items_pk db = true -> NoDup (map Item.id (resolved_items db m ids)).
Proof.
  intros Hpk. apply nodupb_NoDup in Hpk. unfold resolved_items.
  apply NoDup_map_filter. exact Hpk.
Qed.

(** When the query returns as many rows as ids were requested, every
    requested id has resolved. *)
Lemma same_length_all_resolved (db : DB) (m : Z) (ids : list Z) :
  items_pk db = true ->
  List.length (resolved_items db m ids) = List.length ids ->
  forall i, In i ids -> belongs_to db m i = true.
Proof.
  intros Hpk Hlen i Hi.
  assert (incl ids (map Item.id (resolved_items db m ids))) as Hincl.
  { apply NoDup_length_incl.
    - apply resolved_items_NoDup. exact Hpk.
    - rewrite length_map. rewrite Hlen. apply le_n.
    - intros j Hj. apply resolved_items_in in Hj. exact (proj1 Hj). }
  apply Hincl in Hi. apply resolved_items_in in Hi. exact (proj2 Hi).
Qed.

(** When the requested ids are pairwise distinct and all resolve, the query
    returns as many rows as ids were requested. *)
Lemma all_resolved_same_length (db : DB) (m : Z) (ids : list Z) :
  items_pk db = true -> NoDup ids ->
  (forall i, In i ids -> belongs_to db m i = true) ->
  List.length (resolved_items db m ids) = List.length ids.
Proof.
  intros Hpk Hnd Hall. apply Nat.le_antisymm.
  - rewrite <- (length_map Item.id). apply NoDup_incl_length.
    + apply resolved_items_NoDup. exact Hpk.
    + intros j Hj. apply resolved_items_in in Hj. exact (proj1 Hj).
  - rewrite <- (length_map Item.id (resolved_items db m ids)).
    apply NoDup_incl_length; [exact Hnd|].
    intros j Hj. apply resolved_items_in. split; [exact Hj | exact (Hall j Hj)].
Qed.

Lemma positive_quantities (l : list OrderItemCreateSchema.t) :
  (forall x, In x l -> 0 < OrderItemCreateSchema.quantity x) ->
  existsb (fun item => OrderItemCreateSchema.quantity item <=? 0) l = false.
Proof.
  intros H. destruct (existsb _ l) eqn:E; [|reflexivity].
  apply existsb_exists in E. destruct E as [x [Hx Hq]].
  apply Z.leb_le in Hq. specialize (H x Hx). lia.
Qed.




(** A repeated item id is refused as well, although every id resolves:
    the query returns one row per catalog item, the request has two ids. *)
Example create_order_repeated_item :
  snd (create_order 1
         (OrderCreateSchema.mk "1 Elm St" None
            [OrderItemCreateSchema.mk 1 2; OrderItemCreateSchema.mk 1 3])
         100 Sample.ann Sample.db0)
  = Raise (HTTPException 400 Items_not_found_or_belong_to_different_merchant).
Proof. vm_compute. reflexivity. Qed.

Lemma create_order_role (m : Z) (body : OrderCreateSchema.t) (now : Z)
  (u : User.t) (db db' : DB) (v : OrderRead.t) :
  create_order m body now u db = (db', Ok v) -> User.role u = CONSUMER.
Proof.
  intros H. destruct (User.role u) eqn:Hr; [reflexivity| |];
    unfold create_order in H;
    rewrite (bind_raise _ _ db db
               (HTTPException 403 Operation_not_permitted_for_this_role)) in H
      by (apply check_role_fails; rewrite Hr; reflexivity);
    discriminate H.
Qed.

(** C8.  A successful [create_order] inserts one order row: status PENDING,
    the caller as consumer, the given merchant, [created_at] the current
    time, no courier and no delivery time, under a key no order had; it
    inserts one [OrderItem] row per requested pair, in request order, with
    the pair's item id and quantity and the new order's key; and it returns
    that order with the name and location of the merchant and the total
    computed from the database it leaves.  Success implies the request had
    at least one item and only positive quantities. *)
Theorem C8_created_order :
  forall db m body now u db' v,
    create_order m body now u db = (db', Ok v) ->
    let o := OrderRead.order v in
    (Order.status o = PENDING
     /\ Order.consumer_id o = User.id u
     /\ Order.merchant_id o = m
     /\ Order.created_at o = now
     /\ Order.courier_id o = None
     /\ Order.delivered_at o = None
     /\ Order.delivery_address o = OrderCreateSchema.delivery_address body
     /\ Order.order_instructions o = OrderCreateSchema.order_instructions body)
    /\ ~ In (Order.id o) (map Order.id (orders db))
    /\ orders db' = orders db ++ [o]
    /\ (exists rows,
          order_items db' = order_items db ++ rows
          /\ map (fun r => (OrderItem.item_id r, OrderItem.quantity r)) rows
             = map (fun x => (OrderItemCreateSchema.item_id x,
                              OrderItemCreateSchema.quantity x))
                 (OrderCreateSchema.items body)
          /\ Forall (fun r => OrderItem.order_id r = Order.id o) rows)
    /\ (exists merchant,
          In merchant (merchants db) /\ Merchant.id merchant = m
          /\ OrderRead.merchant_name v = Merchant.name merchant
          /\ OrderRead.merchant_location v = Merchant.location merchant)
    /\ order_total db' o = Ok (OrderRead.total v)
    /\ (users db' = users db /\ merchants db' = merchants db
        /\ items db' = items db)
    /\ (OrderCreateSchema.items body <> []
        /\ forall x, In x (OrderCreateSchema.items body) ->
                     0 < OrderItemCreateSchema.quantity x).
Proof.
  intros db m body now u db' v Hu o.
  pose proof (create_order_role _ _ _ _ _ _ _ Hu) as Hr.
  pose proof (create_order_cases m body now u db Hr) as Hc. cbv zeta in Hc.
  rewrite Hu in Hc. simpl fst in Hc. simpl snd in Hc.
  destruct (OrderCreateSchema.items body) as [|x0 l0] eqn:Eitems;
    [discriminate Hc|].
  rewrite <- Eitems in *.
  destruct (existsb _ (OrderCreateSchema.items body)) eqn:Epos;
    [discriminate Hc|].
  destruct (Nat.eqb _ _); [|discriminate Hc].
  destruct (negb (forallb _ _)); [discriminate Hc|].
  destruct Hc as [Hdb [Hv _]]. specialize (Hv v eq_refl).
  destruct Hv as [Hv [Hn [Hl Ht]]].
  assert (o = created_order db m body now u) as Ho
    by (unfold o; rewrite Hv; reflexivity).
  set (rows := new_order_items (Order.id (created_order db m body now u))
                 (next_id (map OrderItem.id (order_items db)))
                 (OrderCreateSchema.items body)) in *.
  split; [rewrite Ho; repeat split|].
  split; [rewrite Ho; apply next_id_not_in|].
  split; [rewrite Hdb, Ho; reflexivity|].
  split.
  { exists rows. split; [rewrite Hdb; reflexivity|].
    rewrite Ho. unfold rows.
    destruct (new_order_items_spec
                (Order.id (created_order db m body now u))
                (next_id (map OrderItem.id (order_items db)))
                (OrderCreateSchema.items body)) as [H1 [H2 _]].
    split; assumption. }
  split.
  { destruct (Order_merchant _ (created_order db m body now u))
      as [merchant|] eqn:Em; [|discriminate Hn].
    unfold Order_merchant in Em. apply find_key_some in Em.
    destruct Em as [Hin Hid]. exists merchant.
    simpl in Hin, Hid, Hn, Hl.
    inversion Hn. inversion Hl. auto. }
  split; [rewrite Ho, Hdb; exact Ht|].
  split; [rewrite Hdb; repeat split|].
  split; [rewrite Eitems; discriminate|].
  intros x Hx. destruct (Z.ltb_spec 0 (OrderItemCreateSchema.quantity x));
    [assumption|].
  exfalso. assert (existsb (fun item => OrderItemCreateSchema.quantity item <=? 0)
                     (OrderCreateSchema.items body) = true) as E.
  { apply existsb_exists. exists x. split; [exact Hx|]. apply Z.leb_le. lia. }
  congruence.
Qed.

(** Ann's first order at the Deli: two soups and three rolls. *)
Lemma C8_witness :
  orders (Sample.after (create_order 1 Sample.body 100 Sample.ann) Sample.db0)
  = orders Sample.db0
    ++ [Order.mk 1 "1 Elm St" None 1 1 None PENDING 100 None]
  /\ order_total
       (Sample.after (create_order 1 Sample.body 100 Sample.ann) Sample.db0)
       (Order.mk 1 "1 Elm St" None 1 1 None PENDING 100 None)
     = Ok 8%float.
Proof.
  pose proof (C8_created_order Sample.db0 1 Sample.body 100 Sample.ann
    (Sample.after (create_order 1 Sample.body 100 Sample.ann) Sample.db0)
    (OrderRead.mk (Order.mk 1 "1 Elm St" None 1 1 None PENDING 100 None)
       [OrderItem.mk 1 1 2 1; OrderItem.mk 2 2 3 1]
       "Deli" "Main St" None None 8%float)) as H.
  cbv zeta in H.
  destruct H as [_ [_ [Ho [_ [_ [Ht _]]]]]].
  - vm_compute. reflexivity.
  - split; [exact Ho | exact Ht].
Defined.

(** ** The read handlers *)

Lemma get_order_guard_fst (u : User.t) (o : Order.t) (db : DB) :
  fst (get_order_guard u o db) = db.
Proof.
  unfold get_order_guard. destruct (User.role u); run.
  - destruct (Order.consumer_id o =? User.id u); reflexivity.
  - reflexivity.
  - destruct (OrderStatus_eqb (Order.status o) READY_FOR_PICKUP);
      [reflexivity|].
    destruct (_ || _); [|reflexivity].
    destruct (py_ne (Order.courier_id o) (User.id u)); reflexivity.
Qed.

(** The guard of [get_order] lets through exactly the orders the WHERE
    clause of [list_orders] selects, and refuses the others with 403. *)
Lemma get_order_guard_where (u : User.t) (o : Order.t) (db : DB) :
  snd (get_order_guard u o db)
  = if list_orders_where u o then Ok tt
    else Raise (HTTPException 403
                  match User.role u with
                  | CONSUMER => Not_your_order
                  | _ => Order_not_available_for_viewing
                  end).
Proof.
  unfold get_order_guard, list_orders_where. destruct (User.role u); run.
  - destruct (Order.consumer_id o =? User.id u); reflexivity.
  - reflexivity.
  - destruct (Order.status o); simpl; try reflexivity;
      destruct (Order.courier_id o) as [c|]; simpl; try reflexivity;
      destruct (c =? User.id u); reflexivity.
Qed.

(** What [get_order] does for the one order the lookup finds. *)
Lemma get_order_found (oid : Z) (u : User.t) (db : DB) (o : Order.t) :
  role_in (User.role u) [CONSUMER; COURIER] = true ->
  filter (fun x => Order.id x =? oid) (orders db) = [o] ->
  match snd (get_order_guard u o db) with
  | Raise e => get_order oid u db = (db, Raise e)
  | Ok _ =>
      fst (get_order oid u db) = db
      /\ (forall v, snd (get_order oid u db) = Ok v ->
            OrderRead.order v = o /\ order_total db o = Ok (OrderRead.total v))
      /\ (forall c d, snd (get_order oid u db) <> Raise (HTTPException c d))
      /\ (Order_merchant db o <> None -> Order_consumer db o <> None ->
          (exists x, order_total db o = Ok x) ->
          exists v, snd (get_order oid u db) = Ok v)
  end.
Proof.
  intros Hrole Hf. unfold get_order.
  rewrite (bind_ok _ _ _ _ _ (check_role_passes _ u db Hrole)).
  rewrite (bind_ok _ _ db db [o]) by (unfold execute; rewrite Hf; reflexivity).
  rewrite (bind_ok _ _ db db (Some o)) by reflexivity.
  pose proof (get_order_guard_fst u o db) as Hg.
  destruct (get_order_guard u o db) as [db1 [[]|e]] eqn:Eg; simpl in Hg;
    subst db1; simpl snd; cbv iota.
  2:{ rewrite (bind_raise _ _ _ _ _ Eg). reflexivity. }
  rewrite (bind_ok _ _ _ _ _ Eg).
  destruct (Order_merchant db o) as [mch|] eqn:Em.
  2:{ rewrite (bind_raise _ _ db db AttributeError)
        by (unfold lift; rewrite Em; reflexivity).
      simpl. repeat split; try discriminate. intros H; contradiction. }
  rewrite (bind_ok _ _ db db (Merchant.name mch))
    by (unfold lift; rewrite Em; reflexivity).
  rewrite (bind_ok _ _ db db (Merchant.location mch))
    by (unfold lift; rewrite Em; reflexivity).
  destruct (Order_consumer db o) as [cons|] eqn:Ec.
  2:{ rewrite (bind_raise _ _ db db AttributeError)
        by (unfold lift; rewrite Ec; reflexivity).
      simpl. repeat split; try discriminate. intros _ H; contradiction. }
  rewrite (bind_ok _ _ db db (User.name cons))
    by (unfold lift; rewrite Ec; reflexivity).
  rewrite (bind_ok _ _ db db (courier_name_of db o)) by reflexivity.
  rewrite (bind_ok _ _ db db (Order_items db o)) by reflexivity.
  destruct (order_total db o) as [tot|e3] eqn:E3.
  2:{ rewrite (bind_raise _ _ db db e3) by (unfold lift; rewrite E3; reflexivity).
      apply sum_line_items_raises in E3. subst. simpl.
      repeat split; try discriminate. intros _ _ [x Hx]. discriminate Hx. }
  rewrite (bind_ok _ _ db db tot) by (unfold lift; rewrite E3; reflexivity).
  unfold ret. simpl. repeat split; try discriminate.
  - inversion H. reflexivity.
  - inversion H. reflexivity.
  - intros _ _ _. eexists. reflexivity.
Qed.

Lemma get_order_not_found (oid : Z) (u : User.t) (db : DB) :
  role_in (User.role u) [CONSUMER; COURIER] = true ->
  filter (fun x => Order.id x =? oid) (orders db) = [] ->
  get_order oid u db = (db, Raise (HTTPException 404 Order_not_found)).
Proof.
  intros Hrole Hf. unfold get_order.
  rewrite (bind_ok _ _ _ _ _ (check_role_passes _ u db Hrole)).
  rewrite (bind_ok _ _ db db []) by (unfold execute; rewrite Hf; reflexivity).
  rewrite (bind_ok _ _ db db None) by reflexivity. reflexivity.
Qed.

(** A loop whose body only reads: it only reads, its results are the
    body's results in order, and it raises what the body raises. *)
Lemma for_each_reads {A B : Type} (f : A -> M B) (xs : list A) (db : DB) :
  (forall x, fst (f x db) = db) ->
  fst (for_each f xs db) = db
  /\ (forall ys, snd (for_each f xs db) = Ok ys ->
        Forall2 (fun x y => snd (f x db) = Ok y) xs ys)
  /\ (forall e, snd (for_each f xs db) = Raise e ->
        exists x, In x xs /\ snd (f x db) = Raise e)
  /\ ((forall x, In x xs -> exists y, snd (f x db) = Ok y) ->
      exists ys, snd (for_each f xs db) = Ok ys).
Proof.
  intros Hf. induction xs as [|x xs IH]; simpl.
  - unfold ret. simpl. repeat split.
    + intros ys H. inversion H. constructor.
    + intros e H. discriminate H.
    + intros _. eexists. reflexivity.
  - destruct IH as [IH1 [IH2 [IH3 IH4]]].
    pose proof (Hf x) as Hx.
    destruct (f x db) as [db1 [y|e]] eqn:Ex; simpl in Hx; subst db1.
    + rewrite (bind_ok _ _ _ _ _ Ex).
      destruct (for_each f xs db) as [db2 [ys|e]] eqn:Er; simpl in IH1;
        subst db2.
      * rewrite (bind_ok _ _ _ _ _ Er). unfold ret. simpl. repeat split.
        -- intros ys' H. inversion H. subst.
           constructor; [rewrite Ex; reflexivity|].
           apply IH2. reflexivity.
        -- intros e H. discriminate H.
        -- intros _. eexists. reflexivity.
      * rewrite (bind_raise _ _ _ _ _ Er). simpl. repeat split.
        -- intros ys H. discriminate H.
        -- intros e' H. inversion H. subst.
           destruct (IH3 e' eq_refl) as [x' [Hin Hx']].
           exists x'. split; [right; exact Hin | exact Hx'].
        -- intros Hall. exfalso.
           destruct IH4 as [ys Hys];
             [intros x' Hx'; apply Hall; right; exact Hx' | discriminate Hys].
    + rewrite (bind_raise _ _ _ _ _ Ex). simpl. repeat split.
      * intros ys H. discriminate H.
      * intros e' H. inversion H. subst. exists x. split; [left; reflexivity|].
        rewrite Ex. reflexivity.
      * intros Hall. exfalso. destruct (Hall x (or_introl eq_refl)) as [y Hy].
        rewrite Ex in Hy. discriminate Hy.
Qed.

Lemma list_orders_row_reads (o : Order.t) (db : DB) :
  fst (list_orders_row o db) = db
  /\ (forall v, snd (list_orders_row o db) = Ok v ->
        OrderRead.order v = o /\ order_total db o = Ok (OrderRead.total v))
  /\ (Order_merchant db o <> None -> (exists x, order_total db o = Ok x) ->
      exists v, snd (list_orders_row o db) = Ok v).
Proof.
  unfold list_orders_row.
  destruct (Order_merchant db o) as [mch|] eqn:Em.
  2:{ rewrite (bind_raise _ _ db db AttributeError)
        by (unfold lift; rewrite Em; reflexivity).
      simpl. repeat split; try discriminate. intros H; contradiction. }
  rewrite (bind_ok _ _ db db (Merchant.name mch))
    by (unfold lift; rewrite Em; reflexivity).
  rewrite (bind_ok _ _ db db (Merchant.location mch))
    by (unfold lift; rewrite Em; reflexivity).
  rewrite (bind_ok _ _ db db (courier_name_of db o)) by reflexivity.
  rewrite (bind_ok _ _ db db (Order_items db o)) by reflexivity.
  destruct (order_total db o) as [tot|e3] eqn:E3.
  2:{ rewrite (bind_raise _ _ db db e3) by (unfold lift; rewrite E3; reflexivity).
      simpl. repeat split; try discriminate. intros _ [x Hx]. discriminate Hx. }
  rewrite (bind_ok _ _ db db tot) by (unfold lift; rewrite E3; reflexivity).
  unfold ret. simpl. repeat split.
  - inversion H. reflexivity.
  - inversion H. reflexivity.
  - intros _ _. eexists. reflexivity.
Qed.

Lemma Forall2_map_eq {A B : Type} (g : B -> A) (xs : list A) (ys : list B) :
  Forall2 (fun x y => g y = x) xs ys -> map g ys = xs.
Proof.
  induction 1 as [|x y xs ys Hxy _ IH]; simpl; [reflexivity|].
  rewrite Hxy, IH. reflexivity.
Qed.

Lemma Forall2_Forall_r {A B : Type} (R : A -> B -> Prop) (P : B -> Prop)
  (xs : list A) (ys : list B) :
  Forall2 R xs ys -> (forall x y, R x y -> P y) -> Forall P ys.
Proof.
  intros H HP. induction H as [|x y xs ys Hxy _ IH]; constructor.
  - exact (HP x y Hxy).
  - exact IH.
Qed.

(** [list_orders] only reads; it returns the orders its WHERE clause
    selects, in table order, each with its total. *)
Lemma list_orders_result (u : User.t) (db : DB) :
  role_in (User.role u) [CONSUMER; COURIER] = true ->
  fst (list_orders u db) = db
  /\ (forall vs, snd (list_orders u db) = Ok vs ->
        map OrderRead.order vs = filter (list_orders_where u) (orders db)
        /\ Forall (fun v => order_total db (OrderRead.order v)
                            = Ok (OrderRead.total v)) vs)
  /\ ((forall o, In o (orders db) ->
         Order_merchant db o <> None /\ exists x, order_total db o = Ok x) ->
      exists vs, snd (list_orders u db) = Ok vs).
Proof.
  intros Hrole. unfold list_orders.
  rewrite (bind_ok _ _ _ _ _ (check_role_passes _ u db Hrole)).
  rewrite (bind_ok _ _ db db (filter (list_orders_where u) (orders db)))
    by reflexivity.
  destruct (for_each_reads list_orders_row
              (filter (list_orders_where u) (orders db)) db
              (fun x => proj1 (list_orders_row_reads x db)))
    as [H1 [H2 [_ H4]]].
  split; [exact H1|]. split.
  - intros vs Hvs. specialize (H2 vs Hvs). split.
    + apply Forall2_map_eq.
      eapply Forall2_impl; [|exact H2]. intros o v Hov. simpl in Hov.
      exact (proj1 (proj1 (proj2 (list_orders_row_reads o db)) v Hov)).
    + apply (Forall2_Forall_r _ _ _ _ H2). intros o v Hov.
      destruct (proj1 (proj2 (list_orders_row_reads o db)) v Hov) as [-> Ht].
      exact Ht.
  - intros Hall. apply H4. intros o Ho. apply filter_In in Ho.
    destruct (Hall o (proj1 Ho)) as [Hm Ht].
    exact (proj2 (proj2 (list_orders_row_reads o db)) Hm Ht).
Qed.

(** ** Foreign keys make the joins succeed *)

Lemma orders_fk_joins (db : DB) (o : Order.t) :
  orders_fk db = true -> In o (orders db) ->
  Order_merchant db o <> None /\ Order_consumer db o <> None.
Proof.
  intros Hfk Hin. unfold orders_fk in Hfk.
  rewrite forallb_forall in Hfk. specialize (Hfk o Hin).
  apply andb_true_iff in Hfk. destruct Hfk as [Hm Hc].
  apply (find_key_exists Merchant.id) in Hm. destruct Hm as [m [Hm _]].
  apply (find_key_exists User.id) in Hc. destruct Hc as [c [Hc _]].
  unfold Order_merchant, Order_consumer. rewrite Hm, Hc.
  split; discriminate.
Qed.

Lemma sum_line_items_total (db : DB) (l : list OrderItem.t) (acc : float) :
  (forall oi, In oi l -> OrderItem_item db oi <> None) ->
  exists x, sum_line_items db acc l = Ok x.
Proof.
  revert acc. induction l as [|oi l IH]; intros acc Hall; simpl.
  - eexists. reflexivity.
  - destruct (OrderItem_item db oi) as [it|] eqn:Ei.
    + simpl. apply IH. intros oi' H. apply Hall. right. exact H.
    + exfalso. apply (Hall oi (or_introl eq_refl)). exact Ei.
Qed.

Lemma order_items_fk_total (db : DB) (o : Order.t) :
  order_items_fk db = true -> exists x, order_total db o = Ok x.
Proof.
  intros Hfk. unfold order_total. apply sum_line_items_total.
  intros oi Hin. unfold Order_items in Hin. apply filter_In in Hin.
  unfold order_items_fk in Hfk. rewrite forallb_forall in Hfk.
  specialize (Hfk oi (proj1 Hin)). apply andb_true_iff in Hfk.
  destruct Hfk as [Hi _].
  apply (find_key_exists Item.id) in Hi. destruct Hi as [it [Hi _]].
  unfold OrderItem_item. rewrite Hi. discriminate.
Qed.

(** ** Role-scoped visibility (C5, C6) *)

Lemma pair_eq {A B : Type} (p : A * B) (a : A) (b : B) :
  fst p = a -> snd p = b -> p = (a, b).
Proof. destruct p. simpl. congruence. Qed.

(** With the schema constraints in force, [get_order] on an order of the
    database is decided by the WHERE clause of [list_orders]. *)
Lemma get_order_decided (db : DB) (u : User.t) (o : Order.t) :
  orders_pk db = true -> orders_fk db = true -> order_items_fk db = true ->
  role_in (User.role u) [CONSUMER; COURIER] = true ->
  In o (orders db) ->
  if list_orders_where u o
  then exists v, get_order (Order.id o) u db = (db, Ok v)
                 /\ OrderRead.order v = o
                 /\ order_total db o = Ok (OrderRead.total v)
  else get_order (Order.id o) u db
       = (db, Raise (HTTPException 403
                       match User.role u with
                       | CONSUMER => Not_your_order
                       | _ => Order_not_available_for_viewing
                       end)).
Proof.
  intros Hpk Hfk Hifk Hrole Hin.
  pose proof (get_order_found (Order.id o) u db o Hrole
                (lookup_by_id_found db o Hpk Hin)) as H.
  rewrite get_order_guard_where in H.
  destruct (list_orders_where u o); [|exact H].
  destruct H as [Hfst [Hv [_ Hex]]].
  destruct (orders_fk_joins db o Hfk Hin) as [Hm Hc].
  destruct (Hex Hm Hc (order_items_fk_total db o Hifk)) as [v Hsnd].
  exists v. split; [exact (pair_eq _ _ _ Hfst Hsnd)|]. exact (Hv v Hsnd).
Qed.

Lemma list_orders_decided (db : DB) (u : User.t) :
  orders_fk db = true -> order_items_fk db = true ->
  role_in (User.role u) [CONSUMER; COURIER] = true ->
  exists vs, list_orders u db = (db, Ok vs)
             /\ map OrderRead.order vs
                = filter (list_orders_where u) (orders db)
             /\ Forall (fun v => order_total db (OrderRead.order v)
                                 = Ok (OrderRead.total v)) vs.
Proof.
  intros Hfk Hifk Hrole.
  destruct (list_orders_result u db Hrole) as [Hfst [Hv Hex]].
  destruct Hex as [vs Hsnd].
  { intros o Ho. split; [exact (proj1 (orders_fk_joins db o Hfk Ho))|].
    exact (order_items_fk_total db o Hifk). }
  exists vs. split; [exact (pair_eq _ _ _ Hfst Hsnd)|]. exact (Hv vs Hsnd).
Qed.

(** Fetching an order and finding it in the list, as one fact each. *)
Lemma visible_or_hidden (db : DB) (u : User.t) (o : Order.t) :
  orders_pk db = true -> orders_fk db = true -> order_items_fk db = true ->
  role_in (User.role u) [CONSUMER; COURIER] = true ->
  In o (orders db) ->
  (list_orders_where u o = true
   /\ (exists v, get_order (Order.id o) u db = (db, Ok v)
                 /\ OrderRead.order v = o)
   /\ (exists vs, list_orders u db = (db, Ok vs)
                  /\ In o (map OrderRead.order vs)))
  \/ (list_orders_where u o = false
      /\ get_order (Order.id o) u db
         = (db, Raise (HTTPException 403
                         match User.role u with
                         | CONSUMER => Not_your_order
                         | _ => Order_not_available_for_viewing
                         end))
      /\ (exists vs, list_orders u db = (db, Ok vs)
                     /\ ~ In o (map OrderRead.order vs))).
Proof.
  intros Hpk Hfk Hifk Hrole Hin.
  pose proof (get_order_decided db u o Hpk Hfk Hifk Hrole Hin) as Hg.
  destruct (list_orders_decided db u Hfk Hifk Hrole) as [vs [Hl [Hmap _]]].
  destruct (list_orders_where u o) eqn:Ew.
  - left. split; [reflexivity|]. split.
    + destruct Hg as [v [Hv [Ho _]]]. exists v. auto.
    + exists vs. split; [exact Hl|]. rewrite Hmap. apply filter_In. auto.
  - right. split; [reflexivity|]. split; [exact Hg|].
    exists vs. split; [exact Hl|]. rewrite Hmap. intro H.
    apply filter_In in H. destruct H as [_ H]. congruence.
Qed.

(** C5.  With the schema's key and foreign-key constraints in force, for a
    caller with role CONSUMER or COURIER and an order [o] of the database:
    [get_order] returns [o] exactly when [list_orders] returns a list that
    contains [o], and [get_order] answers 403 exactly when [list_orders]
    returns a list without [o]. *)
Theorem C5_fetch_and_list_agree :
  forall db u o,
    orders_pk db = true -> orders_fk db = true -> order_items_fk db = true ->
    User.role u = CONSUMER \/ User.role u = COURIER ->
    In o (orders db) ->
    ((exists v, get_order (Order.id o) u db = (db, Ok v)
                /\ OrderRead.order v = o)
     <-> (exists vs, list_orders u db = (db, Ok vs)
                     /\ In o (map OrderRead.order vs)))
    /\ ((exists d, get_order (Order.id o) u db
                   = (db, Raise (HTTPException 403 d)))
        <-> (exists vs, list_orders u db = (db, Ok vs)
                        /\ ~ In o (map OrderRead.order vs))).
Proof.
  intros db u o Hpk Hfk Hifk Hr Hin.
  assert (role_in (User.role u) [CONSUMER; COURIER] = true) as Hrole
    by (destruct Hr as [-> | ->]; reflexivity).
  destruct (visible_or_hidden db u o Hpk Hfk Hifk Hrole Hin)
    as [[Hw [Hg Hl]] | [Hw [Hg Hl]]].
  - split; split; intros H; try assumption.
    + destruct H as [d Hd]. destruct Hg as [v [Hv _]]. congruence.
    + destruct H as [vs [Hvs Hn]]. destruct Hl as [vs' [Hvs' Hi]].
      assert (vs = vs') by congruence. subst. contradiction.
  - split; split; intros H; try assumption.
    + destruct H as [v [Hv _]]. congruence.
    + destruct H as [vs [Hvs Hi]]. destruct Hl as [vs' [Hvs' Hn]].
      assert (vs = vs') by congruence. subst. contradiction.
    + eexists. exact Hg.
Qed.

(** C6.  With the schema's constraints in force, for a courier and an order
    [o] of the database: a READY_FOR_PICKUP order is fetched and listed; an
    IN_TRANSIT or DELIVERED order is fetched and listed when its
    [courier_id] is the caller, and otherwise hidden; a PENDING, ACCEPTED or
    CANCELLED order is hidden.  Hidden means: [get_order] answers 403 "Order
    not available for viewing" and [list_orders] returns a list without
    [o]. *)
Theorem C6_courier_visibility :
  forall db u o,
    orders_pk db = true -> orders_fk db = true -> order_items_fk db = true ->
    User.role u = COURIER ->
    In o (orders db) ->
    let shown :=
      (exists v, get_order (Order.id o) u db = (db, Ok v)
                 /\ OrderRead.order v = o)
      /\ (exists vs, list_orders u db = (db, Ok vs)
                     /\ In o (map OrderRead.order vs)) in
    let hidden :=
      get_order (Order.id o) u db
      = (db, Raise (HTTPException 403 Order_not_available_for_viewing))
      /\ (exists vs, list_orders u db = (db, Ok vs)
                     /\ ~ In o (map OrderRead.order vs)) in
    (Order.status o = READY_FOR_PICKUP -> shown)
    /\ (Order.status o = IN_TRANSIT \/ Order.status o = DELIVERED ->
        (Order.courier_id o = Some (User.id u) -> shown)
        /\ (Order.courier_id o <> Some (User.id u) -> hidden))
    /\ (Order.status o = PENDING \/ Order.status o = ACCEPTED
        \/ Order.status o = CANCELLED -> hidden).
Proof.
  intros db u o Hpk Hfk Hifk Hr Hin shown hidden.
  assert (role_in (User.role u) [CONSUMER; COURIER] = true) as Hrole
    by (rewrite Hr; reflexivity).
  pose proof (visible_or_hidden db u o Hpk Hfk Hifk Hrole Hin) as H.
  rewrite Hr in H.
  assert (list_orders_where u o = true -> shown) as Hshown.
  { intros Hw. destruct H as [[_ H] | [Hw' _]]; [exact H | congruence]. }
  assert (list_orders_where u o = false -> hidden) as Hhidden.
  { intros Hw. destruct H as [[Hw' _] | [_ H]]; [congruence | exact H]. }
  clear H. unfold list_orders_where in Hshown, Hhidden.
  rewrite Hr in Hshown, Hhidden.
  split; [|split].
  - intros Hs. apply Hshown. rewrite Hs. reflexivity.
  - intros Hs. split.
    + intros Hc. apply Hshown. rewrite Hc. simpl. rewrite Z.eqb_refl.
      destruct Hs as [-> | ->]; reflexivity.
    + intros Hc. apply Hhidden.
      assert (sql_eq (Order.courier_id o) (User.id u) = false) as E.
      { destruct (Order.courier_id o) as [c|]; simpl; [|reflexivity].
        apply Z.eqb_neq. intro Heq. apply Hc. rewrite Heq. reflexivity. }
      rewrite E. destruct Hs as [-> | ->]; reflexivity.
  - intros Hs. apply Hhidden.
    destruct Hs as [-> | [-> | ->]]; reflexivity.
Qed.

(** Courier Lee looks at the orders while Kim carries order 1 and order 2
    waits for pickup: order 2 is shown to Lee, order 1 is hidden. *)
Lemma C5_witness :
  (exists v, get_order 2 Sample.lee Sample.db_kim = (Sample.db_kim, Ok v)
             /\ OrderRead.order v
                = Order.mk 2 "1 Elm St" None 1 2 None READY_FOR_PICKUP 101 None)
  <-> (exists vs, list_orders Sample.lee Sample.db_kim = (Sample.db_kim, Ok vs)
                  /\ In (Order.mk 2 "1 Elm St" None 1 2 None
                           READY_FOR_PICKUP 101 None)
                        (map OrderRead.order vs)).
Proof.
  refine (proj1 (C5_fetch_and_list_agree Sample.db_kim Sample.lee
            (Order.mk 2 "1 Elm St" None 1 2 None READY_FOR_PICKUP 101 None)
            _ _ _ _ _)).
  - vm_compute. reflexivity.
  - vm_compute. reflexivity.
  - vm_compute. reflexivity.
  - right. reflexivity.
  - vm_compute. right. left. reflexivity.
Defined.

Lemma C6_witness :
  get_order 1 Sample.lee Sample.db_kim
  = (Sample.db_kim,
     Raise (HTTPException 403 Order_not_available_for_viewing))
  /\ (exists vs, list_orders Sample.lee Sample.db_kim = (Sample.db_kim, Ok vs)
                 /\ ~ In (Order.mk 1 "1 Elm St" None 1 1 (Some 4)
                            IN_TRANSIT 100 None)
                         (map OrderRead.order vs)).
Proof.
  refine (proj2 (proj1 (proj2 (C6_courier_visibility Sample.db_kim Sample.lee
            (Order.mk 1 "1 Elm St" None 1 1 (Some 4) IN_TRANSIT 100 None)
            _ _ _ _ _)) _) _).
  - vm_compute. reflexivity.
  - vm_compute. reflexivity.
  - vm_compute. reflexivity.
  - reflexivity.
  - vm_compute. left. reflexivity.
  - left. reflexivity.
  - vm_compute. discriminate.
Defined.

(** ** The total (C9) *)

Lemma sum_line_items_spec (db : DB) (l : list OrderItem.t) (acc : float) :
  sum_line_items db acc l
  = match all_some (map (line_amount db) l) with
    | Some amounts => Ok (fold_left PrimFloat.add amounts acc)
    | None => Raise AttributeError
    end.
Proof.
  revert acc. induction l as [|oi l IH]; intros acc; simpl; [reflexivity|].
  unfold line_amount at 1, unit_price, OrderItem_item.
  destruct (find _ (items db)) as [it|]; simpl; [|reflexivity].
  rewrite IH. destruct (all_some (map (line_amount db) l)); reflexivity.
Qed.

(** The code's total is the specification's total. *)
Lemma order_total_spec (db : DB) (o : Order.t) (x : float) :
  order_total db o = Ok x <-> total_spec db o = Some x.
Proof.
  unfold order_total, total_spec, Order_items, line_items.
  rewrite sum_line_items_spec.
  destruct (all_some _); simpl; split; intros H; inversion H; reflexivity.
Qed.

Lemma bind_inv {A B : Type} (c : M A) (k : A -> M B) (db db' : DB) (b : B) :
  bind c k db = (db', Ok b) ->
  exists db1 a, c db = (db1, Ok a) /\ k a db1 = (db', Ok b).
Proof.
  unfold bind. destruct (c db) as [db1 [a|e]]; intros H; [|discriminate H].
  exists db1, a. auto.
Qed.

Lemma check_role_inv (allowed : list UserRole) (u u' : User.t) (db db' : DB) :
  check_role allowed u db = (db', Ok u') -> db' = db /\ u' = u.
Proof.
  unfold check_role. run. destruct (negb _); simpl; intros H; inversion H; auto.
Qed.

Lemma check_merchant_owner_inv (m : Z) (u : User.t) (db db' : DB)
  (x : Merchant.t) :
  check_merchant_owner m u db = (db', Ok x) -> db' = db.
Proof.
  intros H. pose proof (check_merchant_owner_fst m u db) as Hf.
  rewrite H in Hf. exact Hf.
Qed.

Lemma get_order_ok (oid : Z) (u : User.t) (db db' : DB) (v : OrderRead.t) :
  get_order oid u db = (db', Ok v) ->
  db' = db /\ order_total db (OrderRead.order v) = Ok (OrderRead.total v).
Proof.
  intros H. destruct (role_in (User.role u) [CONSUMER; COURIER]) eqn:Hrole.
  2:{ unfold get_order in H.
      rewrite (bind_raise _ _ _ _ _ (check_role_fails _ u db Hrole)) in H.
      discriminate H. }
  destruct (filter (fun x => Order.id x =? oid) (orders db)) as [|o [|o2 l]]
    eqn:Ef.
  - rewrite (get_order_not_found oid u db Hrole Ef) in H. discriminate H.
  - pose proof (get_order_found oid u db o Hrole Ef) as Hg. rewrite H in Hg.
    simpl in Hg.
    destruct (snd (get_order_guard u o db)); [|discriminate Hg].
    destruct Hg as [Hdb [Hv _]]. destruct (Hv v eq_refl) as [Ho Ht].
    rewrite Ho. auto.
  - exfalso. unfold get_order in H.
    rewrite (bind_ok _ _ _ _ _ (check_role_passes _ u db Hrole)) in H.
    rewrite (bind_ok _ _ db db (o :: o2 :: l)) in H
      by (unfold execute; rewrite Ef; reflexivity).
    rewrite (bind_raise _ _ db db MultipleResultsFound) in H by reflexivity.
    discriminate H.
Qed.

Lemma list_orders_ok (u : User.t) (db db' : DB) (vs : list OrderRead.t) :
  list_orders u db = (db', Ok vs) ->
  db' = db
  /\ Forall (fun v => order_total db (OrderRead.order v)
                      = Ok (OrderRead.total v)) vs.
Proof.
  intros H. destruct (role_in (User.role u) [CONSUMER; COURIER]) eqn:Hrole.
  2:{ unfold list_orders in H.
      rewrite (bind_raise _ _ _ _ _ (check_role_fails _ u db Hrole)) in H.
      discriminate H. }
  destruct (list_orders_result u db Hrole) as [Hfst [Hv _]].
  rewrite H in Hfst, Hv. simpl in Hfst, Hv. split; [exact Hfst|].
  exact (proj2 (Hv vs eq_refl)).
Qed.

Lemma list_merchant_orders_row_reads (o : Order.t) (db : DB) :
  fst (list_merchant_orders_row o db) = db
  /\ (forall v, snd (list_merchant_orders_row o db) = Ok v ->
        OrderRead.order v = o /\ order_total db o = Ok (OrderRead.total v)).
Proof.
  unfold list_merchant_orders_row.
  destruct (Order_merchant db o) as [mch|] eqn:Em.
  2:{ rewrite (bind_raise _ _ db db AttributeError)
        by (unfold lift; rewrite Em; reflexivity).
      simpl. split; [reflexivity | discriminate]. }
  rewrite (bind_ok _ _ db db (Merchant.name mch))
    by (unfold lift; rewrite Em; reflexivity).
  rewrite (bind_ok _ _ db db (Merchant.location mch))
    by (unfold lift; rewrite Em; reflexivity).
  destruct (Order_consumer db o) as [cons|] eqn:Ec.
  2:{ rewrite (bind_raise _ _ db db AttributeError)
        by (unfold lift; rewrite Ec; reflexivity).
      simpl. split; [reflexivity | discriminate]. }
  rewrite (bind_ok _ _ db db (User.name cons))
    by (unfold lift; rewrite Ec; reflexivity).
  rewrite (bind_ok _ _ db db (courier_name_of db o)) by reflexivity.
  rewrite (bind_ok _ _ db db (Order_items db o)) by reflexivity.
  destruct (order_total db o) as [tot|e3] eqn:E3.
  2:{ rewrite (bind_raise _ _ db db e3) by (unfold lift; rewrite E3; reflexivity).
      simpl. split; [reflexivity | discriminate]. }
  rewrite (bind_ok _ _ db db tot) by (unfold lift; rewrite E3; reflexivity).
  unfold ret. simpl. split; [reflexivity|].
  intros v H. inversion H. auto.
Qed.

Lemma list_merchant_orders_ok (m : Z) (st : option OrderStatus) (u : User.t)
  (db db' : DB) (vs : list OrderRead.t) :
  list_merchant_orders m st u db = (db', Ok vs) ->
  db' = db
  /\ Forall (fun v => order_total db (OrderRead.order v)
                      = Ok (OrderRead.total v)) vs.
Proof.
  intros H. unfold list_merchant_orders in H.
  apply bind_inv in H. destruct H as [db1 [u1 [H1 H]]].
  apply check_role_inv in H1. destruct H1 as [-> ->].
  apply bind_inv in H. destruct H as [db2 [x [H2 H]]].
  apply check_merchant_owner_inv in H2. subst db2.
  apply bind_inv in H. destruct H as [db3 [os [H3 H]]].
  unfold execute in H3. inversion H3. subst db3. clear H3.
  destruct (for_each_reads list_merchant_orders_row os db
              (fun y => proj1 (list_merchant_orders_row_reads y db)))
    as [Hfst [Hv _]].
  rewrite H in Hfst, Hv. simpl in Hfst, Hv. split; [exact Hfst|].
  apply (Forall2_Forall_r _ _ _ _ (Hv vs eq_refl)). intros o v Hov.
  destruct (proj2 (list_merchant_orders_row_reads o db) v Hov) as [-> Ht].
  exact Ht.
Qed.

Lemma get_merchant_order_ok (m oid : Z) (u : User.t) (db db' : DB)
  (v : OrderRead.t) :
  get_merchant_order m oid u db = (db', Ok v) ->
  db' = db /\ order_total db (OrderRead.order v) = Ok (OrderRead.total v).
Proof.
  intros H. unfold get_merchant_order in H.
  apply bind_inv in H. destruct H as [db1 [u1 [K1 H]]].
  apply check_role_inv in K1. destruct K1 as [-> ->].
  apply bind_inv in H. destruct H as [db2 [x [K2 H]]].
  apply check_merchant_owner_inv in K2. subst db2.
  apply bind_inv in H. destruct H as [db3 [rows [K3 H]]].
  unfold execute in K3. inversion K3. subst db3. clear K3.
  apply bind_inv in H. destruct H as [db4 [oo [K4 H]]].
  unfold lift in K4. inversion K4. subst db4. clear K4.
  destruct oo as [o|]; [|discriminate H].
  apply bind_inv in H. destruct H as [db5 [n [K5 H]]].
  unfold lift in K5. inversion K5. subst db5.
  apply bind_inv in H. destruct H as [db6 [loc [K6 H]]].
  unfold lift in K6. inversion K6. subst db6.
  apply bind_inv in H. destruct H as [db7 [cn [K7 H]]].
  unfold execute in K7. inversion K7. subst db7.
  apply bind_inv in H. destruct H as [db8 [its [K8 H]]].
  unfold execute in K8. inversion K8. subst db8.
  apply bind_inv in H. destruct H as [db9 [tot [K9 H]]].
  unfold lift in K9. inversion K9. subst db9.
  unfold ret in H. inversion H. subst. simpl. auto.
Qed.

Lemma create_order_ok (m : Z) (body : OrderCreateSchema.t) (now : Z)
  (u : User.t) (db db' : DB) (v : OrderRead.t) :
  create_order m body now u db = (db', Ok v) ->
  order_total db' (OrderRead.order v) = Ok (OrderRead.total v).
Proof.
  intros Hu.
  pose proof (create_order_role _ _ _ _ _ _ _ Hu) as Hr.
  pose proof (create_order_cases m body now u db Hr) as Hc. cbv zeta in Hc.
  rewrite Hu in Hc. simpl fst in Hc. simpl snd in Hc.
  destruct (OrderCreateSchema.items body); [discriminate Hc|].
  destruct (existsb _ _); [discriminate Hc|].
  destruct (Nat.eqb _ _); [|discriminate Hc].
  destruct (negb (forallb _ _)); [discriminate Hc|].
  destruct Hc as [Hdb [Hv _]]. destruct (Hv v eq_refl) as [Hv' [_ [_ Ht]]].
  rewrite Hdb. rewrite Hv' at 1. simpl. exact Ht.
Qed.

Lemma update_order_status_total (m oid : Z) (t : OrderStatus) (now : Z)
  (u : User.t) (db db' : DB) (v : OrderRead.t) :
  update_order_status m oid t now u db = (db', Ok v) ->
  order_total db' (OrderRead.order v) = Ok (OrderRead.total v).
Proof.
  intros H.
  destruct (filter (fun x => (Order.id x =? oid) && (Order.merchant_id x =? m))
              (orders db)) as [|o [|o2 l]] eqn:Ef.
  - rewrite (update_order_status_not_found _ _ _ _ _ _ Ef) in H. discriminate H.
  - pose proof (update_order_status_found m oid t now u db o Ef) as Hf.
    rewrite H in Hf. simpl in Hf.
    destruct (snd (role_guard m o t u db)); [|discriminate Hf].
    destruct (can_transition_to _ _ _); [|discriminate Hf].
    destruct Hf as [Hdb [Hv [_ Ht]]].
    rewrite (Hv v eq_refl), Hdb. exact (Ht v eq_refl).
  - rewrite (update_order_status_ambiguous _ _ _ _ _ _ _ _ _ Ef) in H.
    discriminate H.
Qed.

(** ** The delivery stamp (C7) *)

Lemma create_order_fst (m : Z) (body : OrderCreateSchema.t) (now : Z)
  (u : User.t) (db : DB) :
  fst (create_order m body now u db) = db
  \/ fst (create_order m body now u db)
     = insert_order (created_order db m body now u)
         (new_order_items (Order.id (created_order db m body now u))
            (next_id (map OrderItem.id (order_items db)))
            (OrderCreateSchema.items body)) db.
Proof.
  destruct (User.role u) eqn:Hr.
  - pose proof (create_order_cases m body now u db Hr) as Hc. cbv zeta in Hc.
    destruct (OrderCreateSchema.items body); [rewrite Hc; left; reflexivity|].
    destruct (existsb _ _); [rewrite Hc; left; reflexivity|].
    destruct (Nat.eqb _ _); [|rewrite Hc; left; reflexivity].
    destruct (negb (forallb _ _)); [rewrite Hc; left; reflexivity|].
    right. exact (proj1 Hc).
  - left. unfold create_order.
    rewrite (bind_raise _ _ db db
               (HTTPException 403 Operation_not_permitted_for_this_role))
      by (apply check_role_fails; rewrite Hr; reflexivity).
    reflexivity.
  - left. unfold create_order.
    rewrite (bind_raise _ _ db db
               (HTTPException 403 Operation_not_permitted_for_this_role))
      by (apply check_role_fails; rewrite Hr; reflexivity).
    reflexivity.
Qed.

Lemma update_order_status_fst (m oid : Z) (t : OrderStatus) (now : Z)
  (u : User.t) (db : DB) :
  fst (update_order_status m oid t now u db) = db
  \/ exists o,
       In o (orders db)
       /\ can_transition_to (Order.status o) t (User.role u) = true
       /\ fst (update_order_status m oid t now u db)
          = update_order (apply_status t now u o) db.
Proof.
  destruct (filter (fun x => (Order.id x =? oid) && (Order.merchant_id x =? m))
              (orders db)) as [|o [|o2 l]] eqn:Ef.
  - left. rewrite (update_order_status_not_found _ _ _ _ _ _ Ef). reflexivity.
  - pose proof (update_order_status_found m oid t now u db o Ef) as H.
    destruct (snd (role_guard m o t u db)); [|left; rewrite H; reflexivity].
    destruct (can_transition_to (Order.status o) t (User.role u)) eqn:Ec;
      [|left; rewrite H; reflexivity].
    right. exists o. split; [exact (proj1 (filter_found_id _ _ _ _ Ef))|].
    split; [exact Ec | exact (proj1 H)].
  - left. rewrite (update_order_status_ambiguous _ _ _ _ _ _ _ _ _ Ef).
    reflexivity.
Qed.

(** DELIVERED has no outgoing transition, for any role. *)
Lemma no_transition_from_delivered (t : OrderStatus) (r : UserRole) :
  can_transition_to DELIVERED t r = false.
Proof. destruct t, r; reflexivity. Qed.

(** Only a courier reaches DELIVERED, and only from IN_TRANSIT. *)
Lemma transition_to_delivered (s : OrderStatus) (r : UserRole) :
  can_transition_to s DELIVERED r = true -> s = IN_TRANSIT /\ r = COURIER.
Proof. destruct s, r; simpl; intros H; try discriminate H; auto. Qed.

Lemma apply_status_delivered (now : Z) (u : User.t) (o : Order.t) :
  User.role u = COURIER ->
  Order.delivered_at (apply_status DELIVERED now u o) = Some now.
Proof. intros Hr. unfold apply_status. rewrite Hr. reflexivity. Qed.

Lemma apply_status_not_delivered (t : OrderStatus) (now : Z) (u : User.t)
  (o : Order.t) :
  t <> DELIVERED ->
  Order.delivered_at (apply_status t now u o) = Order.delivered_at o.
Proof.
  intros Ht. unfold apply_status. destruct (User.role u); simpl; try reflexivity.
  destruct (OrderStatus_eqb t IN_TRANSIT && _); simpl; [reflexivity|].
  destruct (OrderStatus_eqb_spec t DELIVERED); [contradiction | reflexivity].
Qed.

(** A permitted transition keeps or sets a correct delivery stamp. *)
Lemma apply_status_stamp (t : OrderStatus) (now : Z) (u : User.t) (o : Order.t) :
  can_transition_to (Order.status o) t (User.role u) = true ->
  delivery_stamp_ok o -> Order.created_at o <= now ->
  delivery_stamp_ok (apply_status t now u o).
Proof.
  intros Hc [Hnull _] Hnow. unfold delivery_stamp_ok.
  rewrite apply_status_status, apply_status_created_at.
  destruct (OrderStatus_eqb_spec t DELIVERED) as [-> | Ht].
  - apply transition_to_delivered in Hc. destruct Hc as [_ Hr].
    rewrite (apply_status_delivered now u o Hr).
    split; [intros H; contradiction|]. intros _. exists now. auto.
  - rewrite (apply_status_not_delivered t now u o Ht).
    split; [|intros H; contradiction]. intros _. apply Hnull.
    intros Hs. rewrite Hs, no_transition_from_delivered in Hc. discriminate Hc.
Qed.

Lemma update_order_ids (o' : Order.t) (db : DB) :
  map Order.id (orders (update_order o' db)) = map Order.id (orders db).
Proof.
  unfold update_order. simpl. rewrite map_map. apply map_ext.
  intros x. destruct (Order.id x =? Order.id o') eqn:E; [|reflexivity].
  apply Z.eqb_eq in E. symmetry. exact E.
Qed.

Lemma insert_order_pk (o : Order.t) (rows : list OrderItem.t) (db : DB) :
  Order.id o = next_id (map Order.id (orders db)) ->
  orders_pk db = true -> orders_pk (insert_order o rows db) = true.
Proof.
  unfold orders_pk, insert_order. simpl. intros Hid Hpk.
  apply nodupb_NoDup in Hpk. apply nodupb_NoDup.
  rewrite map_app. simpl. apply NoDup_app.
  - exact Hpk.
  - constructor; [intros [] | constructor].
  - intros x Hx [Hx' | []]. subst x. rewrite Hid in Hx.
    exact (next_id_not_in _ Hx).
Qed.

(** The orders table stays consistent under every request. *)
Lemma step_orders_ok (clk now : Z) (db db' : DB) :
  orders_ok clk db -> clk <= now -> step now db db' -> orders_ok now db'.
Proof.
  intros [Hpk Hall] Hnow Hstep.
  assert (Forall (fun o => Order.created_at o <= now /\ delivery_stamp_ok o)
            (orders db)) as Hall'.
  { eapply Forall_impl; [|exact Hall]. intros o [Hc Hs]. split; [lia | exact Hs]. }
  destruct Hstep as [m body u | m oid t u | db' Hsame].
  - destruct (create_order_fst m body now u db) as [-> | ->];
      [split; assumption|].
    split; [apply insert_order_pk; [reflexivity | exact Hpk]|].
    unfold insert_order. simpl. apply Forall_app. split; [exact Hall'|].
    constructor; [|constructor]. simpl. split; [lia|].
    split; simpl; [reflexivity | discriminate].
  - destruct (update_order_status_fst m oid t now u db)
      as [-> | [o [Hin [Hc ->]]]]; [split; assumption|].
    split.
    + unfold orders_pk. rewrite update_order_ids. exact Hpk.
    + rewrite Forall_forall in Hall'. destruct (Hall' o Hin) as [Ho Hs].
      unfold update_order. simpl. apply Forall_forall. intros x Hx.
      apply in_map_iff in Hx. destruct Hx as [y [Hy Hyin]].
      destruct (Order.id y =? Order.id (apply_status t now u o)).
      * subst x. rewrite apply_status_created_at. split; [exact Ho|].
        exact (apply_status_stamp t now u o Hc Hs Ho).
      * subst x. exact (Hall' y Hyin).
  - split; [unfold orders_pk; rewrite Hsame; exact Hpk|].
    rewrite Hsame. exact Hall'.
Qed.

Lemma run_orders_ok (clk clk' : Z) (db db' : DB) :
  orders_ok clk db -> run clk db clk' db' -> orders_ok clk' db'.
Proof.
  intros Hok Hrun. induction Hrun as [|clk1 db1 now db2 _ IH Hnow Hstep].
  - exact Hok.
  - exact (step_orders_ok clk1 now db1 db2 IH Hnow Hstep).
Qed.

(** A delivered order refuses every status update. *)
Lemma delivered_refuses (db : DB) (o : Order.t) (t : OrderStatus) (now : Z)
  (u : User.t) :
  orders_pk db = true -> In o (orders db) -> Order.status o = DELIVERED ->
  exists e,
    update_order_status (Order.merchant_id o) (Order.id o) t now u db
    = (db, Raise e).
Proof.
  intros Hpk Hin Hs.
  pose proof (update_order_status_found (Order.merchant_id o) (Order.id o)
                t now u db o (lookup_found db o Hpk Hin)) as H.
  rewrite Hs, no_transition_from_delivered in H.
  destruct (snd (role_guard (Order.merchant_id o) o t u db));
    eexists; exact H.
Qed.

(** The row of a delivered order survives every request. *)
Lemma step_keeps_delivered (now : Z) (db db' : DB) (o : Order.t) :
  orders_pk db = true -> In o (orders db) -> Order.status o = DELIVERED ->
  step now db db' -> In o (orders db').
Proof.
  intros Hpk Hin Hs Hstep.
  destruct Hstep as [m body u | m oid t u | db' Hsame].
  - destruct (create_order_fst m body now u db) as [-> | ->]; [exact Hin|].
    unfold insert_order. simpl. apply in_or_app. left. exact Hin.
  - destruct (update_order_status_fst m oid t now u db)
      as [-> | [x [Hx [Hc ->]]]]; [exact Hin|].
    apply update_order_keeps; [exact Hin|].
    rewrite apply_status_id. intros Heq. apply nodupb_NoDup in Hpk.
    assert (o = x) by (exact (key_unique Order.id _ o x Hpk Hin Hx Heq)).
    subst x. rewrite Hs, no_transition_from_delivered in Hc. discriminate Hc.
  - rewrite Hsame. exact Hin.
Qed.

Lemma run_keeps_delivered (clk clk' : Z) (db db' : DB) (o : Order.t) :
  orders_ok clk db -> In o (orders db) -> Order.status o = DELIVERED ->
  run clk db clk' db' -> In o (orders db').
Proof.
  intros Hok Hin Hs Hrun.
  induction Hrun as [|clk1 db1 now db2 Hrun IH Hnow Hstep]; [exact Hin|].
  pose proof (run_orders_ok _ _ _ _ Hok Hrun) as [Hpk _].
  exact (step_keeps_delivered now db1 db2 o Hpk IH Hs Hstep).
Qed.

(** A served status update, read backwards. *)
Lemma update_order_status_ok (m oid : Z) (t : OrderStatus) (now : Z)
  (u : User.t) (db db' : DB) (v : OrderRead.t) :
  update_order_status m oid t now u db = (db', Ok v) ->
  exists o,
    In o (orders db) /\ Order.id o = oid /\ Order.merchant_id o = m
    /\ can_transition_to (Order.status o) t (User.role u) = true
    /\ db' = update_order (apply_status t now u o) db
    /\ OrderRead.order v = apply_status t now u o.
Proof.
  intros H.
  destruct (filter (fun x => (Order.id x =? oid) && (Order.merchant_id x =? m))
              (orders db)) as [|o [|o2 l]] eqn:Ef.
  - rewrite (update_order_status_not_found _ _ _ _ _ _ Ef) in H. discriminate H.
  - pose proof (update_order_status_found m oid t now u db o Ef) as Hf.
    rewrite H in Hf. simpl in Hf.
    destruct (snd (role_guard m o t u db)); [|discriminate Hf].
    destruct (can_transition_to _ _ _) eqn:Ec; [|discriminate Hf].
    destruct Hf as [Hdb [Hv _]].
    destruct (filter_found_id _ _ _ _ Ef) as [Hin [Hid Hm]].
    exists o. repeat split; auto.
  - rewrite (update_order_status_ambiguous _ _ _ _ _ _ _ _ _ Ef) in H.
    discriminate H.
Qed.

Lemma update_order_in (o o' : Order.t) (db : DB) :
  In o (orders db) -> Order.id o = Order.id o' ->
  In o' (orders (update_order o' db)).
Proof.
  intros Hin Hid. unfold update_order. simpl. apply in_map_iff.
  exists o. split; [|exact Hin]. rewrite Hid, Z.eqb_refl. reflexivity.
Qed.

Lemma update_order_members (o o' : Order.t) (db : DB) (x : Order.t) :
  In o (orders db) -> Order.id o' = Order.id o ->
  In x (orders (update_order o' db)) <->
  x = o' \/ (In x (orders db) /\ Order.id x <> Order.id o).
Proof.
  intros Hin Hid. unfold update_order. simpl. rewrite in_map_iff. split.
  - intros [y [Hy Hyin]]. destruct (Order.id y =? Order.id o') eqn:E.
    + left. symmetry. exact Hy.
    + right. subst x. split; [exact Hyin|]. apply Z.eqb_neq in E. congruence.
  - intros [-> | [Hx Hne]].
    + exists o. split; [|exact Hin]. rewrite Hid, Z.eqb_refl. reflexivity.
    + exists x. split; [|exact Hx].
      destruct (Order.id x =? Order.id o') eqn:E; [|reflexivity].
      apply Z.eqb_eq in E. congruence.
Qed.

Lemma sum_line_items_ext (db db' : DB) (l : list OrderItem.t) :
  (forall oi, In oi l -> OrderItem_item db' oi = OrderItem_item db oi) ->
  forall acc, sum_line_items db' acc l = sum_line_items db acc l.
Proof.
  induction l as [|oi l IH]; intros H acc; simpl; [reflexivity|].
  rewrite (H oi (or_introl eq_refl)).
  destruct (getattr (OrderItem_item db oi) Item.price); [|reflexivity].
  apply IH. intros x Hx. apply H. right. exact Hx.
Qed.

(** A status update whose checks pass is served.  With unique order keys
    and the foreign keys in force, a request that addresses an order of the
    table by its id and merchant, passes the role branch and asks for a
    transition of the table returns the updated order. *)
Lemma update_order_status_returns (t : OrderStatus) (now : Z) (u : User.t)
  (db : DB) (o : Order.t) :
  orders_pk db = true -> orders_fk db = true -> order_items_fk db = true ->
  In o (orders db) ->
  snd (role_guard (Order.merchant_id o) o t u db) = Ok tt ->
  can_transition_to (Order.status o) t (User.role u) = true ->
  exists v,
    update_order_status (Order.merchant_id o) (Order.id o) t now u db
    = (update_order (apply_status t now u o) db, Ok v)
    /\ OrderRead.order v = apply_status t now u o
    /\ order_total (update_order (apply_status t now u o) db)
         (apply_status t now u o) = Ok (OrderRead.total v).
Proof.
  intros Hpk Hfk Hifk Hin Hg Hc.
  unfold update_order_status.
  rewrite (bind_ok _ _ db db u) by apply check_role_any.
  rewrite (bind_ok _ _ db db [o])
    by (unfold execute; rewrite (lookup_found db o Hpk Hin); reflexivity).
  rewrite (bind_ok _ _ db db (Some o)) by reflexivity.
  cbv beta iota.
  assert (role_guard (Order.merchant_id o) o t u db = (db, Ok tt)) as Hg'.
  { pose proof (role_guard_fst (Order.merchant_id o) o t u db) as Hf.
    destruct (role_guard (Order.merchant_id o) o t u db) as [d r].
    simpl in *. subst. reflexivity. }
  rewrite (bind_ok _ _ db db tt) by exact Hg'.
  rewrite Hc. cbn [negb].
  rewrite (bind_ok _ _ db db tt) by reflexivity.
  cbv zeta.
  set (o' := apply_status t now u o).
  set (db' := update_order o' db).
  assert (Order.id o' = Order.id o) as Hid by apply apply_status_id.
  assert (Order.merchant_id o' = Order.merchant_id o) as Hmid.
  { unfold o', apply_status.
    destruct (User.role u); try reflexivity.
    destruct (OrderStatus_eqb t IN_TRANSIT && _); [reflexivity|].
    destruct (OrderStatus_eqb t DELIVERED); reflexivity. }
  rewrite (bind_ok _ _ db db' tt) by reflexivity.
  rewrite (bind_ok _ _ db' db' o').
  2:{ destruct (UserRole_eqb (User.role u) COURIER && OrderStatus_eqb t IN_TRANSIT);
        [|reflexivity].
      unfold bind, execute, lift, db', update_order. cbn [orders].
      rewrite <- Hid.
      rewrite (filter_replaced Order.id o' (orders db));
        [reflexivity | apply nodupb_NoDup; exact Hpk |].
      rewrite Hid. apply in_map. exact Hin. }
  destruct (orders_fk_joins db o Hfk Hin) as [Hm _].
  assert (Order_merchant db' o' = Order_merchant db o) as Hm'
    by (unfold Order_merchant, db', update_order; cbn [merchants];
        rewrite Hmid; reflexivity).
  destruct (Order_merchant db o) as [mch|] eqn:Em; [|contradiction].
  rewrite (bind_ok _ _ db' db' (Merchant.name mch))
    by (unfold lift; rewrite Hm'; reflexivity).
  rewrite (bind_ok _ _ db' db' (Merchant.location mch))
    by (unfold lift; rewrite Hm'; reflexivity).
  rewrite (bind_ok _ _ db' db' (courier_name_of db' o')) by reflexivity.
  rewrite (bind_ok _ _ db' db' (Order_items db' o')) by reflexivity.
  assert (order_total db' o' = order_total db o) as Ht.
  { unfold order_total, Order_items, db', update_order. cbn [order_items].
    rewrite Hid. apply sum_line_items_ext. reflexivity. }
  destruct (order_items_fk_total db o Hifk) as [x Hx].
  rewrite (bind_ok _ _ db' db' x)
    by (unfold lift; rewrite Ht, Hx; reflexivity).
  eexists. split; [reflexivity|]. split; [reflexivity|].
  cbn [OrderRead.total]. rewrite Ht. exact Hx.
Qed.

(** C7.  Along every history of requests served at non-decreasing times,
    from a consistent orders table (the empty one, for a start):
    [delivered_at] is null while the status is not DELIVERED, and once the
    status is DELIVERED it is set, to a time not before [created_at];
    a created order has a null [delivered_at]; a served transition to
    DELIVERED is a courier's, from IN_TRANSIT, of an order not yet stamped,
    and stamps [delivered_at] with the current time; with the foreign keys
    in force, the request of the order's courier to deliver an order that
    is IN_TRANSIT is served: the order had no stamp, the stored and
    returned order is DELIVERED and stamped with the current time, which
    is not before [created_at]; a delivered order refuses every further
    status update, whatever the role and target, so that its row, stamp
    included, is in every later state of the table. *)
Theorem C7_delivered_at_set_once :
  forall clk0 db0 clk db,
    orders_ok clk0 db0 -> run clk0 db0 clk db ->
    (forall o, In o (orders db) -> delivery_stamp_ok o)
    /\ (forall m body now u db' v,
          create_order m body now u db = (db', Ok v) ->
          Order.delivered_at (OrderRead.order v) = None
          /\ In (OrderRead.order v) (orders db'))
    /\ (forall m oid now u db' v,
          clk <= now ->
          update_order_status m oid DELIVERED now u db = (db', Ok v) ->
          User.role u = COURIER
          /\ Order.delivered_at (OrderRead.order v) = Some now
          /\ Order.created_at (OrderRead.order v) <= now
          /\ In (OrderRead.order v) (orders db')
          /\ exists o, In o (orders db) /\ Order.id o = oid
                       /\ Order.status o = IN_TRANSIT
                       /\ Order.delivered_at o = None)
    /\ (forall o now u,
          clk <= now ->
          orders_fk db = true -> order_items_fk db = true ->
          In o (orders db) -> Order.status o = IN_TRANSIT ->
          User.role u = COURIER -> Order.courier_id o = Some (User.id u) ->
          exists db' v,
            update_order_status (Order.merchant_id o) (Order.id o) DELIVERED
              now u db = (db', Ok v)
            /\ Order.delivered_at o = None
            /\ OrderRead.order v = Order.set_delivered_at (Some now)
                                     (Order.set_status DELIVERED o)
            /\ Order.status (OrderRead.order v) = DELIVERED
            /\ Order.delivered_at (OrderRead.order v) = Some now
            /\ Order.created_at (OrderRead.order v) <= now
            /\ In (OrderRead.order v) (orders db')
            /\ forall x, In x (orders db') ->
                         x = OrderRead.order v
                         \/ (In x (orders db) /\ Order.id x <> Order.id o))
    /\ (forall o, In o (orders db) -> Order.status o = DELIVERED ->
          forall t now u, exists e,
            update_order_status (Order.merchant_id o) (Order.id o) t now u db
            = (db, Raise e))
    /\ (forall o, In o (orders db) -> Order.status o = DELIVERED ->
          forall clk' db', run clk db clk' db' -> In o (orders db')).
Proof.
  intros clk0 db0 clk db Hok0 Hrun.
  pose proof (run_orders_ok _ _ _ _ Hok0 Hrun) as Hok.
  destruct Hok as [Hpk Hall]. rewrite Forall_forall in Hall.
  split; [intros o Ho; exact (proj2 (Hall o Ho))|].
  split.
  { intros m body now u db' v Hu.
    pose proof (create_order_role _ _ _ _ _ _ _ Hu) as Hr.
    pose proof (create_order_cases m body now u db Hr) as Hc. cbv zeta in Hc.
    rewrite Hu in Hc. simpl fst in Hc. simpl snd in Hc.
    destruct (OrderCreateSchema.items body); [discriminate Hc|].
    destruct (existsb _ _); [discriminate Hc|].
    destruct (Nat.eqb _ _); [|discriminate Hc].
    destruct (negb (forallb _ _)); [discriminate Hc|].
    destruct Hc as [Hdb [Hv _]]. destruct (Hv v eq_refl) as [Hv' _].
    rewrite Hv', Hdb. simpl. split; [reflexivity|].
    apply in_or_app. right. left. reflexivity. }
  split.
  { intros m oid now u db' v Hnow Hu.
    destruct (update_order_status_ok _ _ _ _ _ _ _ _ Hu)
      as [o [Hin [Hid [_ [Hc [Hdb Hv]]]]]].
    destruct (transition_to_delivered _ _ Hc) as [Hs Hr].
    destruct (Hall o Hin) as [Hcreated [Hnull _]].
    rewrite Hv, Hdb, apply_status_created_at.
    split; [exact Hr|].
    split; [exact (apply_status_delivered now u o Hr)|].
    split; [lia|].
    split; [apply (update_order_in o); [exact Hin | rewrite apply_status_id;
                                                    reflexivity]|].
    exists o. repeat split; auto. apply Hnull. rewrite Hs. discriminate. }
  split.
  { intros o now u Hnow Hfk Hifk Hin Hs Hr Hcour.
    destruct (Hall o Hin) as [Hcreated [Hnull _]].
    assert (snd (role_guard (Order.merchant_id o) o DELIVERED u db) = Ok tt)
      as Hg.
    { rewrite (role_guard_courier _ _ _ _ _ Hr), Hcour. cbn [py_ne].
      rewrite Z.eqb_refl, andb_false_r. reflexivity. }
    assert (can_transition_to (Order.status o) DELIVERED (User.role u) = true)
      as Hc by (rewrite Hs, Hr; reflexivity).
    destruct (update_order_status_returns DELIVERED now u db o
                Hpk Hfk Hifk Hin Hg Hc) as [v [Hu [Hv _]]].
    assert (apply_status DELIVERED now u o
            = Order.set_delivered_at (Some now) (Order.set_status DELIVERED o))
      as Happ by (unfold apply_status; rewrite Hr; reflexivity).
    exists (update_order (apply_status DELIVERED now u o) db), v.
    split; [exact Hu|].
    split; [apply Hnull; rewrite Hs; discriminate|].
    rewrite Hv, Happ.
    split; [reflexivity|]. split; [reflexivity|]. split; [reflexivity|].
    split; [simpl; lia|].
    split; [apply (update_order_in o); [exact Hin | reflexivity]|].
    intros x Hx.
    apply (update_order_members o _ db x Hin) in Hx; [exact Hx | reflexivity]. }
  split.
  { intros o Hin Hs t now u. exact (delivered_refuses db o t now u Hpk Hin Hs). }
  intros o Hin Hs clk' db' Hrun'.
  refine (run_keeps_delivered clk clk' db db' o _ Hin Hs Hrun').
  split; [exact Hpk|]. apply Forall_forall. exact Hall.
Qed.

(** The history of the sample database up to the pickups: two orders
    placed, accepted and made ready, order 1 picked up by Kim and order 2
    by Lee. *)
Lemma sample_pickups : run 0 Sample.db0 121 Sample.db_kim_lee.
Proof.
  apply (run_step 0 Sample.db0 120 Sample.db_kim);
    [|lia|apply step_update_order_status].
  apply (run_step 0 Sample.db0 113 Sample.db_ready);
    [|lia|apply step_update_order_status].
  unfold Sample.db_ready.
  eapply run_step; [|shelve|apply step_update_order_status].
  eapply run_step; [|shelve|apply step_update_order_status].
  eapply run_step; [|shelve|apply step_update_order_status].
  eapply run_step; [|shelve|apply step_update_order_status].
  unfold Sample.db_pending.
  eapply run_step; [|shelve|apply step_create_order].
  eapply run_step; [|shelve|apply step_create_order].
  apply run_refl.
  Unshelve. all: lia.
Qed.

(** The history of the sample database: after the pickups, order 1 is
    delivered at time 130. *)
Lemma sample_history : run 0 Sample.db0 130 Sample.db_delivered.
Proof.
  apply (run_step 0 Sample.db0 121 Sample.db_kim_lee);
    [exact sample_pickups | lia | apply step_update_order_status].
Qed.

(** Kim delivers order 1 at time 130: the request is served and stamps the
    order; asked to deliver it a second time at 140, the handler refuses
    and the stamp stays. *)
Lemma C7_witness :
  (exists db' v,
      update_order_status 1 1 DELIVERED 130 Sample.kim Sample.db_kim_lee
      = (db', Ok v)
      /\ Order.delivered_at (OrderRead.order v) = Some 130
      /\ In (OrderRead.order v) (orders db'))
  /\ (exists e,
        update_order_status 1 1 DELIVERED 140 Sample.kim Sample.db_delivered
        = (Sample.db_delivered, Raise e)).
Proof.
  assert (orders_ok 0 Sample.db0) as Hok
    by (split; [reflexivity | constructor]).
  split.
  - destruct (C7_delivered_at_set_once 0 Sample.db0 121 Sample.db_kim_lee
                Hok sample_pickups) as [_ [_ [_ [H _]]]].
    destruct (H (Order.mk 1 "1 Elm St" None 1 1 (Some 4) IN_TRANSIT 100 None)
                130 Sample.kim)
      as [db' [v [Hu [_ [_ [_ [Hd [_ [Hin _]]]]]]]]].
    + lia.
    + vm_compute. reflexivity.
    + vm_compute. reflexivity.
    + vm_compute. left. reflexivity.
    + reflexivity.
    + reflexivity.
    + reflexivity.
    + exists db', v. split; [exact Hu|]. split; [exact Hd | exact Hin].
  - destruct (C7_delivered_at_set_once 0 Sample.db0 130 Sample.db_delivered
                Hok sample_history) as [_ [_ [_ [_ [H _]]]]].
    refine (H (Order.mk 1 "1 Elm St" None 1 1 (Some 4) DELIVERED 100 (Some 130))
              _ eq_refl DELIVERED 140 Sample.kim).
    vm_compute. left. reflexivity.
Defined.

(** * Further properties of the handlers *)

(** ** Merchant ownership ([check_merchant_owner]) *)

Lemma check_merchant_owner_found (m : Z) (u : User.t) (db : DB)
  (mch : Merchant.t) :
  User.role u = PARTNER ->
  filter (fun x => Merchant.id x =? m) (merchants db) = [mch] ->
  check_merchant_owner m u db
  = (db, if Merchant.partner_id mch =? User.id u then Ok mch
         else Raise (HTTPException 403 No_permission_to_manage_this_merchant)).
Proof.
  intros Hr Hf. unfold check_merchant_owner. run. rewrite Hr. simpl.
  rewrite Hf. simpl.
  destruct (Merchant.partner_id mch =? User.id u); reflexivity.
Qed.

(** A granted ownership check, read backwards. *)
Lemma check_merchant_owner_ok (m : Z) (u : User.t) (db db' : DB)
  (mch : Merchant.t) :
  check_merchant_owner m u db = (db', Ok mch) ->
  db' = db /\ User.role u = PARTNER /\ In mch (merchants db)
  /\ Merchant.id mch = m /\ Merchant.partner_id mch = User.id u.
Proof.
  unfold check_merchant_owner. run.
  destruct (UserRole_eqb_spec (User.role u) PARTNER) as [Hr | Hr]; simpl;
    [|discriminate].
  destruct (filter (fun x => Merchant.id x =? m) (merchants db))
    as [|x [|y l]] eqn:Ef; simpl; try discriminate.
  destruct (Merchant.partner_id x =? User.id u) eqn:Ep; simpl;
    [|discriminate].
  intros H. inversion H. subst.
  assert (In mch [mch]) as Hin by (left; reflexivity).
  rewrite <- Ef in Hin. apply filter_In in Hin. destruct Hin as [Hin Hid].
  apply Z.eqb_eq in Hid, Ep. auto.
Qed.



(** ** The partner's reads ([get_merchant_order], [list_merchant_orders]) *)

Lemma list_merchant_orders_row_total (o : Order.t) (db : DB) :
  Order_merchant db o <> None -> Order_consumer db o <> None ->
  (exists x, order_total db o = Ok x) ->
  exists v, snd (list_merchant_orders_row o db) = Ok v.
Proof.
  intros Hm Hc [x Hx]. unfold list_merchant_orders_row.
  destruct (Order_merchant db o) as [mch|] eqn:Em; [|contradiction].
  destruct (Order_consumer db o) as [cons|] eqn:Ec; [|contradiction].
  rewrite (bind_ok _ _ db db (Merchant.name mch))
    by (unfold lift; rewrite Em; reflexivity).
  rewrite (bind_ok _ _ db db (Merchant.location mch))
    by (unfold lift; rewrite Em; reflexivity).
  rewrite (bind_ok _ _ db db (User.name cons))
    by (unfold lift; rewrite Ec; reflexivity).
  rewrite (bind_ok _ _ db db (courier_name_of db o)) by reflexivity.
  rewrite (bind_ok _ _ db db (Order_items db o)) by reflexivity.
  rewrite (bind_ok _ _ db db x) by (unfold lift; rewrite Hx; reflexivity).
  eexists. reflexivity.
Qed.

(** Both partner reads start with the same two checks. *)
Lemma partner_reads_refused (m oid : Z) (st : option OrderStatus) (u : User.t)
  (db : DB) :
  (User.role u <> PARTNER ->
   get_merchant_order m oid u db
   = (db, Raise (HTTPException 403 Operation_not_permitted_for_this_role))
   /\ list_merchant_orders m st u db
      = (db, Raise (HTTPException 403 Operation_not_permitted_for_this_role)))
  /\ (forall e,
        User.role u = PARTNER ->
        snd (check_merchant_owner m u db) = Raise e ->
        get_merchant_order m oid u db = (db, Raise e)
        /\ list_merchant_orders m st u db = (db, Raise e)).
Proof.
  split.
  - intros Hr.
    assert (role_in (User.role u) [PARTNER] = false) as Hrole
      by (destruct (User.role u); try reflexivity; contradiction).
    unfold get_merchant_order, list_merchant_orders.
    rewrite !(bind_raise _ _ _ _ _ (check_role_fails _ u db Hrole)). auto.
  - intros e Hr He.
    assert (role_in (User.role u) [PARTNER] = true) as Hrole
      by (rewrite Hr; reflexivity).
    assert (check_merchant_owner m u db = (db, Raise e)) as Hc
      by (apply pair_eq; [apply check_merchant_owner_fst | exact He]).
    unfold get_merchant_order, list_merchant_orders.
    rewrite !(bind_ok _ _ _ _ _ (check_role_passes _ u db Hrole)).
    rewrite !(bind_raise _ _ _ _ _ Hc). auto.
Qed.

(** [list_merchant_orders] for the merchant's owner. *)
Lemma list_merchant_orders_granted (m : Z) (st : option OrderStatus)
  (u : User.t) (db : DB) (mch : Merchant.t) :
  check_merchant_owner m u db = (db, Ok mch) ->
  let selected :=
    filter (fun o => (Order.merchant_id o =? m)
                     && match st with
                        | Some s => OrderStatus_eqb (Order.status o) s
                        | None => true
                        end) (orders db) in
  list_merchant_orders m st u db = for_each list_merchant_orders_row selected db.
Proof.
  intros Hc selected.
  destruct (check_merchant_owner_ok _ _ _ _ _ Hc) as [_ [Hr _]].
  assert (role_in (User.role u) [PARTNER] = true) as Hrole
    by (rewrite Hr; reflexivity).
  unfold list_merchant_orders.
  rewrite (bind_ok _ _ _ _ _ (check_role_passes _ u db Hrole)).
  rewrite (bind_ok _ _ _ _ _ Hc).
  rewrite (bind_ok _ _ db db selected) by reflexivity. reflexivity.
Qed.

(** [get_merchant_order] for the merchant's owner and the one order the
    lookup finds. *)
Lemma get_merchant_order_granted (m oid : Z) (u : User.t) (db : DB)
  (mch : Merchant.t) (o : Order.t) :
  check_merchant_owner m u db = (db, Ok mch) ->
  filter (fun x => (Order.id x =? oid) && (Order.merchant_id x =? m)) (orders db)
  = [o] ->
  Order_merchant db o <> None -> (exists x, order_total db o = Ok x) ->
  exists v, get_merchant_order m oid u db = (db, Ok v) /\ OrderRead.order v = o.
Proof.
  intros Hc Hf Hm [x Hx].
  destruct (check_merchant_owner_ok _ _ _ _ _ Hc) as [_ [Hr _]].
  assert (role_in (User.role u) [PARTNER] = true) as Hrole
    by (rewrite Hr; reflexivity).
  unfold get_merchant_order.
  rewrite (bind_ok _ _ _ _ _ (check_role_passes _ u db Hrole)).
  rewrite (bind_ok _ _ _ _ _ Hc).
  rewrite (bind_ok _ _ db db [o]) by (unfold execute; rewrite Hf; reflexivity).
  rewrite (bind_ok _ _ db db (Some o)) by reflexivity.
  destruct (Order_merchant db o) as [mo|] eqn:Em; [|contradiction].
  rewrite (bind_ok _ _ db db (Merchant.name mo))
    by (unfold lift; rewrite Em; reflexivity).
  rewrite (bind_ok _ _ db db (Merchant.location mo))
    by (unfold lift; rewrite Em; reflexivity).
  rewrite (bind_ok _ _ db db (courier_name_of db o)) by reflexivity.
  rewrite (bind_ok _ _ db db (Order_items db o)) by reflexivity.
  rewrite (bind_ok _ _ db db x) by (unfold lift; rewrite Hx; reflexivity).
  eexists. split; reflexivity.
Qed.

Lemma get_merchant_order_absent (m oid : Z) (u : User.t) (db : DB)
  (mch : Merchant.t) :
  check_merchant_owner m u db = (db, Ok mch) ->
  filter (fun x => (Order.id x =? oid) && (Order.merchant_id x =? m)) (orders db)
  = [] ->
  get_merchant_order m oid u db = (db, Raise (HTTPException 404 Order_not_found)).
Proof.
  intros Hc Hf.
  destruct (check_merchant_owner_ok _ _ _ _ _ Hc) as [_ [Hr _]].
  assert (role_in (User.role u) [PARTNER] = true) as Hrole
    by (rewrite Hr; reflexivity).
  unfold get_merchant_order.
  rewrite (bind_ok _ _ _ _ _ (check_role_passes _ u db Hrole)).
  rewrite (bind_ok _ _ _ _ _ Hc).
  rewrite (bind_ok _ _ db db []) by (unfold execute; rewrite Hf; reflexivity).
  rewrite (bind_ok _ _ db db None) by reflexivity. reflexivity.
Qed.

(** A served partner read returns an order of the requested merchant, to
    the merchant's owner. *)
Lemma get_merchant_order_sound (m oid : Z) (u : User.t) (db db' : DB)
  (v : OrderRead.t) :
  get_merchant_order m oid u db = (db', Ok v) ->
  In (OrderRead.order v) (orders db)
  /\ Order.id (OrderRead.order v) = oid
  /\ Order.merchant_id (OrderRead.order v) = m
  /\ exists mch, In mch (merchants db) /\ Merchant.id mch = m
                 /\ Merchant.partner_id mch = User.id u.
Proof.
  intros H. unfold get_merchant_order in H.
  apply bind_inv in H. destruct H as [db1 [u1 [K1 H]]].
  apply check_role_inv in K1. destruct K1 as [-> ->].
  apply bind_inv in H. destruct H as [db2 [mch [K2 H]]].
  destruct (check_merchant_owner_ok _ _ _ _ _ K2) as [-> [_ [Hin [Hid Hp]]]].
  apply bind_inv in H. destruct H as [db3 [rows [K3 H]]].
  unfold execute in K3. injection K3 as Hdb3 Hrows. subst db3.
  apply bind_inv in H. destruct H as [db4 [oo [K4 H]]].
  unfold lift in K4. injection K4 as Hdb4 K5. subst db4.
  destruct oo as [o|]; [|discriminate H].
  assert (rows = [o]) as Hrows'.
  { destruct rows as [|a [|b l]]; simpl in K5; inversion K5. reflexivity. }
  rewrite Hrows' in Hrows.
  destruct (filter_found_id _ _ _ _ Hrows) as [Ho [Hoid Hom]].
  apply bind_inv in H. destruct H as [db5 [n [K6 H]]].
  unfold lift in K6. inversion K6. subst db5.
  apply bind_inv in H. destruct H as [db6 [loc [K7 H]]].
  unfold lift in K7. inversion K7. subst db6.
  apply bind_inv in H. destruct H as [db7 [cn [K8 H]]].
  unfold execute in K8. inversion K8. subst db7.
  apply bind_inv in H. destruct H as [db8 [its [K9 H]]].
  unfold execute in K9. inversion K9. subst db8.
  apply bind_inv in H. destruct H as [db9 [tot [K10 H]]].
  unfold lift in K10. inversion K10. subst db9.
  unfold ret in H. inversion H. subst. simpl.
  repeat split; auto. exists mch. auto.
Qed.

Lemma list_merchant_orders_sound (m : Z) (st : option OrderStatus) (u : User.t)
  (db db' : DB) (vs : list OrderRead.t) :
  list_merchant_orders m st u db = (db', Ok vs) ->
  (exists mch, In mch (merchants db) /\ Merchant.id mch = m
               /\ Merchant.partner_id mch = User.id u)
  /\ map OrderRead.order vs
     = filter (fun o => (Order.merchant_id o =? m)
                        && match st with
                           | Some s => OrderStatus_eqb (Order.status o) s
                           | None => true
                           end) (orders db).
Proof.
  intros H. pose proof H as H0. unfold list_merchant_orders in H0.
  apply bind_inv in H0. destruct H0 as [db1 [u1 [K1 H0]]].
  apply check_role_inv in K1. destruct K1 as [-> ->].
  apply bind_inv in H0. destruct H0 as [db2 [mch [K2 _]]].
  destruct (check_merchant_owner_ok _ _ _ _ _ K2) as [-> [_ [Hin [Hid Hp]]]].
  split; [exists mch; auto|].
  rewrite (list_merchant_orders_granted m st u db mch K2) in H.
  cbv zeta in H.
  match type of H with
  | for_each _ ?xs _ = _ =>
      destruct (for_each_reads list_merchant_orders_row xs db
                  (fun y => proj1 (list_merchant_orders_row_reads y db)))
        as [_ [Hv _]]
  end.
  rewrite H in Hv. simpl in Hv. specialize (Hv vs eq_refl).
  apply Forall2_map_eq. eapply Forall2_impl; [|exact Hv].
  intros o v Hov. simpl in Hov.
  exact (proj1 (proj2 (list_merchant_orders_row_reads o db) v Hov)).
Qed.

(** With the constraints in force, the owner's list succeeds. *)
Lemma list_merchant_orders_total (m : Z) (st : option OrderStatus) (u : User.t)
  (db : DB) (mch : Merchant.t) :
  orders_fk db = true -> order_items_fk db = true ->
  check_merchant_owner m u db = (db, Ok mch) ->
  exists vs, list_merchant_orders m st u db = (db, Ok vs).
Proof.
  intros Hfk Hifk Hc.
  rewrite (list_merchant_orders_granted m st u db mch Hc). cbv zeta.
  destruct (for_each_reads list_merchant_orders_row
              (filter (fun o => (Order.merchant_id o =? m)
                                && match st with
                                   | Some s => OrderStatus_eqb (Order.status o) s
                                   | None => true
                                   end) (orders db)) db
              (fun y => proj1 (list_merchant_orders_row_reads y db)))
    as [Hfst [_ [_ Hex]]].
  destruct Hex as [vs Hvs].
  { intros o Ho. apply filter_In in Ho. destruct Ho as [Ho _].
    destruct (orders_fk_joins db o Hfk Ho) as [Hm Hcn].
    exact (list_merchant_orders_row_total o db Hm Hcn
             (order_items_fk_total db o Hifk)). }
  exists vs. exact (pair_eq _ _ _ Hfst Hvs).
Qed.

(** C9.  Every order a handler of [routers/orders.py] returns carries, as
    its total, the sum over the order's line items of quantity times the
    unit price the catalog has when the handler reads (for [create_order]
    and [update_order_status]: in the database they leave); the read
    handlers leave the database as it was, and the order row has no column
    for the total.  The read handlers do return: with the schema's key
    constraints in force, [get_order] and [get_merchant_order] return every
    order the caller may see, and [list_orders] and [list_merchant_orders]
    return one response for each of those orders, in table order, each with
    that total.  Line items (2.50, 2) and (1.00, 3) give 8.00: it is the
    total of the response to Ann's creation request, of her order in her
    list and of the partner's update of it.  Reading after a price change
    gives the total at the new price: Ann's order reads 8.00, and 9.00 once
    the soup costs 3.00, fetched or listed. *)
Theorem C9_total_on_read :
  (forall oid u db db' v,
      get_order oid u db = (db', Ok v) ->
      db' = db /\ total_spec db (OrderRead.order v) = Some (OrderRead.total v))
  /\ (forall u db db' vs,
        list_orders u db = (db', Ok vs) ->
        db' = db
        /\ Forall (fun v => total_spec db (OrderRead.order v)
                            = Some (OrderRead.total v)) vs)
  /\ (forall m oid u db db' v,
        get_merchant_order m oid u db = (db', Ok v) ->
        db' = db /\ total_spec db (OrderRead.order v) = Some (OrderRead.total v))
  /\ (forall m st u db db' vs,
        list_merchant_orders m st u db = (db', Ok vs) ->
        db' = db
        /\ Forall (fun v => total_spec db (OrderRead.order v)
                            = Some (OrderRead.total v)) vs)
  /\ (forall m body now u db db' v,
        create_order m body now u db = (db', Ok v) ->
        total_spec db' (OrderRead.order v) = Some (OrderRead.total v))
  /\ (forall m oid t now u db db' v,
        update_order_status m oid t now u db = (db', Ok v) ->
        total_spec db' (OrderRead.order v) = Some (OrderRead.total v))
  /\ (forall db u o,
        orders_pk db = true -> orders_fk db = true ->
        order_items_fk db = true ->
        role_in (User.role u) [CONSUMER; COURIER] = true ->
        In o (orders db) -> list_orders_where u o = true ->
        exists v, get_order (Order.id o) u db = (db, Ok v)
                  /\ OrderRead.order v = o
                  /\ total_spec db o = Some (OrderRead.total v))
  /\ (forall db u,
        orders_fk db = true -> order_items_fk db = true ->
        role_in (User.role u) [CONSUMER; COURIER] = true ->
        exists vs, list_orders u db = (db, Ok vs)
                   /\ map OrderRead.order vs
                      = filter (list_orders_where u) (orders db)
                   /\ Forall (fun v => total_spec db (OrderRead.order v)
                                       = Some (OrderRead.total v)) vs)
  /\ (forall db m u mch o,
        orders_pk db = true -> orders_fk db = true ->
        order_items_fk db = true ->
        check_merchant_owner m u db = (db, Ok mch) ->
        In o (orders db) -> Order.merchant_id o = m ->
        exists v, get_merchant_order m (Order.id o) u db = (db, Ok v)
                  /\ OrderRead.order v = o
                  /\ total_spec db o = Some (OrderRead.total v))
  /\ (forall db m st u mch,
        orders_fk db = true -> order_items_fk db = true ->
        check_merchant_owner m u db = (db, Ok mch) ->
        exists vs, list_merchant_orders m st u db = (db, Ok vs)
                   /\ map OrderRead.order vs
                      = filter (fun o =>
                                  (Order.merchant_id o =? m)
                                  && match st with
                                     | Some s =>
                                         OrderStatus_eqb (Order.status o) s
                                     | None => true
                                     end) (orders db)
                   /\ Forall (fun v => total_spec db (OrderRead.order v)
                                       = Some (OrderRead.total v)) vs)
  /\ (forall db o oi1 oi2,
        line_items db o = [oi1; oi2] ->
        OrderItem.quantity oi1 = 2 ->
        unit_price db (OrderItem.item_id oi1) = Some 2.5%float ->
        OrderItem.quantity oi2 = 3 ->
        unit_price db (OrderItem.item_id oi2) = Some 1%float ->
        total_spec db o = Some 8%float)
  /\ (exists db' v, create_order 1 Sample.body 100 Sample.ann Sample.db0
                    = (db', Ok v)
                    /\ OrderRead.total v = 8%float)
  /\ (exists v, get_order 1 Sample.ann Sample.db_pending
                = (Sample.db_pending, Ok v)
                /\ OrderRead.total v = 8%float)
  /\ (exists vs, list_orders Sample.ann Sample.db_pending
                 = (Sample.db_pending, Ok vs)
                 /\ map OrderRead.total vs = [8%float])
  /\ (exists vs, list_merchant_orders 1 None Sample.pat Sample.db_pending
                 = (Sample.db_pending, Ok vs)
                 /\ map OrderRead.total vs = [8%float; 8%float])
  /\ (exists db' v, update_order_status 1 1 ACCEPTED 110 Sample.pat
                      Sample.db_pending = (db', Ok v)
                    /\ OrderRead.total v = 8%float)
  /\ (exists v, get_order 1 Sample.ann Sample.db_repriced
                = (Sample.db_repriced, Ok v)
                /\ OrderRead.total v = 9%float)
  /\ (exists vs, list_orders Sample.ann Sample.db_repriced
                 = (Sample.db_repriced, Ok vs)
                 /\ map OrderRead.total vs = [9%float]).
Proof.
  assert (forall db vs,
             Forall (fun v => order_total db (OrderRead.order v)
                              = Ok (OrderRead.total v)) vs ->
             Forall (fun v => total_spec db (OrderRead.order v)
                              = Some (OrderRead.total v)) vs) as Hspec.
  { intros db vs Ht. eapply Forall_impl; [|exact Ht].
    intros v Hv. apply order_total_spec. exact Hv. }
  split.
  { intros oid u db db' v H. destruct (get_order_ok _ _ _ _ _ H) as [Hdb Ht].
    split; [exact Hdb | apply order_total_spec; exact Ht]. }
  split.
  { intros u db db' vs H. destruct (list_orders_ok _ _ _ _ H) as [Hdb Ht].
    split; [exact Hdb | exact (Hspec _ _ Ht)]. }
  split.
  { intros m oid u db db' v H.
    destruct (get_merchant_order_ok _ _ _ _ _ _ H) as [Hdb Ht].
    split; [exact Hdb | apply order_total_spec; exact Ht]. }
  split.
  { intros m st u db db' vs H.
    destruct (list_merchant_orders_ok _ _ _ _ _ _ H) as [Hdb Ht].
    split; [exact Hdb | exact (Hspec _ _ Ht)]. }
  split.
  { intros m body now u db db' v H. apply order_total_spec.
    exact (create_order_ok _ _ _ _ _ _ _ H). }
  split.
  { intros m oid t now u db db' v H. apply order_total_spec.
    exact (update_order_status_total _ _ _ _ _ _ _ _ H). }
  split.
  { intros db u o Hpk Hfk Hifk Hr Hin Hw.
    pose proof (get_order_decided db u o Hpk Hfk Hifk Hr Hin) as H.
    rewrite Hw in H. destruct H as [v [Hv [Ho Ht]]].
    exists v. split; [exact Hv|]. split; [exact Ho|].
    apply order_total_spec. exact Ht. }
  split.
  { intros db u Hfk Hifk Hr.
    destruct (list_orders_decided db u Hfk Hifk Hr) as [vs [Hv [Hm Ht]]].
    exists vs. split; [exact Hv|]. split; [exact Hm | exact (Hspec _ _ Ht)]. }
  split.
  { intros db m u mch o Hpk Hfk Hifk Hm Hin Hmid.
    pose proof (lookup_found db o Hpk Hin) as Hf. rewrite Hmid in Hf.
    destruct (get_merchant_order_granted m (Order.id o) u db mch o Hm Hf
                (proj1 (orders_fk_joins db o Hfk Hin))
                (order_items_fk_total db o Hifk)) as [v [Hv Ho]].
    exists v. split; [exact Hv|]. split; [exact Ho|].
    destruct (get_merchant_order_ok _ _ _ _ _ _ Hv) as [_ Ht].
    rewrite Ho in Ht. apply order_total_spec. exact Ht. }
  split.
  { intros db m st u mch Hfk Hifk Hm.
    destruct (list_merchant_orders_total m st u db mch Hfk Hifk Hm)
      as [vs Hv].
    exists vs. split; [exact Hv|].
    split; [exact (proj2 (list_merchant_orders_sound _ _ _ _ _ _ Hv))|].
    exact (Hspec _ _ (proj2 (list_merchant_orders_ok _ _ _ _ _ _ Hv))). }
  split.
  { intros db o oi1 oi2 Hl Hq1 Hp1 Hq2 Hp2. unfold total_spec. rewrite Hl.
    simpl. unfold line_amount. rewrite Hq1, Hp1, Hq2, Hp2.
    vm_compute. reflexivity. }
  split; [eexists; eexists; split; vm_compute; reflexivity|].
  split; [eexists; split; vm_compute; reflexivity|].
  split; [eexists; split; vm_compute; reflexivity|].
  split; [eexists; split; vm_compute; reflexivity|].
  split; [eexists; eexists; split; vm_compute; reflexivity|].
  split; eexists; split; vm_compute; reflexivity.
Qed.

(** Ann reads her order 1, fetched and in her list. *)
Lemma C9_witness :
  total_spec Sample.db_pending
    (Order.mk 1 "1 Elm St" None 1 1 None PENDING 100 None)
  = Some 8%float
  /\ exists vs,
       list_orders Sample.ann Sample.db_pending = (Sample.db_pending, Ok vs)
       /\ map OrderRead.order vs
          = [Order.mk 1 "1 Elm St" None 1 1 None PENDING 100 None]
       /\ Forall (fun v => total_spec Sample.db_pending (OrderRead.order v)
                           = Some (OrderRead.total v)) vs.
Proof.
  split.
  - refine (proj2 (proj1 C9_total_on_read 1 Sample.ann Sample.db_pending
              Sample.db_pending
              (OrderRead.mk
                 (Order.mk 1 "1 Elm St" None 1 1 None PENDING 100 None)
                 [OrderItem.mk 1 1 2 1; OrderItem.mk 2 2 3 1]
                 "Deli" "Main St" (Some "Ann"%string) None 8%float) _)).
    vm_compute. reflexivity.
  - destruct C9_total_on_read as [_ [_ [_ [_ [_ [_ [_ [H _]]]]]]]].
    destruct (H Sample.db_pending Sample.ann) as [vs [Hv [Hm Ht]]].
    + vm_compute. reflexivity.
    + vm_compute. reflexivity.
    + reflexivity.
    + exists vs. split; [exact Hv|]. split; [exact Hm | exact Ht].
Defined.

(** X2.  The partner's reads are scoped to a merchant the caller owns.
    A served [get_merchant_order] returns an order of the database with the
    requested id, of the requested merchant, and the caller owns that
    merchant; a served [list_merchant_orders] returns exactly the orders of
    the requested merchant (of the requested status, when one is given), in
    table order, and the caller owns that merchant.  A caller whom the
    ownership check refuses gets the check's error from both handlers.  With
    the schema constraints in force, for the owner and an order of the
    database: an order of the merchant is fetched and listed, any other
    order is 404 "Order not found" and not listed. *)
Theorem X2_partner_reads_scoped :
  (forall m oid u db db' v,
      get_merchant_order m oid u db = (db', Ok v) ->
      In (OrderRead.order v) (orders db)
      /\ Order.id (OrderRead.order v) = oid
      /\ Order.merchant_id (OrderRead.order v) = m
      /\ exists mch, In mch (merchants db) /\ Merchant.id mch = m
                     /\ Merchant.partner_id mch = User.id u)
  /\ (forall m st u db db' vs,
        list_merchant_orders m st u db = (db', Ok vs) ->
        (exists mch, In mch (merchants db) /\ Merchant.id mch = m
                     /\ Merchant.partner_id mch = User.id u)
        /\ map OrderRead.order vs
           = filter (fun o => (Order.merchant_id o =? m)
                              && match st with
                                 | Some s => OrderStatus_eqb (Order.status o) s
                                 | None => true
                                 end) (orders db))
  /\ (forall m oid st u db e,
        User.role u = PARTNER ->
        snd (check_merchant_owner m u db) = Raise e ->
        get_merchant_order m oid u db = (db, Raise e)
        /\ list_merchant_orders m st u db = (db, Raise e))
  /\ (forall db m u mch o,
        orders_pk db = true -> orders_fk db = true ->
        order_items_fk db = true ->
        check_merchant_owner m u db = (db, Ok mch) ->
        In o (orders db) ->
        if Order.merchant_id o =? m
        then (exists v, get_merchant_order m (Order.id o) u db = (db, Ok v)
                        /\ OrderRead.order v = o)
             /\ (exists vs, list_merchant_orders m None u db = (db, Ok vs)
                            /\ In o (map OrderRead.order vs))
        else get_merchant_order m (Order.id o) u db
             = (db, Raise (HTTPException 404 Order_not_found))
             /\ (exists vs, list_merchant_orders m None u db = (db, Ok vs)
                            /\ ~ In o (map OrderRead.order vs))).
Proof.
  split; [exact get_merchant_order_sound|].
  split; [exact list_merchant_orders_sound|].
  split.
  { intros m oid st u db e Hr He.
    exact (proj2 (partner_reads_refused m oid st u db) e Hr He). }
  intros db m u mch o Hpk Hfk Hifk Hc Hin.
  destruct (list_merchant_orders_total m None u db mch Hfk Hifk Hc)
    as [vs Hvs].
  pose proof (proj2 (list_merchant_orders_sound _ _ _ _ _ _ Hvs)) as Hmap.
  assert (filter (fun x => (Order.id x =? Order.id o)
                           && (Order.merchant_id x =? m)) (orders db)
          = if Order.merchant_id o =? m then [o] else []) as Hf.
  { rewrite (filter_and (fun x => Order.id x =? Order.id o)
               (fun x => Order.merchant_id x =? m)).
    rewrite (lookup_by_id_found db o Hpk Hin). simpl.
    destruct (Order.merchant_id o =? m); reflexivity. }
  destruct (Order.merchant_id o =? m) eqn:Em.
  - split.
    + exact (get_merchant_order_granted m (Order.id o) u db mch o Hc Hf
               (proj1 (orders_fk_joins db o Hfk Hin))
               (order_items_fk_total db o Hifk)).
    + exists vs. split; [exact Hvs|]. rewrite Hmap. apply filter_In.
      split; [exact Hin|]. rewrite Em. reflexivity.
  - split.
    + exact (get_merchant_order_absent m (Order.id o) u db mch Hc Hf).
    + exists vs. split; [exact Hvs|]. rewrite Hmap. intros H.
      apply filter_In in H. destruct H as [_ H]. rewrite Em in H.
      discriminate H.
Qed.

(** Pat lists the orders of the Deli: what is served holds the Deli's
    orders only. *)
Lemma X2_witness :
  map OrderRead.order
    (match snd (list_merchant_orders 1 None Sample.pat Sample.db_kim) with
     | Ok vs => vs
     | Raise _ => []
     end)
  = filter (fun o => (Order.merchant_id o =? 1) && true)
      (orders Sample.db_kim).
Proof.
  destruct (snd (list_merchant_orders 1 None Sample.pat Sample.db_kim))
    as [vs|e] eqn:E.
  - refine (proj2 (proj1 (proj2 X2_partner_reads_scoped) 1 None Sample.pat
              Sample.db_kim Sample.db_kim vs _)).
    apply pair_eq; [vm_compute; reflexivity | exact E].
  - vm_compute in E. discriminate E.
Defined.

(** A loop over a selection of the rows returns the selection of the
    loop's results. *)
Lemma for_each_filter {A B : Type} (f : A -> M B) (p : A -> bool)
  (q : B -> bool) (xs : list A) (ys : list B) (db : DB) :
  (forall x, fst (f x db) = db) ->
  (forall x y, snd (f x db) = Ok y -> q y = p x) ->
  for_each f xs db = (db, Ok ys) ->
  for_each f (filter p xs) db = (db, Ok (filter q ys)).
Proof.
  intros Hf Hq. revert ys. induction xs as [|x xs IH]; intros ys H; simpl in *.
  - unfold ret in *. inversion H. reflexivity.
  - apply bind_inv in H. destruct H as [db1 [y [K1 H]]].
    pose proof (Hf x) as Hx. rewrite K1 in Hx. simpl in Hx. subst db1.
    apply bind_inv in H. destruct H as [db2 [ys' [K2 H]]].
    assert (db2 = db) as ->.
    { destruct (for_each_reads f xs db Hf) as [Hfst _]. rewrite K2 in Hfst.
      exact Hfst. }
    unfold ret in H. injection H as <-.
    assert (q y = p x) as Hqy by (apply Hq; rewrite K1; reflexivity).
    simpl. rewrite Hqy. destruct (p x).
    + simpl. rewrite (bind_ok _ _ _ _ _ K1).
      rewrite (bind_ok _ _ _ _ _ (IH ys' K2)). reflexivity.
    + exact (IH ys' K2).
Qed.

(** X3.  The status filter of [list_merchant_orders] selects from the
    unfiltered list: when the list without a status is served, the list for
    a status [s] is served too, and it is the sub-list of the responses
    whose order has status [s]. *)
Theorem X3_status_filter_selects :
  forall m s u db vs,
    list_merchant_orders m None u db = (db, Ok vs) ->
    list_merchant_orders m (Some s) u db
    = (db, Ok (filter (fun v => OrderStatus_eqb
                                  (Order.status (OrderRead.order v)) s) vs)).
Proof.
  intros m s u db vs H. pose proof H as H0. unfold list_merchant_orders in H0.
  apply bind_inv in H0. destruct H0 as [db1 [u1 [K1 H0]]].
  apply check_role_inv in K1. destruct K1 as [-> ->].
  apply bind_inv in H0. destruct H0 as [db2 [mch [K2 _]]].
  pose proof (check_merchant_owner_ok _ _ _ _ _ K2) as [-> _].
  rewrite (list_merchant_orders_granted m None u db mch K2) in H.
  rewrite (list_merchant_orders_granted m (Some s) u db mch K2).
  cbv zeta in *.
  rewrite (filter_and (fun o => Order.merchant_id o =? m)
             (fun o => OrderStatus_eqb (Order.status o) s)).
  assert (filter (fun o => (Order.merchant_id o =? m) && true) (orders db)
          = filter (fun o => Order.merchant_id o =? m) (orders db)) as Hsel.
  { apply filter_ext. intros o. apply andb_true_r. }
  rewrite Hsel in H.
  apply (for_each_filter list_merchant_orders_row
           (fun o => OrderStatus_eqb (Order.status o) s)
           (fun v => OrderStatus_eqb (Order.status (OrderRead.order v)) s)).
  - intros x. exact (proj1 (list_merchant_orders_row_reads x db)).
  - intros x y Hxy.
    destruct (proj2 (list_merchant_orders_row_reads x db) y Hxy) as [-> _].
    reflexivity.
  - exact H.
Qed.

(** Pat asks for the Deli's orders in transit. *)
Lemma X3_witness :
  map OrderRead.order
    (match snd (list_merchant_orders 1 (Some IN_TRANSIT) Sample.pat
                  Sample.db_kim) with
     | Ok vs => vs
     | Raise _ => []
     end)
  = [Order.mk 1 "1 Elm St" None 1 1 (Some 4) IN_TRANSIT 100 None].
Proof.
  destruct (list_merchant_orders 1 None Sample.pat Sample.db_kim)
    as [db' [vs|e]] eqn:E.
  - assert (db' = Sample.db_kim) as -> by
      (pose proof (f_equal fst E) as F; vm_compute in F; symmetry; exact F).
    rewrite (X3_status_filter_selects 1 IN_TRANSIT Sample.pat Sample.db_kim
               vs E).
    simpl snd. pose proof (f_equal snd E) as F. vm_compute in F.
    injection F as <-. vm_compute. reflexivity.
  - pose proof (f_equal snd E) as F. vm_compute in F. discriminate F.
Defined.

(** ** What a served status update changes, and for whom *)

(** A served status update, read backwards, with the role branch it
    passed. *)
Lemma update_order_status_served (m oid : Z) (t : OrderStatus) (now : Z)
  (u : User.t) (db db' : DB) (v : OrderRead.t) :
  update_order_status m oid t now u db = (db', Ok v) ->
  exists o,
    In o (orders db) /\ Order.id o = oid /\ Order.merchant_id o = m
    /\ snd (role_guard m o t u db) = Ok tt
    /\ can_transition_to (Order.status o) t (User.role u) = true
    /\ db' = update_order (apply_status t now u o) db
    /\ OrderRead.order v = apply_status t now u o.
Proof.
  intros H.
  destruct (filter (fun x => (Order.id x =? oid) && (Order.merchant_id x =? m))
              (orders db)) as [|o [|o2 l]] eqn:Ef.
  - rewrite (update_order_status_not_found _ _ _ _ _ _ Ef) in H. discriminate H.
  - pose proof (update_order_status_found m oid t now u db o Ef) as Hf.
    rewrite H in Hf. simpl in Hf.
    destruct (snd (role_guard m o t u db)) as [[]|e] eqn:Eg; [|discriminate Hf].
    destruct (can_transition_to _ _ _) eqn:Ec; [|discriminate Hf].
    destruct Hf as [Hdb [Hv _]].
    destruct (filter_found_id _ _ _ _ Ef) as [Hin [Hid Hm]].
    exists o. repeat split; auto.
  - rewrite (update_order_status_ambiguous _ _ _ _ _ _ _ _ _ Ef) in H.
    discriminate H.
Qed.

(** What [apply_status] leaves alone, and what it may write. *)
Lemma apply_status_frame (t : OrderStatus) (now : Z) (u : User.t) (o : Order.t) :
  let o' := apply_status t now u o in
  Order.delivery_address o' = Order.delivery_address o
  /\ Order.order_instructions o' = Order.order_instructions o
  /\ Order.merchant_id o' = Order.merchant_id o
  /\ Order.consumer_id o' = Order.consumer_id o
  /\ (Order.courier_id o' = Order.courier_id o
      \/ (t = IN_TRANSIT /\ User.role u = COURIER
          /\ Order.courier_id o' = Some (User.id u)))
  /\ (Order.delivered_at o' = Order.delivered_at o
      \/ (t = DELIVERED /\ User.role u = COURIER
          /\ Order.delivered_at o' = Some now)).
Proof.
  unfold apply_status. destruct (User.role u) eqn:Hr; simpl; try tauto.
  destruct (OrderStatus_eqb_spec t IN_TRANSIT) as [-> | Ht]; simpl.
  - destruct (truthy (Order.courier_id o)); simpl; tauto.
  - destruct (OrderStatus_eqb_spec t DELIVERED) as [-> | Hd]; simpl; tauto.
Qed.

(** X4.  A served [update_order_status] writes one order and nothing else.
    The order is the one addressed by id and merchant; its transition is in
    the table for the caller's role; the returned order keeps the id, the
    address, the instructions, the merchant, the consumer and [created_at],
    has the target status, keeps [courier_id] unless a courier's pickup
    sets it to the caller, and keeps [delivered_at] unless a courier's
    delivery stamps it.  The other tables are as before, the orders table
    has the same keys in the same order, and its rows are the returned
    order and the former rows with another id. *)
Theorem X4_served_update_frame :
  forall m oid t now u db db' v,
    update_order_status m oid t now u db = (db', Ok v) ->
    exists o,
      In o (orders db) /\ Order.id o = oid /\ Order.merchant_id o = m
      /\ In (User.role u, Order.status o, t) transition_table
      /\ Order.id (OrderRead.order v) = Order.id o
      /\ Order.status (OrderRead.order v) = t
      /\ Order.created_at (OrderRead.order v) = Order.created_at o
      /\ Order.delivery_address (OrderRead.order v) = Order.delivery_address o
      /\ Order.order_instructions (OrderRead.order v)
         = Order.order_instructions o
      /\ Order.merchant_id (OrderRead.order v) = Order.merchant_id o
      /\ Order.consumer_id (OrderRead.order v) = Order.consumer_id o
      /\ (Order.courier_id (OrderRead.order v) = Order.courier_id o
          \/ (t = IN_TRANSIT /\ User.role u = COURIER
              /\ Order.courier_id (OrderRead.order v) = Some (User.id u)))
      /\ (Order.delivered_at (OrderRead.order v) = Order.delivered_at o
          \/ (t = DELIVERED /\ User.role u = COURIER
              /\ Order.delivered_at (OrderRead.order v) = Some now))
      /\ (users db' = users db /\ merchants db' = merchants db
          /\ items db' = items db /\ order_items db' = order_items db)
      /\ map Order.id (orders db') = map Order.id (orders db)
      /\ (forall x, In x (orders db') <->
                    x = OrderRead.order v
                    \/ (In x (orders db) /\ Order.id x <> oid)).
Proof.
  intros m oid t now u db db' v H.
  destruct (update_order_status_served _ _ _ _ _ _ _ _ H)
    as [o [Hin [Hid [Hm [_ [Hc [Hdb Hv]]]]]]].
  exists o. rewrite Hv, Hdb.
  destruct (apply_status_frame t now u o) as [F1 [F2 [F3 [F4 [F5 F6]]]]].
  split; [exact Hin|]. split; [exact Hid|]. split; [exact Hm|].
  split; [apply can_transition_to_table; exact Hc|].
  split; [apply apply_status_id|]. split; [apply apply_status_status|].
  split; [apply apply_status_created_at|].
  split; [exact F1|]. split; [exact F2|]. split; [exact F3|].
  split; [exact F4|]. split; [exact F5|]. split; [exact F6|].
  split; [repeat split|]. split; [apply update_order_ids|].
  intros x. rewrite <- Hid.
  apply update_order_members; [exact Hin | apply apply_status_id].
Qed.

(** Pat accepts Ann's order 1: Bob's order 2 is still in the table, as it
    was. *)
Lemma X4_witness :
  exists o,
    In o (orders Sample.db_pending) /\ Order.id o = 1
    /\ In (PARTNER, Order.status o, ACCEPTED) transition_table
    /\ In (Order.mk 2 "1 Elm St" None 1 2 None PENDING 101 None)
         (orders (Sample.after (update_order_status 1 1 ACCEPTED 110 Sample.pat)
                    Sample.db_pending)).
Proof.
  destruct (X4_served_update_frame 1 1 ACCEPTED 110 Sample.pat
              Sample.db_pending
              (Sample.after (update_order_status 1 1 ACCEPTED 110 Sample.pat)
                 Sample.db_pending)
              (OrderRead.mk
                 (Order.mk 1 "1 Elm St" None 1 1 None ACCEPTED 100 None)
                 [OrderItem.mk 1 1 2 1; OrderItem.mk 2 2 3 1]
                 "Deli" "Main St" None None 8%float))
    as [o [Hin [Hid [_ [Htab Hrest]]]]].
  - vm_compute. reflexivity.
  - exists o. split; [exact Hin|]. split; [exact Hid|]. split; [exact Htab|].
    apply (proj2 (proj2 (proj2 (proj2 (proj2 (proj2 (proj2 (proj2 (proj2
             (proj2 (proj2 Hrest))))))))))).
    right. split; [vm_compute; right; left; reflexivity | vm_compute; discriminate].
Defined.

Lemma role_guard_courier_ok (m : Z) (o : Order.t) (t : OrderStatus)
  (u : User.t) (db : DB) :
  User.role u = COURIER ->
  snd (role_guard m o t u db) = Ok tt ->
  (forall c, Order.courier_id o = Some c -> c <> 0 -> c = User.id u)
  /\ (t = IN_TRANSIT -> in_transit_of (User.id u) db = []).
Proof.
  intros Hr Hg. rewrite (role_guard_courier m o t u db Hr) in Hg.
  destruct (truthy (Order.courier_id o)
            && py_ne (Order.courier_id o) (User.id u)) eqn:E1;
    [discriminate Hg|].
  split.
  - intros c Hc Hc0. rewrite Hc in E1. simpl in E1.
    apply Z.eqb_neq in Hc0. rewrite Hc0 in E1. simpl in E1.
    apply negb_false_iff in E1. apply Z.eqb_eq in E1. exact E1.
  - intros ->. simpl in Hg.
    destruct (existsb _ (orders db)) eqn:E2; [discriminate Hg|].
    unfold in_transit_of. rewrite <- filter_nonempty in E2.
    destruct (filter _ (orders db)); [reflexivity | discriminate E2].
Qed.

(** X5.  Who gets a status update served.  A consumer: only the order's own
    consumer, and only the cancellation of a pending order.  A partner:
    only the owner of the merchant in the path, which is the order's
    merchant.  A courier: only one whom no other courier's assignment
    shuts out; a served pickup finds the courier carrying nothing and
    leaves the order assigned to that courier. *)
Theorem X5_served_update_authorized :
  forall m oid t now u db db' v,
    update_order_status m oid t now u db = (db', Ok v) ->
    exists o,
      In o (orders db) /\ Order.id o = oid /\ Order.merchant_id o = m
      /\ match User.role u with
         | CONSUMER =>
             Order.consumer_id o = User.id u
             /\ Order.status o = PENDING /\ t = CANCELLED
         | PARTNER =>
             exists mch, In mch (merchants db)
                         /\ Merchant.id mch = Order.merchant_id o
                         /\ Merchant.partner_id mch = User.id u
         | COURIER =>
             (forall c, Order.courier_id o = Some c -> c <> 0 ->
                        c = User.id u)
             /\ (t = IN_TRANSIT ->
                 in_transit_of (User.id u) db = []
                 /\ Order.courier_id (OrderRead.order v) = Some (User.id u))
         end.
Proof.
  intros m oid t now u db db' v H.
  destruct (update_order_status_served _ _ _ _ _ _ _ _ H)
    as [o [Hin [Hid [Hm [Hg [Hc [Hdb Hv]]]]]]].
  exists o. split; [exact Hin|]. split; [exact Hid|]. split; [exact Hm|].
  destruct (User.role u) eqn:Hr.
  - split.
    + unfold role_guard in Hg. rewrite Hr in Hg. run.
      destruct (Order.consumer_id o =? User.id u) eqn:E; [|discriminate Hg].
      apply Z.eqb_eq in E. exact E.
    + destruct (Order.status o), t; simpl in Hc; try discriminate Hc; auto.
  - unfold role_guard in Hg. rewrite Hr in Hg.
    destruct (check_merchant_owner m u db) as [db1 [mch|e]] eqn:Ec.
    + destruct (check_merchant_owner_ok _ _ _ _ _ Ec) as [_ [_ [Hi [Hmid Hp]]]].
      exists mch. rewrite Hm. auto.
    + unfold bind in Hg. rewrite Ec in Hg. discriminate Hg.
  - destruct (role_guard_courier_ok m o t u db Hr Hg) as [G1 G2].
    split; [exact G1|]. intros ->. split; [exact (G2 eq_refl)|].
    rewrite Hv. unfold apply_status. rewrite Hr. simpl.
    destruct (Order.courier_id o) as [c|] eqn:Eo; simpl; [|reflexivity].
    destruct (c =? 0) eqn:E0; simpl; [reflexivity|].
    apply Z.eqb_neq in E0. cbn. rewrite ?Eo. f_equal.
    exact (G1 c eq_refl E0).
Qed.

(** Kim's pickup of order 1. *)
Lemma X5_witness :
  exists o,
    In o (orders Sample.db_ready) /\ Order.id o = 1
    /\ in_transit_of 4 Sample.db_ready = [].
Proof.
  destruct (X5_served_update_authorized 1 1 IN_TRANSIT 120 Sample.kim
              Sample.db_ready Sample.db_kim
              (OrderRead.mk
                 (Order.mk 1 "1 Elm St" None 1 1 (Some 4) IN_TRANSIT 100 None)
                 [OrderItem.mk 1 1 2 1; OrderItem.mk 2 2 3 1]
                 "Deli" "Main St" None (Some "Kim"%string) 8%float))
    as [o [Hin [Hid [_ Hrole]]]].
  - vm_compute. reflexivity.
  - exists o. split; [exact Hin|]. split; [exact Hid|].
    exact (proj1 (proj2 Hrole eq_refl)).
Defined.

(** ** Courier assignment along histories *)

Lemma step_orders_pk (now : Z) (db db' : DB) :
  orders_pk db = true -> step now db db' -> orders_pk db' = true.
Proof.
  intros Hpk Hstep. destruct Hstep as [m body u | m oid t u | db' Hsame].
  - destruct (create_order_fst m body now u db) as [-> | ->]; [exact Hpk|].
    apply insert_order_pk; [reflexivity | exact Hpk].
  - destruct (update_order_status_fst m oid t now u db)
      as [-> | [o [_ [_ ->]]]]; [exact Hpk|].
    unfold orders_pk. rewrite update_order_ids. exact Hpk.
  - unfold orders_pk. rewrite Hsame. exact Hpk.
Qed.

(** A permitted transition keeps the courier column in step with the
    status. *)
Lemma apply_status_courier (t : OrderStatus) (now : Z) (u : User.t)
  (o : Order.t) :
  can_transition_to (Order.status o) t (User.role u) = true ->
  courier_assigned_ok o -> courier_assigned_ok (apply_status t now u o).
Proof.
  unfold courier_assigned_ok. rewrite apply_status_status.
  unfold apply_status.
  destruct (User.role u), (Order.status o), t; simpl; intros Hc Ho;
    try discriminate Hc; try exact Ho.
  rewrite Ho. simpl. eexists. reflexivity.
Qed.

Lemma step_courier_assigned (now : Z) (db db' : DB) :
  Forall courier_assigned_ok (orders db) -> step now db db' ->
  Forall courier_assigned_ok (orders db').
Proof.
  intros Hall Hstep. destruct Hstep as [m body u | m oid t u | db' Hsame].
  - destruct (create_order_fst m body now u db) as [-> | ->]; [exact Hall|].
    unfold insert_order. simpl. apply Forall_app. split; [exact Hall|].
    constructor; [reflexivity | constructor].
  - destruct (update_order_status_fst m oid t now u db)
      as [-> | [o [Hin [Hc ->]]]]; [exact Hall|].
    rewrite Forall_forall in Hall. unfold update_order. simpl.
    apply Forall_forall. intros x Hx. apply in_map_iff in Hx.
    destruct Hx as [y [Hy Hyin]].
    destruct (Order.id y =? Order.id (apply_status t now u o)); subst x.
    + exact (apply_status_courier t now u o Hc (Hall o Hin)).
    + exact (Hall y Hyin).
  - rewrite Hsame. exact Hall.
Qed.

(** X6.  Along every history of requests, from an orders table in which
    that is so (the empty one, for a start): an order that is PENDING,
    ACCEPTED, READY_FOR_PICKUP or CANCELLED has no courier, and an order
    that is IN_TRANSIT or DELIVERED has one. *)
Theorem X6_courier_set_from_pickup_on :
  forall clk0 db0 clk db,
    Forall courier_assigned_ok (orders db0) ->
    run clk0 db0 clk db ->
    forall o, In o (orders db) ->
      match Order.status o with
      | IN_TRANSIT | DELIVERED => exists c, Order.courier_id o = Some c
      | _ => Order.courier_id o = None
      end.
Proof.
  intros clk0 db0 clk db H0 Hrun.
  assert (Forall courier_assigned_ok (orders db)) as Hall.
  { induction Hrun as [|clk1 db1 now db2 _ IH _ Hstep]; [exact H0|].
    exact (step_courier_assigned now db1 db2 IH Hstep). }
  rewrite Forall_forall in Hall. exact Hall.
Qed.

(** Order 2, picked up by Lee, in the sample history. *)
Lemma X6_witness :
  exists c,
    Order.courier_id
      (Order.mk 2 "1 Elm St" None 1 2 (Some 5) IN_TRANSIT 101 None) = Some c.
Proof.
  refine (X6_courier_set_from_pickup_on 0 Sample.db0 130 Sample.db_delivered
            _ sample_history
            (Order.mk 2 "1 Elm St" None 1 2 (Some 5) IN_TRANSIT 101 None) _).
  - constructor.
  - vm_compute. right. left. reflexivity.
Defined.

Lemma update_order_status_fst_guard (m oid : Z) (t : OrderStatus) (now : Z)
  (u : User.t) (db : DB) :
  fst (update_order_status m oid t now u db) = db
  \/ exists o,
       In o (orders db)
       /\ snd (role_guard m o t u db) = Ok tt
       /\ can_transition_to (Order.status o) t (User.role u) = true
       /\ fst (update_order_status m oid t now u db)
          = update_order (apply_status t now u o) db.
Proof.
  destruct (filter (fun x => (Order.id x =? oid) && (Order.merchant_id x =? m))
              (orders db)) as [|o [|o2 l]] eqn:Ef.
  - left. rewrite (update_order_status_not_found _ _ _ _ _ _ Ef). reflexivity.
  - pose proof (update_order_status_found m oid t now u db o Ef) as H.
    destruct (snd (role_guard m o t u db)) as [[]|e] eqn:Eg;
      [|left; rewrite H; reflexivity].
    destruct (can_transition_to (Order.status o) t (User.role u)) eqn:Ec;
      [|left; rewrite H; reflexivity].
    right. exists o. split; [exact (proj1 (filter_found_id _ _ _ _ Ef))|].
    split; [exact Eg|]. split; [exact Ec | exact (proj1 H)].
  - left. rewrite (update_order_status_ambiguous _ _ _ _ _ _ _ _ _ Ef).
    reflexivity.
Qed.

(** Only a courier reaches IN_TRANSIT, and only from READY_FOR_PICKUP. *)
Lemma transition_to_in_transit (s : OrderStatus) (r : UserRole) :
  can_transition_to s IN_TRANSIT r = true ->
  s = READY_FOR_PICKUP /\ r = COURIER.
Proof. destruct s, r; simpl; intros H; try discriminate H; auto. Qed.

(** A pickup that passed the guard leaves the order with the caller. *)
Lemma pickup_assigns (m : Z) (o : Order.t) (now : Z) (u : User.t) (db : DB) :
  User.role u = COURIER ->
  snd (role_guard m o IN_TRANSIT u db) = Ok tt ->
  Order.courier_id (apply_status IN_TRANSIT now u o) = Some (User.id u).
Proof.
  intros Hr Hg.
  destruct (role_guard_courier_ok m o IN_TRANSIT u db Hr Hg) as [G1 _].
  unfold apply_status. rewrite Hr. simpl.
  destruct (Order.courier_id o) as [c|] eqn:Eo; simpl; [|reflexivity].
  destruct (c =? 0) eqn:E0; simpl; [reflexivity|].
  apply Z.eqb_neq in E0. cbn. rewrite ?Eo. f_equal. exact (G1 c eq_refl E0).
Qed.

(** Replacing the rows that [q] selects by [o'] adds at most those rows to
    what [p] selects, and only when [p] selects [o']. *)
Lemma filter_replace_length {A : Type} (p q : A -> bool) (o' : A)
  (l : list A) :
  (List.length (filter p (map (fun x => if q x then o' else x) l))
   <= List.length (filter p l)
      + (if p o' then List.length (filter q l) else 0))%nat.
Proof.
  induction l as [|x l IH]; simpl; [apply Nat.le_0_l|].
  destruct (q x) eqn:Eq.
  - destruct (p o') eqn:Ep; simpl.
    + destruct (p x); simpl; lia.
    + destruct (p x); simpl; lia.
  - destruct (p x) eqn:Epx; simpl; destruct (p o'); lia.
Qed.

Lemma step_courier_exclusive (now : Z) (db db' : DB) :
  orders_pk db = true -> courier_exclusive db -> step now db db' ->
  courier_exclusive db'.
Proof.
  intros Hpk Hex Hstep c. specialize (Hex c). unfold in_transit_of in *.
  destruct Hstep as [m body u | m oid t u | db' Hsame].
  - destruct (create_order_fst m body now u db) as [-> | ->]; [exact Hex|].
    unfold insert_order. simpl. rewrite filter_app. simpl.
    rewrite app_nil_r. exact Hex.
  - destruct (update_order_status_fst_guard m oid t now u db)
      as [-> | [o [Hin [Hg [Hc ->]]]]]; [exact Hex|].
    unfold update_order. simpl.
    set (o' := apply_status t now u o).
    set (p := fun x => sql_eq (Order.courier_id x) c
                       && OrderStatus_eqb (Order.status x) IN_TRANSIT) in *.
    pose proof (filter_replace_length p
                  (fun x => Order.id x =? Order.id o') o' (orders db)) as Hlen.
    assert (filter (fun x => Order.id x =? Order.id o') (orders db) = [o])
      as Hq.
    { unfold o'. rewrite apply_status_id. exact (lookup_by_id_found db o Hpk Hin). }
    rewrite Hq in Hlen. simpl in Hlen.
    destruct (p o') eqn:Ep; [|lia].
    unfold p, o' in Ep. rewrite apply_status_status in Ep.
    apply andb_true_iff in Ep. destruct Ep as [Ec Et].
    apply OrderStatus_eqb_eq in Et. subst t.
    destruct (transition_to_in_transit _ _ Hc) as [_ Hr].
    rewrite (pickup_assigns m o now u db Hr Hg) in Ec. simpl in Ec.
    apply Z.eqb_eq in Ec. subst c.
    destruct (role_guard_courier_ok m o IN_TRANSIT u db Hr Hg) as [_ G2].
    specialize (G2 eq_refl). unfold in_transit_of in G2. fold p in G2.
    rewrite G2 in Hlen. simpl in Hlen. exact Hlen.
  - rewrite Hsame. exact Hex.
Qed.

(** X7.  Along every history of requests served one after the other, from an
    orders table with unique keys in which no courier carries two orders
    (the empty one, for a start), no courier ever carries two orders: for
    every courier, at most one order is IN_TRANSIT with that courier. *)
Theorem X7_one_delivery_at_a_time :
  forall clk0 db0 clk db,
    orders_pk db0 = true -> courier_exclusive db0 ->
    run clk0 db0 clk db ->
    forall courier, (List.length (in_transit_of courier db) <= 1)%nat.
Proof.
  intros clk0 db0 clk db Hpk0 Hex0 Hrun.
  assert (orders_pk db = true /\ courier_exclusive db) as [_ H].
  { induction Hrun as [|clk1 db1 now db2 _ IH _ Hstep]; [auto|].
    destruct IH as [Hpk Hex]. split.
    - exact (step_orders_pk now db1 db2 Hpk Hstep).
    - exact (step_courier_exclusive now db1 db2 Hpk Hex Hstep). }
  exact H.
Qed.

(** Kim, at the end of the sample history. *)
Lemma X7_witness :
  (List.length (in_transit_of 4 Sample.db_delivered) <= 1)%nat.
Proof.
  refine (X7_one_delivery_at_a_time 0 Sample.db0 130 Sample.db_delivered
            _ _ sample_history 4).
  - reflexivity.
  - intros c. apply Nat.le_0_l.
Defined.

(** ** The consumer's reads *)

(** A served [get_order], read backwards. *)
Lemma get_order_sound (oid : Z) (u : User.t) (db db' : DB) (v : OrderRead.t) :
  get_order oid u db = (db', Ok v) ->
  In (OrderRead.order v) (orders db)
  /\ Order.id (OrderRead.order v) = oid
  /\ list_orders_where u (OrderRead.order v) = true
  /\ role_in (User.role u) [CONSUMER; COURIER] = true.
Proof.
  intros H. destruct (role_in (User.role u) [CONSUMER; COURIER]) eqn:Hrole.
  2:{ unfold get_order in H.
      rewrite (bind_raise _ _ _ _ _ (check_role_fails _ u db Hrole)) in H.
      discriminate H. }
  destruct (filter (fun x => Order.id x =? oid) (orders db)) as [|o [|o2 l]]
    eqn:Ef.
  - rewrite (get_order_not_found oid u db Hrole Ef) in H. discriminate H.
  - pose proof (get_order_found oid u db o Hrole Ef) as Hg. rewrite H in Hg.
    simpl in Hg. rewrite get_order_guard_where in Hg.
    destruct (list_orders_where u o) eqn:Ew; [|discriminate Hg].
    destruct Hg as [_ [Hv _]]. destruct (Hv v eq_refl) as [Ho _].
    rewrite Ho. assert (In o [o]) as Hin by (left; reflexivity).
    rewrite <- Ef in Hin. apply filter_In in Hin. destruct Hin as [Hin Hid].
    apply Z.eqb_eq in Hid. auto.
  - exfalso. unfold get_order in H.
    rewrite (bind_ok _ _ _ _ _ (check_role_passes _ u db Hrole)) in H.
    rewrite (bind_ok _ _ db db (o :: o2 :: l)) in H
      by (unfold execute; rewrite Ef; reflexivity).
    rewrite (bind_raise _ _ db db MultipleResultsFound) in H by reflexivity.
    discriminate H.
Qed.

(** X8.  A consumer reads own orders only.  A list served to a consumer is
    exactly the orders whose [consumer_id] is the caller, in table order;
    an order served by [get_order] to a consumer is an order of the
    database with the requested id and the caller as consumer; for an order
    of another consumer [get_order] answers 403 "Not your order".  A
    partner is refused by both handlers with 403 "Operation not permitted
    for this role". *)
Theorem X8_consumer_reads_own_orders :
  (forall u db db' vs,
      User.role u = CONSUMER ->
      list_orders u db = (db', Ok vs) ->
      map OrderRead.order vs
      = filter (fun o => Order.consumer_id o =? User.id u) (orders db))
  /\ (forall oid u db db' v,
        User.role u = CONSUMER ->
        get_order oid u db = (db', Ok v) ->
        In (OrderRead.order v) (orders db)
        /\ Order.id (OrderRead.order v) = oid
        /\ Order.consumer_id (OrderRead.order v) = User.id u)
  /\ (forall u db o,
        User.role u = CONSUMER ->
        orders_pk db = true -> In o (orders db) ->
        Order.consumer_id o <> User.id u ->
        get_order (Order.id o) u db
        = (db, Raise (HTTPException 403 Not_your_order)))
  /\ (forall oid u db,
        User.role u = PARTNER ->
        get_order oid u db
        = (db, Raise (HTTPException 403 Operation_not_permitted_for_this_role))
        /\ list_orders u db
           = (db, Raise (HTTPException 403
                           Operation_not_permitted_for_this_role))).
Proof.
  split.
  { intros u db db' vs Hr H.
    assert (role_in (User.role u) [CONSUMER; COURIER] = true) as Hrole
      by (rewrite Hr; reflexivity).
    destruct (list_orders_result u db Hrole) as [_ [Hv _]].
    rewrite H in Hv. simpl in Hv. destruct (Hv vs eq_refl) as [Hmap _].
    rewrite Hmap. apply filter_ext. intros o. unfold list_orders_where.
    rewrite Hr. reflexivity. }
  split.
  { intros oid u db db' v Hr H.
    destruct (get_order_sound _ _ _ _ _ H) as [Hin [Hid [Hw _]]].
    unfold list_orders_where in Hw. rewrite Hr in Hw. apply Z.eqb_eq in Hw.
    auto. }
  split.
  { intros u db o Hr Hpk Hin Hne.
    assert (role_in (User.role u) [CONSUMER; COURIER] = true) as Hrole
      by (rewrite Hr; reflexivity).
    pose proof (get_order_found (Order.id o) u db o Hrole
                  (lookup_by_id_found db o Hpk Hin)) as H.
    rewrite get_order_guard_where in H. unfold list_orders_where in H.
    rewrite Hr in H. apply Z.eqb_neq in Hne. rewrite Hne in H. exact H. }
  intros oid u db Hr.
  assert (role_in (User.role u) [CONSUMER; COURIER] = false) as Hrole
    by (rewrite Hr; reflexivity).
  unfold get_order, list_orders.
  rewrite !(bind_raise _ _ _ _ _ (check_role_fails _ u db Hrole)). auto.
Qed.

(** Bob asks for Ann's order 1. *)
Lemma X8_witness :
  get_order 1 Sample.bob Sample.db_pending
  = (Sample.db_pending, Raise (HTTPException 403 Not_your_order)).
Proof.
  refine (proj1 (proj2 (proj2 X8_consumer_reads_own_orders)) Sample.bob
            Sample.db_pending
            (Order.mk 1 "1 Elm St" None 1 1 None PENDING 100 None) _ _ _ _).
  - reflexivity.
  - vm_compute. reflexivity.
  - vm_compute. left. reflexivity.
  - vm_compute. discriminate.
Defined.

(** ** More on order creation *)

(** X9.  The refusals of [create_order] come in a fixed order and write
    nothing: a caller who is not a consumer gets 403 "Operation not
    permitted for this role", whatever the request; a consumer's request
    without items gets 400 "Order must contain at least one item"; a
    consumer's request with items, one of them with a quantity of zero or
    less, gets 400 "Item quantities must be positive", whether or not its
    items resolve. *)
Theorem X9_create_order_refusals :
  forall m body now u db,
    (User.role u <> CONSUMER ->
     create_order m body now u db
     = (db, Raise (HTTPException 403 Operation_not_permitted_for_this_role)))
    /\ (User.role u = CONSUMER ->
        OrderCreateSchema.items body = [] ->
        create_order m body now u db
        = (db, Raise (HTTPException 400
                        Order_must_contain_at_least_one_item)))
    /\ (User.role u = CONSUMER ->
        forall x, In x (OrderCreateSchema.items body) ->
                  OrderItemCreateSchema.quantity x <= 0 ->
        create_order m body now u db
        = (db, Raise (HTTPException 400 Item_quantities_must_be_positive))).
Proof.
  intros m body now u db. split; [|split].
  - intros Hr.
    assert (role_in (User.role u) [CONSUMER] = false) as Hrole
      by (destruct (User.role u); try reflexivity; contradiction).
    unfold create_order.
    rewrite (bind_raise _ _ _ _ _ (check_role_fails _ u db Hrole)).
    reflexivity.
  - intros Hr Hnil.
    pose proof (create_order_cases m body now u db Hr) as Hc. cbv zeta in Hc.
    rewrite Hnil in Hc. exact Hc.
  - intros Hr x Hx Hq.
    pose proof (create_order_cases m body now u db Hr) as Hc. cbv zeta in Hc.
    assert (existsb (fun item => OrderItemCreateSchema.quantity item <=? 0)
              (OrderCreateSchema.items body) = true) as E.
    { apply existsb_exists. exists x. split; [exact Hx|]. apply Z.leb_le.
      exact Hq. }
    rewrite E in Hc.
    destruct (OrderCreateSchema.items body); [contradiction | exact Hc].
Qed.

(** Ann orders zero soups and a tea of the Cafe at the Deli: the quantity is
    refused before the tea is looked up. *)
Lemma X9_witness :
  create_order 1
    (OrderCreateSchema.mk "1 Elm St" None
       [OrderItemCreateSchema.mk 1 0; OrderItemCreateSchema.mk 3 1])
    100 Sample.ann Sample.db0
  = (Sample.db0, Raise (HTTPException 400 Item_quantities_must_be_positive)).
Proof.
  refine (proj2 (proj2 (X9_create_order_refusals 1
            (OrderCreateSchema.mk "1 Elm St" None
               [OrderItemCreateSchema.mk 1 0; OrderItemCreateSchema.mk 3 1])
            100 Sample.ann Sample.db0)) _ (OrderItemCreateSchema.mk 1 0) _ _).
  - reflexivity.
  - left. reflexivity.
  - simpl. lia.
Defined.

Lemma schema_ok_parts (db : DB) :
  schema_ok db = true <->
  orders_pk db = true /\ items_pk db = true /\ orders_fk db = true
  /\ order_items_fk db = true /\ items_fk db = true.
Proof. unfold schema_ok. rewrite !andb_true_iff. tauto. Qed.

Lemma existsb_key {A : Type} (key : A -> Z) (k : Z) (l : list A) :
  existsb (fun x => key x =? k) l = existsb (fun i => i =? k) (map key l).
Proof.
  induction l as [|x l IH]; simpl; [reflexivity|]. rewrite IH. reflexivity.
Qed.

(** [create_order] either writes nothing or inserts for a consumer's
    request whose items all resolved. *)
Lemma create_order_fst_info (m : Z) (body : OrderCreateSchema.t) (now : Z)
  (u : User.t) (db : DB) :
  fst (create_order m body now u db) = db
  \/ (OrderCreateSchema.items body <> []
      /\ List.length
           (resolved_items db m
              (map OrderItemCreateSchema.item_id (OrderCreateSchema.items body)))
         = List.length
             (map OrderItemCreateSchema.item_id (OrderCreateSchema.items body))
      /\ fst (create_order m body now u db)
         = insert_order (created_order db m body now u)
             (new_order_items (Order.id (created_order db m body now u))
                (next_id (map OrderItem.id (order_items db)))
                (OrderCreateSchema.items body)) db).
Proof.
  destruct (User.role u) eqn:Hr.
  - pose proof (create_order_cases m body now u db Hr) as Hc. cbv zeta in Hc.
    destruct (OrderCreateSchema.items body) as [|x0 l0] eqn:Eitems;
      [rewrite Hc; left; reflexivity|].
    rewrite <- Eitems in *.
    destruct (existsb _ _); [rewrite Hc; left; reflexivity|].
    destruct (Nat.eqb_spec
                (List.length
                   (resolved_items db m
                      (map OrderItemCreateSchema.item_id
                         (OrderCreateSchema.items body))))
                (List.length
                   (map OrderItemCreateSchema.item_id
                      (OrderCreateSchema.items body)))) as [Hlen | Hlen];
      [|rewrite Hc; left; reflexivity].
    destruct (negb (forallb _ _)); [rewrite Hc; left; reflexivity|].
    right. split; [rewrite Eitems; discriminate|].
    split; [exact Hlen | exact (proj1 Hc)].
  - left. unfold create_order.
    rewrite (bind_raise _ _ db db
               (HTTPException 403 Operation_not_permitted_for_this_role))
      by (apply check_role_fails; rewrite Hr; reflexivity).
    reflexivity.
  - left. unfold create_order.
    rewrite (bind_raise _ _ db db
               (HTTPException 403 Operation_not_permitted_for_this_role))
      by (apply check_role_fails; rewrite Hr; reflexivity).
    reflexivity.
Qed.

(** When the items of a non-empty request all resolved, the merchant has a
    catalog item, so it exists. *)
Lemma resolved_merchant_exists (db : DB) (m : Z) (ids : list Z) :
  items_fk db = true -> ids <> [] ->
  List.length (resolved_items db m ids) = List.length ids ->
  existsb (fun x => Merchant.id x =? m) (merchants db) = true.
Proof.
  intros Hfk Hne Hlen.
  destruct (resolved_items db m ids) as [|it l] eqn:Er.
  - destruct ids; [contradiction | discriminate Hlen].
  - assert (In it (resolved_items db m ids)) as Hin
      by (rewrite Er; left; reflexivity).
    unfold resolved_items in Hin. apply filter_In in Hin.
    destruct Hin as [Hin Hc]. apply andb_true_iff in Hc.
    destruct Hc as [_ Hm]. apply Z.eqb_eq in Hm.
    unfold items_fk in Hfk. rewrite forallb_forall in Hfk.
    specialize (Hfk it Hin). rewrite Hm in Hfk. exact Hfk.
Qed.

Lemma belongs_to_exists (db : DB) (m i : Z) :
  belongs_to db m i = true ->
  existsb (fun it => Item.id it =? i) (items db) = true.
Proof.
  unfold belongs_to. intros H. apply existsb_exists in H.
  destruct H as [it [Hin Hc]]. apply andb_true_iff in Hc.
  apply existsb_exists. exists it. tauto.
Qed.

Lemma new_order_items_in (order_id next : Z)
  (l : list OrderItemCreateSchema.t) (r : OrderItem.t) :
  In r (new_order_items order_id next l) ->
  OrderItem.order_id r = order_id
  /\ exists x, In x l /\ OrderItem.item_id r = OrderItemCreateSchema.item_id x.
Proof.
  revert next. induction l as [|x l IH]; intros next; simpl; [contradiction|].
  intros [<- | H].
  - split; [reflexivity|]. exists x. auto.
  - destruct (IH _ H) as [H1 [y [Hy H2]]]. split; [exact H1|].
    exists y. auto.
Qed.

(** The insertion of [create_order] keeps the constraints. *)
Lemma insert_order_schema_ok (m : Z) (body : OrderCreateSchema.t) (now : Z)
  (u : User.t) (db : DB) :
  schema_ok db = true -> registered db u = true ->
  OrderCreateSchema.items body <> [] ->
  List.length
    (resolved_items db m
       (map OrderItemCreateSchema.item_id (OrderCreateSchema.items body)))
  = List.length
      (map OrderItemCreateSchema.item_id (OrderCreateSchema.items body)) ->
  schema_ok
    (insert_order (created_order db m body now u)
       (new_order_items (Order.id (created_order db m body now u))
          (next_id (map OrderItem.id (order_items db)))
          (OrderCreateSchema.items body)) db) = true.
Proof.
  intros Hok Hreg Hne Hlen.
  apply schema_ok_parts in Hok. destruct Hok as [Hpk [Hipk [Hfk [Hifk Hitfk]]]].
  apply schema_ok_parts.
  split; [apply insert_order_pk; [reflexivity | exact Hpk]|].
  split; [exact Hipk|].
  split.
  { unfold orders_fk, insert_order. simpl. rewrite forallb_app. simpl.
    unfold orders_fk in Hfk. rewrite Hfk. simpl.
    rewrite (resolved_merchant_exists db m
               (map OrderItemCreateSchema.item_id
                  (OrderCreateSchema.items body)) Hitfk);
      [| intro Hn; apply map_eq_nil in Hn; contradiction | exact Hlen].
    unfold registered in Hreg. rewrite Hreg. reflexivity. }
  split; [|exact Hitfk].
  unfold order_items_fk, insert_order. simpl. rewrite forallb_app.
  apply andb_true_iff. split.
  - unfold order_items_fk in Hifk. rewrite forallb_forall in *.
    intros oi Hoi. specialize (Hifk oi Hoi). apply andb_true_iff in Hifk.
    destruct Hifk as [H1 H2]. rewrite H1. simpl. rewrite existsb_app.
    rewrite H2. reflexivity.
  - apply forallb_forall. intros r Hr.
    destruct (new_order_items_in _ _ _ _ Hr) as [Hoid [x [Hx Hid]]].
    apply andb_true_iff. split.
    + rewrite Hid.
      apply (belongs_to_exists db m).
      apply (same_length_all_resolved db m _ Hipk Hlen).
      apply in_map. exact Hx.
    + rewrite existsb_app. simpl. rewrite Hoid, Z.eqb_refl. simpl.
      apply orb_true_r.
Qed.

(** X10.  The two handlers that write orders keep the schema's constraints:
    from a database with unique order and item keys in which every order
    references a merchant and a consumer, every order item an item and an
    order, and every item a merchant, [create_order] by a registered caller
    and [update_order_status] lead to such a database again, whether they
    are served or refused. *)
Theorem X10_writes_keep_schema :
  forall db,
    schema_ok db = true ->
    (forall m body now u,
        registered db u = true ->
        schema_ok (fst (create_order m body now u db)) = true)
    /\ (forall m oid t now u,
          schema_ok (fst (update_order_status m oid t now u db)) = true).
Proof.
  intros db Hok. split.
  - intros m body now u Hreg.
    destruct (create_order_fst_info m body now u db)
      as [-> | [Hne [Hlen ->]]]; [exact Hok|].
    exact (insert_order_schema_ok m body now u db Hok Hreg Hne Hlen).
  - intros m oid t now u.
    destruct (update_order_status_fst m oid t now u db)
      as [-> | [o [Hin [_ ->]]]]; [exact Hok|].
    apply schema_ok_parts in Hok.
    destruct Hok as [Hpk [Hipk [Hfk [Hifk Hitfk]]]].
    apply schema_ok_parts.
    split; [unfold orders_pk; rewrite update_order_ids; exact Hpk|].
    split; [exact Hipk|].
    split.
    { unfold orders_fk, update_order in *. simpl.
      rewrite forallb_forall in *. intros x Hx. apply in_map_iff in Hx.
      destruct Hx as [y [Hy Hyin]].
      destruct (Order.id y =? Order.id (apply_status t now u o)); subst x.
      - destruct (apply_status_frame t now u o) as [_ [_ [F3 [F4 _]]]].
        cbv zeta in F3, F4. rewrite F3, F4. exact (Hfk o Hin).
      - exact (Hfk y Hyin). }
    split; [|exact Hitfk].
    unfold order_items_fk in *. rewrite forallb_forall in *.
    intros oi Hoi. specialize (Hifk oi Hoi).
    rewrite (existsb_key Order.id) in *.
    rewrite update_order_ids. exact Hifk.
Qed.

(** The sample database after Ann's order. *)
Lemma X10_witness :
  schema_ok (fst (create_order 1 Sample.body 100 Sample.ann Sample.db0)) = true.
Proof.
  refine (proj1 (X10_writes_keep_schema Sample.db0 _) 1 Sample.body 100
            Sample.ann _).
  - vm_compute. reflexivity.
  - vm_compute. reflexivity.
Defined.

(** The line items of a new order are the rows inserted for it. *)
Lemma new_order_line_items (db : DB) (o : Order.t) (rows : list OrderItem.t) :
  order_items_fk db = true ->
  Order.id o = next_id (map Order.id (orders db)) ->
  Forall (fun r => OrderItem.order_id r = Order.id o) rows ->
  line_items (insert_order o rows db) o = rows.
Proof.
  intros Hfk Hid Hrows. unfold line_items, insert_order. simpl.
  rewrite filter_app.
  assert (filter (fun oi => OrderItem.order_id oi =? Order.id o)
            (order_items db) = []) as Hold.
  { unfold order_items_fk in Hfk. rewrite forallb_forall in Hfk.
    induction (order_items db) as [|oi l IH]; simpl; [reflexivity|].
    destruct (OrderItem.order_id oi =? Order.id o) eqn:E.
    - exfalso. apply Z.eqb_eq in E.
      specialize (Hfk oi (or_introl eq_refl)). apply andb_true_iff in Hfk.
      destruct Hfk as [_ Hfk].
      rewrite (existsb_key Order.id) in Hfk. apply existsb_exists in Hfk.
      destruct Hfk as [i [Hi Hik]]. apply Z.eqb_eq in Hik. subst i.
      rewrite E, Hid in Hi. exact (next_id_not_in _ Hi).
    - apply IH. intros x Hx. apply Hfk. right. exact Hx. }
  rewrite Hold. simpl.
  induction Hrows as [|r rows Hr _ IH]; simpl; [reflexivity|].
  rewrite Hr, Z.eqb_refl, IH. reflexivity.
Qed.

(** The amounts of the inserted rows are the amounts of the request. *)
Lemma new_order_items_amounts (db db' : DB) (order_id next : Z)
  (l : list OrderItemCreateSchema.t) :
  items db' = items db ->
  map (line_amount db') (new_order_items order_id next l)
  = map (fun x =>
           option_map
             (fun p =>
                (float_of_int (OrderItemCreateSchema.quantity x) * p)%float)
             (unit_price db (OrderItemCreateSchema.item_id x))) l.
Proof.
  intros Hitems. revert next. induction l as [|x l IH]; intros next; simpl;
    [reflexivity|].
  rewrite IH. unfold line_amount at 1, unit_price. simpl. rewrite Hitems.
  reflexivity.
Qed.

Lemma request_amounts_defined (db : DB) (m : Z)
  (l : list OrderItemCreateSchema.t) :
  (forall x, In x l ->
             belongs_to db m (OrderItemCreateSchema.item_id x) = true) ->
  exists amounts,
    all_some
      (map (fun x =>
              option_map
                (fun p =>
                   (float_of_int (OrderItemCreateSchema.quantity x) * p)%float)
                (unit_price db (OrderItemCreateSchema.item_id x))) l)
    = Some amounts.
Proof.
  induction l as [|x l IH]; intros Hall; simpl.
  - eexists. reflexivity.
  - destruct IH as [am Ham]; [intros y Hy; apply Hall; right; exact Hy|].
    pose proof (belongs_to_exists db m _ (Hall x (or_introl eq_refl))) as Hex.
    apply (find_key_exists Item.id) in Hex. destruct Hex as [it [Hf _]].
    unfold unit_price in *. rewrite Hf. simpl. rewrite Ham. simpl.
    eexists. reflexivity.
Qed.

Lemma sqlite_integer_spec (z : Z) :
  sqlite_integer z = true <-> - 2 ^ 63 <= z < 2 ^ 63.
Proof.
  unfold sqlite_integer. rewrite andb_true_iff, Z.leb_le, Z.ltb_lt.
  reflexivity.
Qed.

Lemma quantities_stored (l : list OrderItemCreateSchema.t) :
  (forall x, In x l -> 0 < OrderItemCreateSchema.quantity x) ->
  negb (forallb (fun item =>
                   sqlite_integer (OrderItemCreateSchema.quantity item)) l)
  = existsb (fun item => 2 ^ 63 <=? OrderItemCreateSchema.quantity item) l.
Proof.
  induction l as [|x l IH]; intros Hpos; cbn [forallb existsb];
    [reflexivity|].
  rewrite negb_andb, IH by (intros y Hy; apply Hpos; right; exact Hy).
  f_equal. specialize (Hpos x (or_introl eq_refl)).
  destruct (sqlite_integer (OrderItemCreateSchema.quantity x)) eqn:E;
    cbn [negb].
  - apply sqlite_integer_spec in E. symmetry. apply Z.leb_gt. lia.
  - destruct (Z.leb_spec (2 ^ 63) (OrderItemCreateSchema.quantity x));
      [reflexivity|].
    assert (sqlite_integer (OrderItemCreateSchema.quantity x) = true)
      by (apply sqlite_integer_spec; lia).
    congruence.
Qed.

(** X11.  A valid creation request is served.  From a database that
    satisfies the schema's constraints, take a registered consumer's
    request with at least one item, positive quantities and pairwise
    distinct item ids that all belong to the merchant.  When every quantity fits the 64-bit
    [INTEGER] column, the request returns an order and stores it with its
    line items; the line items are the requested pairs, in request order,
    and the total is the sum over the requested pairs of quantity times the
    catalog's unit price.  When some quantity is 2^63 or more, the commit
    raises [OverflowError] and nothing is stored. *)
Theorem X11_valid_request_served :
  forall m body now u db,
    schema_ok db = true ->
    registered db u = true ->
    User.role u = CONSUMER ->
    OrderCreateSchema.items body <> [] ->
    (forall x, In x (OrderCreateSchema.items body) ->
               0 < OrderItemCreateSchema.quantity x) ->
    NoDup (map OrderItemCreateSchema.item_id (OrderCreateSchema.items body)) ->
    (forall x, In x (OrderCreateSchema.items body) ->
               belongs_to db m (OrderItemCreateSchema.item_id x) = true) ->
    ((forall x, In x (OrderCreateSchema.items body) ->
                OrderItemCreateSchema.quantity x < 2 ^ 63) ->
     exists v,
       snd (create_order m body now u db) = Ok v
       /\ In (OrderRead.order v) (orders (fst (create_order m body now u db)))
       /\ line_items (fst (create_order m body now u db)) (OrderRead.order v)
          = OrderRead.items v
       /\ map (fun r => (OrderItem.item_id r, OrderItem.quantity r))
            (OrderRead.items v)
          = map (fun x => (OrderItemCreateSchema.item_id x,
                           OrderItemCreateSchema.quantity x))
              (OrderCreateSchema.items body)
       /\ request_total db body = Some (OrderRead.total v))
    /\ ((exists x, In x (OrderCreateSchema.items body)
                   /\ 2 ^ 63 <= OrderItemCreateSchema.quantity x) ->
        create_order m body now u db = (db, Raise OverflowError)).
Proof.
  intros m body now u db Hok _ Hr Hne Hpos Hnd Hall.
  apply schema_ok_parts in Hok. destruct Hok as [Hpk [Hipk [Hfk [Hifk Hitfk]]]].
  set (ids := map OrderItemCreateSchema.item_id (OrderCreateSchema.items body))
    in *.
  assert (List.length (resolved_items db m ids) = List.length ids) as Hlen.
  { apply all_resolved_same_length; [exact Hipk | exact Hnd |].
    intros i Hi. unfold ids in Hi. apply in_map_iff in Hi.
    destruct Hi as [x [<- Hx]]. exact (Hall x Hx). }
  pose proof (create_order_cases m body now u db Hr) as Hc. cbv zeta in Hc.
  remember (OrderCreateSchema.items body) as its eqn:Eits in Hc.
  destruct its as [|x0 l0]; [symmetry in Eits; contradiction|].
  rewrite Eits in Hc. clear Eits x0 l0.
  rewrite (positive_quantities _ Hpos) in Hc. fold ids in Hc.
  rewrite Hlen, Nat.eqb_refl in Hc.
  rewrite (quantities_stored _ Hpos) in Hc.
  split.
  2:{ intros [x [Hx Hq]].
      assert (existsb (fun item => 2 ^ 63 <=? OrderItemCreateSchema.quantity item)
                (OrderCreateSchema.items body) = true) as E
        by (apply existsb_exists; exists x; split;
            [exact Hx | apply Z.leb_le; exact Hq]).
      rewrite E in Hc. exact Hc. }
  intros Hfit.
  assert (existsb (fun item => 2 ^ 63 <=? OrderItemCreateSchema.quantity item)
            (OrderCreateSchema.items body) = false) as E.
  { apply not_true_is_false. intros Hex. apply existsb_exists in Hex.
    destruct Hex as [x [Hx Hq]]. apply Z.leb_le in Hq.
    specialize (Hfit x Hx). lia. }
  rewrite E in Hc.
  set (o := created_order db m body now u) in *.
  set (rows := new_order_items (Order.id o)
                 (next_id (map OrderItem.id (order_items db)))
                 (OrderCreateSchema.items body)) in *.
  set (db' := insert_order o rows db) in *.
  destruct (new_order_items_spec (Order.id o)
              (next_id (map OrderItem.id (order_items db)))
              (OrderCreateSchema.items body)) as [Hpairs [Hoid _]].
  fold rows in Hpairs, Hoid.
  assert (line_items db' o = rows) as Hlines
    by (apply new_order_line_items; [exact Hifk | reflexivity | exact Hoid]).
  destruct (request_amounts_defined db m _ Hall) as [amounts Ham].
  assert (order_total db' o = Ok (fold_left PrimFloat.add amounts 0%float))
    as Htot.
  { apply order_total_spec. unfold total_spec. rewrite Hlines. unfold rows.
    rewrite (new_order_items_amounts db db') by reflexivity.
    rewrite Ham. reflexivity. }
  destruct Hc as [Hfst [Hv [_ Hex]]].
  destruct Hex as [v Hsnd].
  { assert (existsb (fun x => Merchant.id x =? m) (merchants db) = true) as Hm
      by (apply (resolved_merchant_exists db m ids Hitfk);
          [intro Hn; apply map_eq_nil in Hn; contradiction | exact Hlen]).
    apply (find_key_exists Merchant.id) in Hm. destruct Hm as [mch [Hf _]].
    unfold Order_merchant. simpl. rewrite Hf. discriminate. }
  { rewrite Htot. discriminate. }
  exists v. split; [exact Hsnd|].
  destruct (Hv v Hsnd) as [Hveq [_ [_ Ht]]].
  assert (OrderRead.order v = o) as Hvo by (rewrite Hveq; reflexivity).
  assert (OrderRead.items v = rows) as Hvi.
  { rewrite Hveq. simpl. unfold Order_items.
    change (filter (fun oi => OrderItem.order_id oi =? Order.id o)
              (order_items db')) with (line_items db' o).
    exact Hlines. }
  rewrite Hfst, Hvo, Hvi.
  split; [unfold db', insert_order; simpl; apply in_or_app; right; left;
          reflexivity|].
  split; [exact Hlines|].
  split; [exact Hpairs|].
  unfold request_total. rewrite Ham. simpl. rewrite Htot in Ht.
  injection Ht as <-. reflexivity.
Qed.

(** Ann's order of two soups and three rolls is served; her order of 2^63
    soups fails at the commit. *)
Lemma X11_witness :
  (exists v,
      snd (create_order 1 Sample.body 100 Sample.ann Sample.db0) = Ok v
      /\ request_total Sample.db0 Sample.body = Some (OrderRead.total v))
  /\ create_order 1
       (OrderCreateSchema.mk "1 Elm St" None
          [OrderItemCreateSchema.mk 1 (2 ^ 63)]) 100 Sample.ann Sample.db0
     = (Sample.db0, Raise OverflowError).
Proof.
  split.
  - destruct (X11_valid_request_served 1 Sample.body 100 Sample.ann
                Sample.db0) as [H _].
    + vm_compute. reflexivity.
    + vm_compute. reflexivity.
    + reflexivity.
    + discriminate.
    + intros x Hx. vm_compute in Hx.
      destruct Hx as [<- | [<- | []]]; vm_compute; reflexivity.
    + vm_compute. repeat constructor; simpl; intuition discriminate.
    + intros x Hx. vm_compute in Hx.
      destruct Hx as [<- | [<- | []]]; vm_compute; reflexivity.
    + destruct H as [v [Hv [_ [_ [_ Ht]]]]].
      * intros x Hx. vm_compute in Hx.
        destruct Hx as [<- | [<- | []]]; vm_compute; reflexivity.
      * exists v. split; [exact Hv | exact Ht].
  - destruct (X11_valid_request_served 1
                (OrderCreateSchema.mk "1 Elm St" None
                   [OrderItemCreateSchema.mk 1 (2 ^ 63)]) 100 Sample.ann
                Sample.db0) as [_ H].
    + vm_compute. reflexivity.
    + vm_compute. reflexivity.
    + reflexivity.
    + discriminate.
    + intros x [<- | []]. vm_compute. reflexivity.
    + vm_compute. repeat constructor; simpl; intuition discriminate.
    + intros x [<- | []]. vm_compute. reflexivity.
    + apply H. eexists. split; [left; reflexivity|].
      vm_compute. discriminate.
Defined.

(** ** The catalog handlers of [routers/merchants.py] *)

Lemma item_lookup_inv (l : list Item.t) (i m : Z) (it : Item.t) :
  filter (fun x => (Item.id x =? i) && (Item.merchant_id x =? m)) l = [it] ->
  In it l /\ Item.id it = i /\ Item.merchant_id it = m.
Proof.
  intros H.
  assert (In it (filter (fun x => (Item.id x =? i)
                                  && (Item.merchant_id x =? m)) l)) as Hin
    by (rewrite H; left; reflexivity).
  apply filter_In in Hin. destruct Hin as [Hin Hb].
  apply andb_true_iff in Hb. destruct Hb as [H1 H2].
  apply Z.eqb_eq in H1. apply Z.eqb_eq in H2. auto.
Qed.

Lemma item_lookup_absent (db : DB) (m i : Z) :
  belongs_to db m i = false ->
  filter (fun x => (Item.id x =? i) && (Item.merchant_id x =? m)) (items db)
  = [].
Proof.
  unfold belongs_to. intros H.
  pose proof (filter_nonempty
                (fun x => (Item.id x =? i) && (Item.merchant_id x =? m))
                (items db)) as Hf.
  rewrite H in Hf.
  destruct (filter _ (items db)); [reflexivity | discriminate].
Qed.

Lemma item_lookup_found (db : DB) (m i : Z) :
  items_pk db = true -> belongs_to db m i = true ->
  exists it,
    filter (fun x => (Item.id x =? i) && (Item.merchant_id x =? m)) (items db)
    = [it].
Proof.
  unfold items_pk, belongs_to. intros Hpk Hb.
  apply nodupb_NoDup in Hpk. apply existsb_exists in Hb.
  destruct Hb as [it [Hin Hb]]. apply andb_true_iff in Hb.
  destruct Hb as [H1 H2]. apply Z.eqb_eq in H1. apply Z.eqb_eq in H2.
  exists it. rewrite filter_and. subst i.
  rewrite (filter_key_unique Item.id _ it Hpk Hin). simpl.
  subst m. rewrite Z.eqb_refl. reflexivity.
Qed.

Lemma item_lookup_belongs (db : DB) (m i : Z) (it : Item.t) :
  filter (fun x => (Item.id x =? i) && (Item.merchant_id x =? m)) (items db)
  = [it] ->
  belongs_to db m i = true.
Proof.
  intros H. unfold belongs_to. rewrite <- filter_nonempty, H. reflexivity.
Qed.

(** The guard of the partner's catalog handlers: the role check of
    [PartnerUser], then [check_merchant_owner]. *)
Lemma partner_guard_inv {A : Type} (m : Z) (u : User.t) (k : M A)
  (db db' : DB) (a : A) :
  (current_user <- check_role [PARTNER] u ;;
   check_merchant_owner m current_user ;;; k) db = (db', Ok a) ->
  exists mch, check_merchant_owner m u db = (db, Ok mch) /\ k db = (db', Ok a).
Proof.
  intros H. apply bind_inv in H. destruct H as [db1 [cu [H1 H]]].
  apply check_role_inv in H1. destruct H1 as [-> ->].
  apply bind_inv in H. destruct H as [db2 [mch [H2 H]]].
  pose proof (check_merchant_owner_inv _ _ _ _ _ H2) as ->.
  exists mch. split; assumption.
Qed.

Lemma partner_guard_ok {A : Type} (m : Z) (u : User.t) (k : M A)
  (db : DB) (mch : Merchant.t) :
  check_merchant_owner m u db = (db, Ok mch) ->
  (current_user <- check_role [PARTNER] u ;;
   check_merchant_owner m current_user ;;; k) db = k db.
Proof.
  intros H. destruct (check_merchant_owner_ok _ _ _ _ _ H) as [_ [Hr _]].
  rewrite (bind_ok _ _ db db u)
    by (apply check_role_passes; rewrite Hr; reflexivity).
  rewrite (bind_ok _ _ db db mch) by exact H. reflexivity.
Qed.

Lemma partner_guard_role {A : Type} (m : Z) (u : User.t) (k : M A) (db : DB) :
  User.role u <> PARTNER ->
  (current_user <- check_role [PARTNER] u ;;
   check_merchant_owner m current_user ;;; k) db
  = (db, Raise (HTTPException 403 Operation_not_permitted_for_this_role)).
Proof.
  intros Hr. apply bind_raise. apply check_role_fails.
  destruct (User.role u); try reflexivity. contradiction.
Qed.

Lemma partner_guard_raise {A : Type} (m : Z) (u : User.t) (k : M A) (db : DB)
  (e : Exception) :
  User.role u = PARTNER ->
  snd (check_merchant_owner m u db) = Raise e ->
  (current_user <- check_role [PARTNER] u ;;
   check_merchant_owner m current_user ;;; k) db = (db, Raise e).
Proof.
  intros Hr He.
  rewrite (bind_ok _ _ db db u)
    by (apply check_role_passes; rewrite Hr; reflexivity).
  apply bind_raise.
  pose proof (check_merchant_owner_fst m u db) as Hf.
  destruct (check_merchant_owner m u db) as [d r]. simpl in *.
  subst. reflexivity.
Qed.

Lemma find_update_item (l : list Item.t) (it' : Item.t) (j : Z) :
  find (fun it => Item.id it =? j)
    (map (fun it => if Item.id it =? Item.id it' then it' else it) l)
  = if j =? Item.id it'
    then option_map (fun _ => it') (find (fun it => Item.id it =? j) l)
    else find (fun it => Item.id it =? j) l.
Proof.
  induction l as [|a l IH]; simpl.
  - destruct (j =? Item.id it'); reflexivity.
  - rewrite IH.
    destruct (Z.eqb_spec (Item.id a) (Item.id it')) as [E1|E1];
      destruct (Z.eqb_spec j (Item.id it')) as [E2|E2];
      destruct (Z.eqb_spec (Item.id a) j) as [E3|E3];
      destruct (Z.eqb_spec (Item.id it') j) as [E4|E4];
      simpl; try reflexivity; try lia.
Qed.

(** [update_merchant_item] once the owner check has passed and the lookup
    has found the item: the commit, then the refresh. *)
Lemma update_merchant_item_found (m i : Z) (upd : ItemCreateSchema.t)
  (u : User.t) (db : DB) (mch : Merchant.t) (x : Item.t) :
  check_merchant_owner m u db = (db, Ok mch) ->
  filter (fun y => (Item.id y =? i) && (Item.merchant_id y =? m)) (items db)
  = [x] ->
  update_merchant_item m i upd u db
  = if sqlite_real (ItemCreateSchema.price upd)
    then (update_item (stored_item (item_of i upd m)) db,
          scalar_one
            (filter (fun y => Item.id y =? i)
               (items (update_item (stored_item (item_of i upd m)) db))))
    else (db, Raise IntegrityError).
Proof.
  intros Hm Hx. destruct (item_lookup_inv _ _ _ _ Hx) as [_ [Hi Hmm]].
  unfold update_merchant_item. rewrite (partner_guard_ok _ _ _ _ _ Hm).
  rewrite (bind_ok _ _ db db [x]) by (unfold execute; rewrite Hx; reflexivity).
  rewrite (bind_ok _ _ db db (Some x)) by reflexivity.
  cbv zeta. cbn [Item.price]. rewrite Hi, Hmm.
  fold (item_of i upd m).
  destruct (sqlite_real (ItemCreateSchema.price upd)).
  - rewrite (bind_ok _ _ db db tt) by reflexivity.
    rewrite (bind_ok _ _ db (update_item (stored_item (item_of i upd m)) db) tt)
      by reflexivity.
    reflexivity.
  - apply bind_raise. reflexivity.
Qed.

Lemma update_merchant_item_served (m i : Z) (upd : ItemCreateSchema.t)
  (u : User.t) (db db' : DB) (it : Item.t) :
  update_merchant_item m i upd u db = (db', Ok it) ->
  (exists mch, check_merchant_owner m u db = (db, Ok mch))
  /\ belongs_to db m i = true
  /\ sqlite_real (ItemCreateSchema.price upd) = true
  /\ it = stored_item (item_of i upd m)
  /\ db' = update_item it db.
Proof.
  intros H. pose proof H as H0. unfold update_merchant_item in H0.
  apply partner_guard_inv in H0. destruct H0 as [mch [Hm H0]].
  split; [exists mch; exact Hm|].
  unfold bind at 1 2 in H0. unfold execute at 1 in H0. unfold lift at 1 in H0.
  destruct (filter (fun x => (Item.id x =? i) && (Item.merchant_id x =? m))
              (items db)) as [|x [|y l]] eqn:Ef; simpl in H0; try discriminate.
  clear H0. rewrite (update_merchant_item_found _ _ _ _ _ _ _ Hm Ef) in H.
  split; [exact (item_lookup_belongs _ _ _ _ Ef)|].
  destruct (sqlite_real (ItemCreateSchema.price upd)); [|discriminate].
  split; [reflexivity|]. injection H as Hdb Hs.
  apply (requery_replaced Item.id (stored_item (item_of i upd m))) in Hs.
  subst it. split; [reflexivity | symmetry; exact Hdb].
Qed.

(** X12.  Repricing an item.  [update_merchant_item] is refused with 403
    for a caller who is no partner, with the error of the owner check when
    that fails, and with 404 "Item not found" when the merchant has no item
    of the requested id (an id the database can be asked for: a 64-bit
    integer).  With unique item ids, the owner's update of an item of the
    merchant is served when the new price is a number, and fails at the
    commit with [IntegrityError], storing nothing, when it is NaN.  A
    served update overwrites name, description and price of that item and
    nothing else: the price the catalog then has is the requested one (a
    zero without its sign), the item keeps its id and merchant, every other
    item keeps its price, users, merchants, orders and order items are
    untouched, and the total of an order with no line of that item is what
    it was. *)
Theorem X12_item_update_reprices :
  forall m i upd u db,
    (User.role u <> PARTNER ->
     update_merchant_item m i upd u db
     = (db, Raise (HTTPException 403 Operation_not_permitted_for_this_role)))
    /\ (forall e, User.role u = PARTNER ->
                  snd (check_merchant_owner m u db) = Raise e ->
                  update_merchant_item m i upd u db = (db, Raise e))
    /\ (forall mch, check_merchant_owner m u db = (db, Ok mch) ->
                    sqlite_integer i = true ->
                    belongs_to db m i = false ->
                    update_merchant_item m i upd u db
                    = (db, Raise (HTTPException 404 Item_not_found)))
    /\ (forall mch, items_pk db = true ->
                    check_merchant_owner m u db = (db, Ok mch) ->
                    belongs_to db m i = true ->
                    update_merchant_item m i upd u db
                    = if sqlite_real (ItemCreateSchema.price upd)
                      then (update_item (stored_item (item_of i upd m)) db,
                            Ok (stored_item (item_of i upd m)))
                      else (db, Raise IntegrityError))
    /\ (forall db' it,
          update_merchant_item m i upd u db = (db', Ok it) ->
          (exists mch, check_merchant_owner m u db = (db, Ok mch))
          /\ belongs_to db m i = true
          /\ PrimFloat.is_nan (ItemCreateSchema.price upd) = false
          /\ it = Item.mk i (ItemCreateSchema.name upd)
                    (ItemCreateSchema.description upd)
                    (stored_real (ItemCreateSchema.price upd)) m
          /\ users db' = users db /\ merchants db' = merchants db
          /\ orders db' = orders db /\ order_items db' = order_items db
          /\ map Item.id (items db') = map Item.id (items db)
          /\ (schema_ok db = true -> schema_ok db' = true)
          /\ unit_price db' i
             = Some (stored_real (ItemCreateSchema.price upd))
          /\ (forall j, j <> i -> unit_price db' j = unit_price db j)
          /\ (forall o,
                (forall oi, In oi (Order_items db o) ->
                            OrderItem.item_id oi <> i) ->
                order_total db' o = order_total db o)).
Proof.
  intros m i upd u db. split; [|split; [|split; [|split]]].
  - intros Hr. apply partner_guard_role. exact Hr.
  - intros e Hr He. apply partner_guard_raise; assumption.
  - intros mch Hm _ Hb. unfold update_merchant_item.
    rewrite (partner_guard_ok _ _ _ _ _ Hm).
    unfold bind, execute, lift. rewrite (item_lookup_absent _ _ _ Hb).
    reflexivity.
  - intros mch Hpk Hm Hb.
    destruct (item_lookup_found _ _ _ Hpk Hb) as [x Hx].
    destruct (item_lookup_inv _ _ _ _ Hx) as [Hin [Hi _]].
    rewrite (update_merchant_item_found _ _ _ _ _ _ _ Hm Hx).
    destruct (sqlite_real (ItemCreateSchema.price upd)); [|reflexivity].
    f_equal. unfold update_item. cbn [items].
    unfold items_pk in Hpk. apply nodupb_NoDup in Hpk.
    pose proof (filter_replaced Item.id (stored_item (item_of i upd m))
                  (items db) Hpk) as Hf.
    cbn [stored_item item_of Item.id] in Hf. cbn [stored_item item_of Item.id].
    rewrite Hf; [reflexivity|]. rewrite <- Hi. apply in_map. exact Hin.
  - intros db' it H.
    destruct (update_merchant_item_served _ _ _ _ _ _ _ H)
      as [Hm [Hb [Hreal [Hit Hdb]]]].
    split; [exact Hm|]. split; [exact Hb|].
    split; [unfold sqlite_real in Hreal; apply negb_true_iff; exact Hreal|].
    split; [exact Hit|].
    assert (Item.id it = i) as Hid by (rewrite Hit; reflexivity).
    assert (Item.merchant_id it = m) as Hmid by (rewrite Hit; reflexivity).
    assert (exists x, find (fun y => Item.id y =? i) (items db) = Some x)
      as [x Hx].
    { assert (existsb (fun y => Item.id y =? i) (items db) = true) as Hex
        by (apply (belongs_to_exists db m); exact Hb).
      apply (find_key_exists Item.id) in Hex. destruct Hex as [x [Hx _]].
      exists x. exact Hx. }
    assert (forall j, find (fun y => Item.id y =? j) (items db')
                      = if j =? i
                        then option_map (fun _ => it)
                               (find (fun y => Item.id y =? j) (items db))
                        else find (fun y => Item.id y =? j) (items db))
      as Hfind.
    { intros j. rewrite Hdb. unfold update_item. simpl.
      rewrite find_update_item, Hid. reflexivity. }
    assert (map Item.id
              (map (fun a => if Item.id a =? Item.id it then it else a)
                 (items db))
            = map Item.id (items db)) as Hids.
    { rewrite map_map. apply map_ext. intros a.
      destruct (Z.eqb_spec (Item.id a) (Item.id it)); congruence. }
    split; [rewrite Hdb; reflexivity|]. split; [rewrite Hdb; reflexivity|].
    split; [rewrite Hdb; reflexivity|]. split; [rewrite Hdb; reflexivity|].
    split; [rewrite Hdb; exact Hids|].
    split; [|split; [|split]].
    + intros Hok. apply schema_ok_parts in Hok.
      destruct Hok as [Hpk [Hipk [Hfk [Hifk Hitfk]]]].
      destruct Hm as [mch Hm].
      destruct (check_merchant_owner_ok _ _ _ _ _ Hm)
        as [_ [_ [Hmin [Hmid' _]]]].
      apply schema_ok_parts. rewrite Hdb.
      unfold orders_pk, items_pk, orders_fk, order_items_fk, items_fk,
        update_item in *. simpl.
      split; [exact Hpk|]. split; [rewrite Hids; exact Hipk|].
      split; [exact Hfk|]. split.
      * rewrite forallb_forall in *. intros oi Hin.
        specialize (Hifk oi Hin). apply andb_true_iff in Hifk.
        destruct Hifk as [H1 H2]. apply andb_true_iff. split; [|exact H2].
        rewrite (existsb_key Item.id) in *. rewrite Hids. exact H1.
      * rewrite forallb_forall in *. intros a Ha. apply in_map_iff in Ha.
        destruct Ha as [a0 [Ha0 Hin]].
        destruct (Item.id a0 =? Item.id it).
        -- subst a. rewrite Hmid. apply existsb_exists. exists mch.
           split; [exact Hmin | apply Z.eqb_eq; exact Hmid'].
        -- subst a. apply Hitfk. exact Hin.
    + unfold unit_price. rewrite Hfind, Z.eqb_refl, Hx. simpl.
      rewrite Hit. reflexivity.
    + intros j Hj. unfold unit_price. rewrite Hfind.
      destruct (Z.eqb_spec j i); [contradiction | reflexivity].
    + intros o Ho. unfold order_total.
      assert (Order_items db' o = Order_items db o) as Hoi
        by (rewrite Hdb; reflexivity).
      rewrite Hoi. apply sum_line_items_ext. intros oi Hin.
      unfold OrderItem_item. rewrite Hfind.
      destruct (Z.eqb_spec (OrderItem.item_id oi) i) as [E|E];
        [exfalso; exact (Ho oi Hin E) | reflexivity].
Qed.

(** Pat raises the price of the soup; the roll keeps its price.  Asked to
    reprice an item the Deli does not sell, the handler answers 404; asked
    for a price that is no number, the commit fails. *)
Lemma X12_witness :
  unit_price Sample.db_repriced 1 = Some 3%float
  /\ unit_price Sample.db_repriced 2 = unit_price Sample.db_pending 2
  /\ orders Sample.db_repriced = orders Sample.db_pending
  /\ update_merchant_item 1 3 (ItemCreateSchema.mk "Tea" None 3%float)
       Sample.pat Sample.db_pending
     = (Sample.db_pending, Raise (HTTPException 404 Item_not_found))
  /\ update_merchant_item 1 1 (ItemCreateSchema.mk "Soup" None nan)
       Sample.pat Sample.db_pending
     = (Sample.db_pending, Raise IntegrityError).
Proof.
  destruct (X12_item_update_reprices 1 1
              (ItemCreateSchema.mk "Soup" None 3%float) Sample.pat
              Sample.db_pending) as [_ [_ [_ [_ H]]]].
  destruct (H Sample.db_repriced (Item.mk 1 "Soup" None 3%float 1))
    as [_ [_ [_ [_ [_ [_ [Ho [_ [_ [_ [Hp [Hq _]]]]]]]]]]]].
  - vm_compute. reflexivity.
  - split; [exact Hp|]. split; [apply Hq; lia|]. split; [exact Ho|].
    split.
    + destruct (X12_item_update_reprices 1 3
                  (ItemCreateSchema.mk "Tea" None 3%float) Sample.pat
                  Sample.db_pending) as [_ [_ [H3 _]]].
      apply (H3 (Merchant.mk 1 "Deli" None "Main St" 3));
        vm_compute; reflexivity.
    + destruct (X12_item_update_reprices 1 1
                  (ItemCreateSchema.mk "Soup" None nan) Sample.pat
                  Sample.db_pending) as [_ [_ [_ [H4 _]]]].
      apply (H4 (Merchant.mk 1 "Deli" None "Main St" 3));
        vm_compute; reflexivity.
Defined.

Lemma find_key_absent {A : Type} (key : A -> Z) (l : list A) (k : Z) :
  ~ In k (map key l) -> find (fun y => key y =? k) l = None.
Proof.
  induction l as [|a l IH]; simpl; intros H; [reflexivity|].
  destruct (Z.eqb_spec (key a) k) as [E|E]; [exfalso; apply H; left; exact E|].
  apply IH. intro Hin. apply H. right. exact Hin.
Qed.

Lemma find_key_app {A : Type} (key : A -> Z) (l : list A) (x : A) (k : Z) :
  find (fun y => key y =? k) (l ++ [x])
  = match find (fun y => key y =? k) l with
    | Some y => Some y
    | None => if key x =? k then Some x else None
    end.
Proof.
  induction l as [|a l IH]; simpl; [reflexivity|].
  destruct (key a =? k); [reflexivity | exact IH].
Qed.






Lemma filter_fresh_key {A : Type} (key : A -> Z) (p : A -> bool)
  (l : list A) (x : A) :
  ~ In (key x) (map key l) -> p x = true ->
  filter (fun y => (key y =? key x) && p y) (l ++ [x]) = [x].
Proof.
  intros Hf Hp. rewrite filter_app, filter_and.
  rewrite (filter_key_absent key l (key x) Hf). simpl.
  rewrite Z.eqb_refl, Hp. reflexivity.
Qed.

(** [create_merchant_item] once the owner check has passed: the commit,
    then the refresh, which finds the one row with the fresh id. *)
Lemma create_merchant_item_granted (m : Z) (item : ItemCreateSchema.t)
  (u : User.t) (db : DB) (mch : Merchant.t) :
  check_merchant_owner m u db = (db, Ok mch) ->
  let it :=
    stored_item (item_of (next_id (map Item.id (items db))) item m) in
  create_merchant_item m item u db
  = if sqlite_real (ItemCreateSchema.price item)
    then (insert_item it db, Ok it)
    else (db, Raise IntegrityError).
Proof.
  intros Hm it. unfold create_merchant_item.
  rewrite (partner_guard_ok _ _ _ _ _ Hm).
  rewrite (bind_ok _ _ db db (next_id (map Item.id (items db))))
    by reflexivity.
  cbv zeta. cbn [Item.price].
  fold (item_of (next_id (map Item.id (items db))) item m). fold it.
  destruct (sqlite_real (ItemCreateSchema.price item)).
  - rewrite (bind_ok _ _ db db tt) by reflexivity.
    rewrite (bind_ok _ _ db (insert_item it db) tt) by reflexivity.
    unfold refresh_item, bind, execute, lift, insert_item. cbn [items].
    rewrite filter_app.
    pose proof (filter_key_absent Item.id (items db) _
                  (next_id_not_in (map Item.id (items db)))) as Hf.
    cbn [item_of Item.id]. rewrite Hf. cbn [filter app].
    unfold it at 1. cbn [stored_item item_of Item.id].
    rewrite Z.eqb_refl. reflexivity.
  - apply bind_raise. reflexivity.
Qed.

(** X14.  Adding an item.  [create_merchant_item] is refused with 403 for a
    caller who is no partner and with the owner check's error when that
    fails.  For the owner it is served when the price is a number, and
    fails at the commit with [IntegrityError], storing nothing, when the
    price is NaN.  The new item gets a fresh id, the fields of the request
    (a zero price without its sign) and the merchant of the path; the
    schema's constraints keep holding, the other items keep their price,
    and the item is at once what [get_merchant_item] returns for its id,
    the last entry of [list_merchant_items], and an item of that merchant
    for [create_order]. *)
Theorem X14_item_create_round_trip :
  forall m item u db,
    (User.role u <> PARTNER ->
     create_merchant_item m item u db
     = (db, Raise (HTTPException 403 Operation_not_permitted_for_this_role)))
    /\ (forall e, User.role u = PARTNER ->
                  snd (check_merchant_owner m u db) = Raise e ->
                  create_merchant_item m item u db = (db, Raise e))
    /\ (forall mch,
          check_merchant_owner m u db = (db, Ok mch) ->
          PrimFloat.is_nan (ItemCreateSchema.price item) = true ->
          create_merchant_item m item u db = (db, Raise IntegrityError))
    /\ (forall mch,
          check_merchant_owner m u db = (db, Ok mch) ->
          PrimFloat.is_nan (ItemCreateSchema.price item) = false ->
          let it :=
            Item.mk (next_id (map Item.id (items db)))
              (ItemCreateSchema.name item) (ItemCreateSchema.description item)
              (stored_real (ItemCreateSchema.price item)) m in
          let db' := insert_item it db in
          create_merchant_item m item u db = (db', Ok it)
          /\ ~ In (Item.id it) (map Item.id (items db))
          /\ (schema_ok db = true -> schema_ok db' = true)
          /\ unit_price db' (Item.id it)
             = Some (stored_real (ItemCreateSchema.price item))
          /\ (forall j, j <> Item.id it -> unit_price db' j = unit_price db j)
          /\ belongs_to db' m (Item.id it) = true
          /\ (forall v, User.role v <> COURIER ->
                get_merchant_item m (Item.id it) v db' = (db', Ok it)
                /\ list_merchant_items m v db'
                   = (db', Ok (filter (fun x => Item.merchant_id x =? m)
                                 (items db) ++ [it])))).
Proof.
  intros m item u db. split; [|split; [|split]].
  - intros Hr. apply partner_guard_role. exact Hr.
  - intros e Hr He. apply partner_guard_raise; assumption.
  - intros mch Hm Hnan.
    rewrite (create_merchant_item_granted _ _ _ _ _ Hm).
    unfold sqlite_real. rewrite Hnan. reflexivity.
  - intros mch Hm Hnan it db'.
    assert (~ In (Item.id it) (map Item.id (items db))) as Hfresh
      by apply next_id_not_in.
    assert (Item.merchant_id it = m) as Hmid by reflexivity.
    assert (forall v, User.role v <> COURIER ->
                      role_in (User.role v) [PARTNER; CONSUMER] = true) as Hrole
      by (intros v Hv; destruct (User.role v); try reflexivity; contradiction).
    split; [|split; [exact Hfresh|]].
    { rewrite (create_merchant_item_granted _ _ _ _ _ Hm).
      unfold sqlite_real. rewrite Hnan. reflexivity. }
    split; [|split; [|split; [|split]]].
    + intros Hok. apply schema_ok_parts in Hok.
      destruct Hok as [Hpk [Hipk [Hfk [Hifk Hitfk]]]].
      destruct (check_merchant_owner_ok _ _ _ _ _ Hm)
        as [_ [_ [Hmin [Hmch _]]]].
      apply schema_ok_parts.
      unfold orders_pk, items_pk, orders_fk, order_items_fk, items_fk, db',
        insert_item in *. simpl.
      split; [exact Hpk|]. split.
      { apply nodupb_NoDup. rewrite map_app. simpl.
        apply nodupb_NoDup in Hipk.
        apply NoDup_app; [exact Hipk | repeat constructor; intros [] |].
        intros x Hx [Hx' | []]. apply Hfresh. subst x. exact Hx. }
      split; [exact Hfk|]. split.
      * rewrite forallb_forall in *. intros oi Hoi.
        specialize (Hifk oi Hoi). apply andb_true_iff in Hifk.
        destruct Hifk as [H1 H2]. apply andb_true_iff. split; [|exact H2].
        rewrite existsb_app, H1. reflexivity.
      * rewrite forallb_app, Hitfk. simpl. rewrite andb_true_r.
        apply existsb_exists. exists mch.
        split; [exact Hmin | apply Z.eqb_eq; exact Hmch].
    + unfold unit_price, db', insert_item. cbn [items].
      rewrite (find_key_app Item.id).
      rewrite (find_key_absent Item.id _ _ Hfresh), Z.eqb_refl. reflexivity.
    + intros j Hj. unfold unit_price, db', insert_item. cbn [items].
      rewrite (find_key_app Item.id).
      destruct (find (fun y => Item.id y =? j) (items db)); [reflexivity|].
      destruct (Z.eqb_spec (Item.id it) j); [congruence | reflexivity].
    + unfold belongs_to, db', insert_item. cbn [items].
      rewrite existsb_app. cbn [existsb]. rewrite Hmid, !Z.eqb_refl.
      cbn [andb orb]. apply orb_true_r.
    + intros v Hv. split.
      * unfold get_merchant_item.
        rewrite (bind_ok _ _ db' db' v)
          by (apply check_role_passes; exact (Hrole v Hv)).
        unfold bind, execute, lift, db', insert_item. cbn [items].
        rewrite (filter_fresh_key Item.id
                   (fun x => Item.merchant_id x =? m) _ it Hfresh)
          by (rewrite Hmid; apply Z.eqb_refl).
        reflexivity.
      * unfold list_merchant_items.
        rewrite (bind_ok _ _ db' db' v)
          by (apply check_role_passes; exact (Hrole v Hv)).
        unfold execute, db', insert_item. cbn [items]. rewrite filter_app.
        cbn [filter]. rewrite Hmid, Z.eqb_refl. reflexivity.
Qed.

(** Pat adds a pie to the Deli's menu; Ann finds it under id 4.  A pie
    whose price is no number is not stored. *)
Lemma X14_witness :
  get_merchant_item 1 4 Sample.ann
    (insert_item (Item.mk 4 "Pie" None 5%float 1) Sample.db0)
  = (insert_item (Item.mk 4 "Pie" None 5%float 1) Sample.db0,
     Ok (Item.mk 4 "Pie" None 5%float 1))
  /\ schema_ok (insert_item (Item.mk 4 "Pie" None 5%float 1) Sample.db0)
     = true
  /\ create_merchant_item 1 (ItemCreateSchema.mk "Pie" None nan) Sample.pat
       Sample.db0
     = (Sample.db0, Raise IntegrityError).
Proof.
  destruct (X14_item_create_round_trip 1
              (ItemCreateSchema.mk "Pie" None 5%float) Sample.pat Sample.db0)
    as [_ [_ [_ H]]].
  destruct (H (Merchant.mk 1 "Deli" None "Main St" 3))
    as [_ [_ [Hs [_ [_ [_ Hg]]]]]].
  - vm_compute. reflexivity.
  - vm_compute. reflexivity.
  - split; [apply (Hg Sample.ann); discriminate|].
    split; [apply Hs; vm_compute; reflexivity|].
    destruct (X14_item_create_round_trip 1
                (ItemCreateSchema.mk "Pie" None nan) Sample.pat Sample.db0)
      as [_ [_ [Hn _]]].
    apply (Hn (Merchant.mk 1 "Deli" None "Main St" 3));
      vm_compute; reflexivity.
Defined.



(** ** The merchant handlers *)

Lemma check_merchant_owner_lookup (m : Z) (u : User.t) (db db' : DB) :
  filter (fun x => Merchant.id x =? m) (merchants db')
  = filter (fun x => Merchant.id x =? m) (merchants db) ->
  snd (check_merchant_owner m u db') = snd (check_merchant_owner m u db).
Proof.
  intros H. unfold check_merchant_owner, bind, raise_if, execute, lift.
  destruct (negb (UserRole_eqb (User.role u) PARTNER)); [reflexivity|].
  unfold ret. cbn beta iota. rewrite H.
  destruct (scalar_one_or_none
              (filter (fun x => Merchant.id x =? m) (merchants db)))
    as [[x|]|e]; try reflexivity.
  destruct (negb (Merchant.partner_id x =? User.id u)); reflexivity.
Qed.

(** X16.  A partner's list of merchants.  [list_merchants] only reads and
    refuses a courier with 403; a consumer gets every merchant, a partner
    the merchants whose [partner_id] is theirs.  Every merchant that
    [check_merchant_owner] lets a partner manage is in that partner's list
    and, with unique merchant ids, the partner may manage every merchant of
    the list. *)
Theorem X16_partner_lists_own_merchants :
  forall u db,
    fst (list_merchants u db) = db
    /\ (User.role u = COURIER ->
        snd (list_merchants u db)
        = Raise (HTTPException 403 Operation_not_permitted_for_this_role))
    /\ (User.role u = CONSUMER ->
        snd (list_merchants u db) = Ok (merchants db))
    /\ (User.role u = PARTNER ->
        snd (list_merchants u db)
        = Ok (filter (fun x => Merchant.partner_id x =? User.id u)
                (merchants db))
        /\ (forall mch,
              check_merchant_owner (Merchant.id mch) u db = (db, Ok mch) ->
              In mch (filter (fun x => Merchant.partner_id x =? User.id u)
                        (merchants db)))
        /\ (merchants_pk db = true ->
            forall mch,
              In mch (filter (fun x => Merchant.partner_id x =? User.id u)
                        (merchants db)) ->
              check_merchant_owner (Merchant.id mch) u db = (db, Ok mch))).
Proof.
  intros u db. unfold list_merchants.
  split; [|split; [|split]].
  - unfold bind, check_role, raise_if, raise, ret, execute.
    destruct (negb (role_in (User.role u) [PARTNER; CONSUMER])); reflexivity.
  - intros Hr.
    rewrite (bind_raise _ _ db db
               (HTTPException 403 Operation_not_permitted_for_this_role))
      by (apply check_role_fails; rewrite Hr; reflexivity).
    reflexivity.
  - intros Hr.
    rewrite (bind_ok _ _ db db u)
      by (apply check_role_passes; rewrite Hr; reflexivity).
    rewrite Hr. reflexivity.
  - intros Hr.
    rewrite (bind_ok _ _ db db u)
      by (apply check_role_passes; rewrite Hr; reflexivity).
    rewrite Hr. split; [reflexivity|]. split.
    + intros mch H.
      destruct (check_merchant_owner_ok _ _ _ _ _ H) as [_ [_ [Hin [_ Hp]]]].
      apply filter_In. split; [exact Hin | apply Z.eqb_eq; exact Hp].
    + intros Hpk mch Hin. apply filter_In in Hin. destruct Hin as [Hin Hp].
      unfold merchants_pk in Hpk. apply nodupb_NoDup in Hpk.
      rewrite (check_merchant_owner_found _ u db mch Hr
                 (filter_key_unique Merchant.id _ mch Hpk Hin)).
      rewrite Hp. reflexivity.
Qed.

(** Pat's list holds the Deli and the Cafe, and Pat may manage the Cafe. *)
Lemma X16_witness :
  snd (list_merchants Sample.pat Sample.db0)
  = Ok [Merchant.mk 1 "Deli" None "Main St" 3;
        Merchant.mk 2 "Cafe" None "Oak St" 3]
  /\ check_merchant_owner 2 Sample.pat Sample.db0
     = (Sample.db0, Ok (Merchant.mk 2 "Cafe" None "Oak St" 3)).
Proof.
  destruct (X16_partner_lists_own_merchants Sample.pat Sample.db0)
    as [_ [_ [_ H]]].
  destruct H as [Hl [_ Hm]]; [reflexivity|].
  split; [exact Hl|].
  apply (Hm eq_refl (Merchant.mk 2 "Cafe" None "Oak St" 3)).
  simpl. right. left. reflexivity.
Defined.

(** X17.  Opening a merchant.  [create_merchant] is refused with 403 for a
    caller who is no partner and served for every partner.  The new
    merchant gets a fresh id, the fields of the request and the caller as
    its partner; the schema's constraints keep holding; the caller may
    manage it at once and finds it last in their list, another partner is
    refused with 403, and what [check_merchant_owner] answers for any other
    merchant id is what it answered before. *)
Theorem X17_merchant_create_round_trip :
  forall body u db,
    (User.role u <> PARTNER ->
     create_merchant body u db
     = (db, Raise (HTTPException 403 Operation_not_permitted_for_this_role)))
    /\ (User.role u = PARTNER ->
        let mch :=
          Merchant.mk (next_id (map Merchant.id (merchants db)))
            (MerchantCreateSchema.name body)
            (MerchantCreateSchema.description body)
            (MerchantCreateSchema.location body) (User.id u) in
        let db' := insert_merchant mch db in
        create_merchant body u db = (db', Ok mch)
        /\ ~ In (Merchant.id mch) (map Merchant.id (merchants db))
        /\ (merchants_pk db = true -> merchants_pk db' = true)
        /\ (schema_ok db = true -> schema_ok db' = true)
        /\ check_merchant_owner (Merchant.id mch) u db' = (db', Ok mch)
        /\ (forall v, User.role v = PARTNER -> User.id v <> User.id u ->
              check_merchant_owner (Merchant.id mch) v db'
              = (db', Raise (HTTPException 403
                               No_permission_to_manage_this_merchant)))
        /\ (forall m v, m <> Merchant.id mch ->
              snd (check_merchant_owner m v db')
              = snd (check_merchant_owner m v db))
        /\ snd (list_merchants u db')
           = Ok (filter (fun x => Merchant.partner_id x =? User.id u)
                   (merchants db) ++ [mch])).
Proof.
  intros body u db. split.
  - intros Hr. unfold create_merchant. apply bind_raise.
    apply check_role_fails. destruct (User.role u); try reflexivity.
    contradiction.
  - intros Hr mch db'.
    pose proof (next_id_not_in (map Merchant.id (merchants db))) as Hfresh.
    pose proof (filter_key_absent Merchant.id (merchants db) _ Hfresh) as Hf.
    assert (filter (fun x => Merchant.id x =? Merchant.id mch) (merchants db')
            = [mch]) as Hrow.
    { unfold db', insert_merchant. cbn [merchants]. rewrite filter_app.
      unfold mch at 1. cbn [Merchant.id]. rewrite Hf. cbn [filter app].
      rewrite Z.eqb_refl. reflexivity. }
    split; [|split; [exact Hfresh|]].
    { unfold create_merchant.
      rewrite (bind_ok _ _ db db u)
        by (apply check_role_passes; rewrite Hr; reflexivity).
      unfold bind at 1. unfold execute at 1. unfold bind at 1.
      unfold commit at 1. fold mch. fold db'.
      unfold refresh_merchant, bind, execute, lift. rewrite Hrow.
      reflexivity. }
    split; [|split; [|split; [|split; [|split]]]].
    + unfold merchants_pk, db', insert_merchant. cbn [merchants].
      intros Hpk. apply nodupb_NoDup. apply nodupb_NoDup in Hpk.
      rewrite map_app. cbn [map].
      apply NoDup_app; [exact Hpk | repeat constructor; intros [] |].
      intros x Hx [Hx' | []]. apply Hfresh. subst x. exact Hx.
    + intros Hok. apply schema_ok_parts in Hok.
      destruct Hok as [Hpk [Hipk [Hfk [Hifk Hitfk]]]].
      apply schema_ok_parts.
      unfold orders_pk, items_pk, orders_fk, order_items_fk, items_fk, db',
        insert_merchant in *.
      cbn [users merchants items orders order_items].
      split; [exact Hpk|]. split; [exact Hipk|]. split; [|split].
      * rewrite forallb_forall in *. intros o Ho. specialize (Hfk o Ho).
        apply andb_true_iff in Hfk. destruct Hfk as [H1 H2].
        apply andb_true_iff. split; [|exact H2].
        rewrite existsb_app, H1. reflexivity.
      * exact Hifk.
      * rewrite forallb_forall in *. intros x Hx.
        rewrite existsb_app, (Hitfk x Hx). reflexivity.
    + rewrite (check_merchant_owner_found _ u db' mch Hr Hrow).
      unfold mch at 1. cbn [Merchant.partner_id]. rewrite Z.eqb_refl.
      reflexivity.
    + intros v Hv Hne.
      rewrite (check_merchant_owner_found _ v db' mch Hv Hrow).
      unfold mch at 1. cbn [Merchant.partner_id].
      destruct (Z.eqb_spec (User.id u) (User.id v)) as [E|E];
        [exfalso; apply Hne; symmetry; exact E | reflexivity].
    + intros m v Hm. apply check_merchant_owner_lookup.
      unfold db', insert_merchant. cbn [merchants]. rewrite filter_app.
      cbn [filter].
      destruct (Z.eqb_spec (Merchant.id mch) m) as [E|E];
        [exfalso; apply Hm; symmetry; exact E | apply app_nil_r].
    + unfold list_merchants.
      rewrite (bind_ok _ _ db' db' u)
        by (apply check_role_passes; rewrite Hr; reflexivity).
      rewrite Hr. unfold execute, db', insert_merchant.
      cbn [snd merchants UserRole_eqb]. rewrite filter_app. cbn [filter].
      unfold mch at 1. cbn [Merchant.partner_id]. rewrite Z.eqb_refl.
      reflexivity.
Qed.

(** Pat opens a bar, may manage it at once, and the database stays well
    formed. *)
Lemma X17_witness :
  check_merchant_owner 3 Sample.pat
    (insert_merchant (Merchant.mk 3 "Bar" None "Elm St" 3) Sample.db0)
  = (insert_merchant (Merchant.mk 3 "Bar" None "Elm St" 3) Sample.db0,
     Ok (Merchant.mk 3 "Bar" None "Elm St" 3))
  /\ schema_ok
       (insert_merchant (Merchant.mk 3 "Bar" None "Elm St" 3) Sample.db0)
     = true.
Proof.
  destruct (X17_merchant_create_round_trip
              (MerchantCreateSchema.mk "Bar" None "Elm St") Sample.pat
              Sample.db0) as [_ H].
  destruct (H eq_refl) as [_ [_ [_ [Hs [Hc _]]]]].
  split; [exact Hc|]. apply Hs. vm_compute. reflexivity.
Defined.
